(** * CashMap: the allocation and balance-reconciliation engine

    A shallow embedding of the computational core of the CashMap envelope
    budgeting application (the Dashboard and Transactions components and
    [types.ts]), with the properties of its specification.

    Modelling conventions.
    - A JavaScript [number] holding money, a percentage or a ratio is an exact
      rational ([Q]); IEEE-754 rounding error is not modelled, the explicit
      rounding of the code ([toFixed(2)]) is.  [NaN] is the [None] of an
      [option Q] where the code tests for it.  What the properties say of
      amounts compared or rounded by the code is said so as not to depend on
      an error of that size: an amount written is a whole number of cents
      within half a cent of the number rounded, a share of exactly 0.01 is
      written or not, and where two sums are equal the answer to a question
      that rounding may bring up is given.
    - Strings are [string]; [<=] on date strings is the lexicographic order
      on character codes ([String.leb]), as in JavaScript.  [toLowerCase] and
      [trim] are the ones of JavaScript on ASCII text.
    - An optional field is an [option]; JavaScript truthiness of an optional
      string is [Js.truthy] (absent and empty are both falsy).
    - What the code obtains from the JavaScript runtime ([new Date(s).getTime()],
      number-to-string conversion, [uuidv4()]) is a field of the class
      [Js.Runtime]; the ids handed out by [uuidv4] are drawn from a sequence
      indexed by a counter that the handlers thread explicitly.
    - A React handler is a function from the component's props and state and
      the user's answers to [confirm] dialogs to an outcome that says which
      alert was shown and which state was written. *)

From Stdlib Require Import QArith Qround Qminmax Qabs ZArith List String Ascii Bool.
From Stdlib Require Import Lia Lqa Permutation Sorted DecimalString OrderedTypeEx.
From stdpp Require Import gmap strings.
Import ListNotations.

Open Scope string_scope.
Open Scope Q_scope.

(** ** The JavaScript runtime *)

Module Js.

Class Runtime := {
  (** [new Date(s).getTime()] *)
  getTime : string -> Z;
  (** the string a number is rendered as inside a template literal *)
  numberToString : Q -> string;
  (** the n-th identifier produced by [uuidv4()] *)
  uuid : nat -> string
}.

(** Truthiness of an optional string: [undefined] and [''] are falsy. *)
Definition truthy (o : option string) : bool :=
  match o with
  | Some s => negb (String.eqb s "")
  | None => false
  end.

(** [o === s] for an optional string [o] and a string [s]. *)
Definition opt_is (o : option string) (s : string) : bool :=
  match o with
  | Some x => String.eqb x s
  | None => false
  end.

Definition Qlt_bool (a b : Q) : bool := negb (Qle_bool b a).
Definition Qgt_bool (a b : Q) : bool := negb (Qle_bool a b).

(** [parseFloat(x.toFixed(2))]: the nearest multiple of 1/100, a tie going
    away from zero ([toFixed] rounds the absolute value, picking the larger
    candidate, and restores the sign). *)
Definition toFixed2 (x : Q) : Q :=
  if Qlt_bool x 0
  then - (Qfloor (- x * 100 + (1 # 2)) # 100)
  else Qfloor (x * 100 + (1 # 2)) # 100.

(** [l.reduce((sum, t) => sum + f(t), 0)] *)
Definition sum_by {A : Type} (f : A -> Q) (l : list A) : Q :=
  fold_left (fun sum t => sum + f t) l 0.

(** [Array.prototype.sort(cmp)] is stable; with a consistent comparator
    its result is the one stable insertion sort produces. *)
Fixpoint insert {A : Type} (cmp : A -> A -> Z) (x : A) (l : list A) : list A :=
  match l with
  | [] => [x]
  | y :: l' => if (cmp x y <=? 0)%Z then x :: y :: l' else y :: insert cmp x l'
  end.

Definition sort {A : Type} (cmp : A -> A -> Z) (l : list A) : list A :=
  fold_right (insert cmp) [] l.

(** [s.startsWith(p)] and [s.includes(p)] *)
Definition startsWith (s p : string) : bool := String.prefix p s.

Definition includes (s p : string) : bool :=
  match String.index 0 p s with
  | Some _ => true
  | None => false
  end.

End Js.

(** ** The data model ([types.ts]) *)

Inductive TransactionType := INCOME | EXPENSE | TRANSFER.

Definition TransactionType_eqb (a b : TransactionType) : bool :=
  match a, b with
  | INCOME, INCOME | EXPENSE, EXPENSE | TRANSFER, TRANSFER => true
  | _, _ => false
  end.

Inductive CategoryType := expense | income | investment.

Definition CategoryType_eqb (a b : CategoryType) : bool :=
  match a, b with
  | expense, expense | income, income | investment, investment => true
  | _, _ => false
  end.

Inductive TransferDirection := dir_in | dir_out.

Module ScheduledBudgetChange.
Record t := mk {
  id : string;
  date : string;
  amount : Q
}.
End ScheduledBudgetChange.

Module Category.
Record t := mk {
  id : string;
  name : string;
  type : CategoryType;
  monthlyBudget : Q;
  rollover : Q;
  allocationRule : Q;
  color : string;
  startDate : option string;
  scheduledChanges : option (list ScheduledBudgetChange.t);
  linkedPaymentIndex : option Z
}.
End Category.

Module Transaction.
Record t := mk {
  id : string;
  date : string;
  amount : Q;
  description : string;
  categoryId : option string;
  accountId : option string;
  type : TransactionType;
  parentTransactionId : option string;
  transferDirection : option TransferDirection;
  transferPeerId : option string
}.

(** [{ ...t, amount: a }] *)
Definition with_amount (a : Q) (x : t) : t :=
  mk (id x) (date x) a (description x) (categoryId x) (accountId x) (type x)
     (parentTransactionId x) (transferDirection x) (transferPeerId x).

(** [{ ...t, description: d, categoryId: c }] *)
Definition with_description_category (d : string) (c : string) (x : t) : t :=
  mk (id x) (date x) (amount x) d (Some c) (accountId x) (type x)
     (parentTransactionId x) (transferDirection x) (transferPeerId x).
End Transaction.

Module AllocationRule.
Record t := mk {
  paymentIndex : Z;
  percentage : Q;
  amount : Q;
  name : option string;
  note : option string;
  isUncertain : option bool
}.
End AllocationRule.

Module IncomeSource.
Record t := mk {
  id : string;
  name : string;
  currency : string;
  estimatedAmount : Q;
  allocations : list AllocationRule.t;
  openingBalance : option Q
}.
End IncomeSource.

(** [categories.find(c => c.id === id)] for an optional [id]. *)
Definition findCategory (categories : list Category.t) (id : option string)
  : option Category.t :=
  find (fun c => Js.opt_is id (Category.id c)) categories.

(** The three descriptions of the legacy system transactions. *)
Definition isLegacySystemTx (t : Transaction.t) : bool :=
  String.eqb (Transaction.description t) "Funds Distributed to Envelopes"
  || String.eqb (Transaction.description t) "Unallocated Remainder"
  || String.eqb (Transaction.description t) "Filled Envelopes".

(** ** Schedule resolver *)

Section Schedule.
Context `{rt : Js.Runtime}.

(** The comparator of the source's sort: latest date first. *)
Definition byDateDesc (a b : ScheduledBudgetChange.t) : Z :=
  (Js.getTime (ScheduledBudgetChange.date b)
   - Js.getTime (ScheduledBudgetChange.date a))%Z.

Definition getBudgetForDate (cat : Category.t) (dateStr : string) : Q :=
  match Category.scheduledChanges cat with
  | Some ((_ :: _) as changes) =>
      match find (fun change => String.leb (ScheduledBudgetChange.date change) dateStr)
                 (Js.sort byDateDesc changes) with
      | Some activeChange => ScheduledBudgetChange.amount activeChange
      | None => Category.monthlyBudget cat
      end
  | _ => Category.monthlyBudget cat
  end.

(** The schedule of a category, empty when the field is absent. *)
Definition schedule (cat : Category.t) : list ScheduledBudgetChange.t :=
  match Category.scheduledChanges cat with
  | Some changes => changes
  | None => []
  end.

(** The changes in force at [dateStr]: those dated on or before it. *)
Definition inForce (cat : Category.t) (dateStr : string)
  : list ScheduledBudgetChange.t :=
  List.filter (fun change => String.leb (ScheduledBudgetChange.date change) dateStr)
              (schedule cat).

(** On well-formed ISO dates the order of the timestamps is the order of the
    strings; this is the check of that agreement on a given schedule. *)
Definition chronological (changes : list ScheduledBudgetChange.t) : bool :=
  forallb (fun a =>
    forallb (fun b =>
      implb (Js.getTime (ScheduledBudgetChange.date a)
             <=? Js.getTime (ScheduledBudgetChange.date b))%Z
            (String.leb (ScheduledBudgetChange.date a) (ScheduledBudgetChange.date b)))
      changes) changes.
End Schedule.

(** ** Reports shown to the user *)

Inductive Alert :=
| AlertNoFunds
| AlertPreviousFullyFunded
| AlertNoAllocations
| AlertInsufficientFunds (expenseAmount totalFunded remainderFromPool available : Q)
| AlertMissingOtherCategory
| AlertImported (imported autoMatched : nat).

Inductive AllocationDateMode := current | previous.

(** ** Strings of the runtime library *)

Module JsString.

Definition lowerChar (c : ascii) : ascii :=
  let n := nat_of_ascii c in
  if (65 <=? n)%nat && (n <=? 90)%nat then ascii_of_nat (n + 32) else c.

(** [s.toLowerCase()] on the ASCII letters. *)
Fixpoint toLowerCase (s : string) : string :=
  match s with
  | EmptyString => EmptyString
  | String c s' => String (lowerChar c) (toLowerCase s')
  end.

(** [names.join(', ')] *)
Fixpoint join (sep : string) (l : list string) : string :=
  match l with
  | [] => ""
  | [x] => x
  | x :: l' => x ++ sep ++ join sep l'
  end.

(** [s.split(sep)[0]] for a non-empty separator: the part of [s] before the
    first occurrence of [sep], or all of [s]. *)
Definition beforeFirst (sep s : string) : string :=
  match String.index 0 sep s with
  | Some i => String.substring 0 i s
  | None => s
  end.

(** The decimal digits of a natural number. *)
Definition ofNat (n : nat) : string := NilEmpty.string_of_uint (Nat.to_uint n).

(** [s.padStart(2, '0')] *)
Definition padStart2 (s : string) : string :=
  match String.length s with
  | 0%nat => "00"
  | 1%nat => "0" ++ s
  | _ => s
  end.

Definition isDigit (c : ascii) : bool :=
  let n := nat_of_ascii c in (48 <=? n)%nat && (n <=? 57)%nat.

Definition digitValue (c : ascii) : Z := Z.of_nat (nat_of_ascii c - 48).

(** White space skipped by [parseFloat] and removed by [trim] (ASCII). *)
Definition isSpace (c : ascii) : bool :=
  let n := nat_of_ascii c in ((9 <=? n)%nat && (n <=? 13)%nat) || (n =? 32)%nat.

Fixpoint chars (s : string) : list ascii :=
  match s with
  | EmptyString => []
  | String c s' => c :: chars s'
  end.

Fixpoint ofChars (l : list ascii) : string :=
  match l with
  | [] => EmptyString
  | c :: l' => String c (ofChars l')
  end.

Fixpoint dropWhile {A : Type} (p : A -> bool) (l : list A) : list A :=
  match l with
  | [] => []
  | x :: l' => if p x then dropWhile p l' else l
  end.

Fixpoint takeWhile {A : Type} (p : A -> bool) (l : list A) : list A :=
  match l with
  | [] => []
  | x :: l' => if p x then x :: takeWhile p l' else []
  end.

(** [s.trim()] *)
Definition trim (s : string) : string :=
  ofChars (rev (dropWhile isSpace (rev (dropWhile isSpace (chars s))))).

(** The number a run of decimal digits denotes. *)
Definition digitsValue (ds : list ascii) : Z :=
  fold_left (fun n c => (10 * n + digitValue c)%Z) ds 0%Z.

(** [parseInt(s)] on a string of decimal digits (the captures of the date
    pattern): the number its leading digits denote, [None] for [NaN]. *)
Definition parseInt (s : string) : option Z :=
  match takeWhile isDigit (dropWhile isSpace (chars s)) with
  | [] => None
  | ds => Some (digitsValue ds)
  end.

(** The exponent part [e[+-]digits] at the head of [l], if there is one. *)
Definition exponentPart (l : list ascii) : Z :=
  match l with
  | c :: l' =>
      if Ascii.eqb c "e" || Ascii.eqb c "E" then
        let '(neg, l'') :=
          match l' with
          | s :: r => if Ascii.eqb s "-" then (true, r)
                      else if Ascii.eqb s "+" then (false, r) else (false, l')
          | [] => (false, l')
          end in
        match takeWhile isDigit l'' with
        | [] => 0%Z
        | ds => if neg then (- digitsValue ds)%Z else digitsValue ds
        end
      else 0%Z
  | [] => 0%Z
  end.

(** [parseFloat(s)]: the value of the longest prefix of [s], after leading
    white space, that is a decimal literal; [None] is [NaN].  The literal
    [Infinity] has no rational value and is read as [None]. *)
Definition parseFloat (s : string) : option Q :=
  let l := dropWhile isSpace (chars s) in
  let '(neg, l) :=
    match l with
    | c :: r => if Ascii.eqb c "-" then (true, r)
                else if Ascii.eqb c "+" then (false, r) else (false, l)
    | [] => (false, l)
    end in
  let intPart := takeWhile isDigit l in
  let afterInt := dropWhile isDigit l in
  let '(fracPart, rest) :=
    match afterInt with
    | c :: r => if Ascii.eqb c "." then (takeWhile isDigit r, dropWhile isDigit r)
                else ([], afterInt)
    | [] => ([], afterInt)
    end in
  match (intPart ++ fracPart)%list with
  | [] => None
  | ds =>
      let mantissa := inject_Z (digitsValue ds) / inject_Z (10 ^ Z.of_nat (List.length fracPart)) in
      let e := exponentPart rest in
      let scaled := if (0 <=? e)%Z then mantissa * inject_Z (10 ^ e)
                    else mantissa / inject_Z (10 ^ (- e)) in
      Some (Qred (if neg then - scaled else scaled))
  end.

End JsString.

(** [Object.values(fundingSources).reduce((a, b) => a + b, 0)], the funding
    sources being given as the entries of the object, in its order. *)
Definition totalFunded (fundingSources : list (string * Q)) : Q :=
  fold_left (fun a b => a + b) (List.map snd fundingSources) 0.

(** ** Loops that push new transactions *)

Section Push.
Context `{rt : Js.Runtime}.

(** [l.forEach(x => { if (keep x) out.push(mk(uuidv4(), x)) })], with [out]
    holding [acc] at the start: the ids are drawn in the order of the pushes,
    [next] being the first the loop may draw. *)
Definition pushFrom {A : Type} (keep : A -> bool) (mk : string -> A -> Transaction.t)
    (next : nat) (l : list A) (acc : list Transaction.t) : list Transaction.t :=
  fold_left (fun out x =>
               if keep x then (out ++ [mk (Js.uuid (next + List.length out)) x])%list
               else out) l acc.

Definition forEachPush {A : Type} (l : list A) (keep : A -> bool)
    (mk : string -> A -> Transaction.t) (next : nat) : list Transaction.t :=
  pushFrom keep mk next l [].
End Push.

(** ** Objects used as maps

    A [Record<string, number>] is the list of its entries in the order of
    [Object.entries] (the order in which the keys were first set, for keys
    that are not array indexes). *)

Module JsObject.

(** [obj[k]] *)
Fixpoint get (k : string) (entries : list (string * Q)) : option Q :=
  match entries with
  | [] => None
  | (k', x) :: rest => if String.eqb k' k then Some x else get k rest
  end.

(** [obj[k] = x]: a key already set keeps its place. *)
Fixpoint set (k : string) (x : Q) (entries : list (string * Q)) : list (string * Q) :=
  match entries with
  | [] => [(k, x)]
  | (k', x') :: rest =>
      if String.eqb k' k then (k, x) :: rest else (k', x') :: set k x rest
  end.

(** [obj[k] || 0] *)
Definition getOrZero (k : string) (entries : list (string * Q)) : Q :=
  match get k entries with
  | Some x => x
  | None => 0
  end.

End JsObject.

(** ** The Dashboard component

    The revision whose pool starts from the opening balance of the income
    source.  The revision with accounts, modelled further down, shares with
    this one its [getBudgetForDate], the filters of its pool, the deficits of
    the gap fill and the targets of a rule; its [deleteTransaction] is the one
    of the Transactions component with accounts. *)

Module Dashboard.

(** The view month, as the date helpers of the component derive it from
    [viewDate]: the month as [YYYY-MM], the number of its days, and the same
    for the month before. *)
Record View := mkView {
  viewMonthStr : string;
  daysInMonth : nat;
  prevMonthStr : string;
  prevMonthDays : nat
}.

Definition startOfMonthStr (v : View) : string := viewMonthStr v ++ "-01".
Definition endOfViewMonthStr (v : View) : string :=
  viewMonthStr v ++ "-" ++ JsString.ofNat (daysInMonth v).
Definition prevMonthEndStr (v : View) : string :=
  prevMonthStr v ++ "-" ++ JsString.ofNat (prevMonthDays v).

Section Calculations.
Context `{rt : Js.Runtime}.
Variable categories : list Category.t.
Variable transactions : list Transaction.t.
Variable incomeSources : list IncomeSource.t.
Variable v : View.

Definition activeSource : option IncomeSource.t := nth_error incomeSources 0.

(** 1. Gross available income (the pool). *)
Definition grossIncomeTransactions : list Transaction.t :=
  List.filter (fun t =>
    if negb (TransactionType_eqb (Transaction.type t) INCOME) then false
    else if String.ltb (endOfViewMonthStr v) (Transaction.date t) then false
    else if isLegacySystemTx t then false
    else if negb (Js.truthy (Transaction.categoryId t)) then true
    else match findCategory categories (Transaction.categoryId t) with
         | Some cat => CategoryType_eqb (Category.type cat) income
         | None => false
         end) transactions.

Definition totalGrossIncome : Q := Js.sum_by Transaction.amount grossIncomeTransactions.

(** 2. Allocated funds (money moved from the pool to envelopes). *)
Definition allocatedTransactions : list Transaction.t :=
  List.filter (fun t =>
    if negb (TransactionType_eqb (Transaction.type t) INCOME) then false
    else if String.ltb (endOfViewMonthStr v) (Transaction.date t) then false
    else if negb (Js.truthy (Transaction.categoryId t)) then false
    else match findCategory categories (Transaction.categoryId t) with
         | Some cat => CategoryType_eqb (Category.type cat) expense
                       || CategoryType_eqb (Category.type cat) investment
         | None => false
         end) transactions.

Definition totalAllocated : Q := Js.sum_by Transaction.amount allocatedTransactions.

(** 3. Uncategorized expenses (money spent directly from the pool). *)
Definition uncategorizedExpenses : Q :=
  Js.sum_by Transaction.amount
    (List.filter (fun t =>
       TransactionType_eqb (Transaction.type t) EXPENSE
       && negb (Js.truthy (Transaction.categoryId t))
       && String.leb (Transaction.date t) (endOfViewMonthStr v)) transactions).

(** 4. Final available to budget; [activeSource?.openingBalance || 0]. *)
Definition openingBalance : Q :=
  match activeSource with
  | Some src => match IncomeSource.openingBalance src with
                | Some b => b
                | None => 0
                end
  | None => 0
  end.

Definition totalUnallocatedAvailable : Q :=
  openingBalance + totalGrossIncome - totalAllocated - uncategorizedExpenses.

(** Income transactions of the view month, earliest first. *)
Definition currentMonthIncomeTxs : list Transaction.t :=
  Js.sort (fun a b => (Js.getTime (Transaction.date a)
                       - Js.getTime (Transaction.date b))%Z)
    (List.filter (fun t =>
       Js.startsWith (Transaction.date t) (viewMonthStr v)
       && Js.truthy (Transaction.categoryId t)
       && match findCategory categories (Transaction.categoryId t) with
          | Some cat => CategoryType_eqb (Category.type cat) income
          | None => false
          end) grossIncomeTransactions).

(** Has an allocation rule been executed for the view month? *)
Definition isAllocationRuleExecuted (ruleIndex : nat) : bool :=
  match activeSource with
  | None => false
  | Some src =>
      match nth_error (IncomeSource.allocations src) ruleIndex with
      | None => false
      | Some rule =>
          let ruleTag := "(" ++ Js.numberToString (AllocationRule.percentage rule) ++ "%)" in
          existsb (fun t =>
            TransactionType_eqb (Transaction.type t) INCOME
            && Js.startsWith (Transaction.date t) (viewMonthStr v)
            && Js.includes (Transaction.description t) ruleTag
            && Js.startsWith (Transaction.description t) "Allocated:") transactions
      end
  end.

Definition expenseCategories : list Category.t :=
  List.filter (fun c => CategoryType_eqb (Category.type c) expense) categories.

(** *** [deleteTransaction] *)
Definition deleteTransaction (id : string) : list Transaction.t :=
  let prev := transactions in
  let children :=
    List.filter (fun t => Js.opt_is (Transaction.parentTransactionId t) id) prev in
  let idsToDelete : gset string :=
    list_to_set (id :: List.map Transaction.id children) in
  List.filter (fun t => negb (bool_decide (Transaction.id t ∈ idsToDelete))) prev.


(** *** [handleCreateOneTimeExpense] *)

Record OneTimeOutcome := mkOneTime {
  ot_categories : list Category.t;
  ot_transactions : list Transaction.t;
  ot_alert : option Alert;
  ot_next : nat
}.

(** The names of the categories money is taken from, joined by a comma. *)
Definition sourceNames (fundingSources : list (string * Q)) : string :=
  JsString.join ", "
    (List.filter (fun n => negb (String.eqb n ""))
       (List.map (fun '(id, _) =>
                    match findCategory categories (Some id) with
                    | Some c => Category.name c
                    | None => ""
                    end)
          (List.filter (fun '(_, amt) => Js.Qgt_bool amt 0) fundingSources))).

Definition handleCreateOneTimeExpense
    (oneTimeDesc oneTimeAmount oneTimeDate : string)
    (fundingSources : list (string * Q)) (next : nat) : OneTimeOutcome :=
  let unchanged alert := mkOneTime categories transactions alert next in
  match JsString.parseFloat oneTimeAmount with
  | None => unchanged None
  | Some expenseAmount =>
      if Qle_bool expenseAmount 0 then unchanged None
      else
        let totalFunded := totalFunded fundingSources in
        let remainderFromPool := Qmax 0 (expenseAmount - totalFunded) in
        if Js.Qgt_bool remainderFromPool (totalUnallocatedAvailable + 0.01) then
          unchanged (Some (AlertInsufficientFunds expenseAmount totalFunded
                             remainderFromPool totalUnallocatedAvailable))
        else
          let '(otherCategory, categories', next1) :=
            match find (fun c => String.eqb (JsString.toLowerCase (Category.name c))
                                            "other expenses") categories with
            | Some c => (c, categories, next)
            | None =>
                let newOtherCat :=
                  Category.mk (Js.uuid next) "Other Expenses" expense 0 0 0 "#64748b"
                              (Some oneTimeDate) (Some []) None in
                (newOtherCat, (categories ++ [newOtherCat])%list, S next)
            end in
          let txs :=
            forEachPush fundingSources (fun '(_, val) => negb (Qle_bool val 0))
              (fun id '(catId, val) =>
                 Transaction.mk id oneTimeDate (- val)
                   ("Moved for One-Time: " ++ oneTimeDesc) (Some catId) None INCOME
                   None None None) next1 in
          let names := sourceNames fundingSources in
          let finalDesc :=
            if String.eqb names "" then oneTimeDesc
            else oneTimeDesc ++ " (Funded by: " ++ names ++ ")" in
          let next2 := (next1 + List.length txs)%nat in
          let txs := (txs ++ [Transaction.mk (Js.uuid next2) oneTimeDate expenseAmount
                                finalDesc (Some (Category.id otherCategory)) None
                                EXPENSE None None None])%list in
          mkOneTime categories' (txs ++ transactions)%list None (S next2)
  end.

(** *** [handleDistributeIncome] *)

Record DistributeOutcome := mkDistribute {
  di_transactions : list Transaction.t;
  di_mode : AllocationDateMode;
  di_alert : option Alert;
  di_next : nat
}.

(** The date given to the new transactions. *)
Definition distributionDate (today : string) (mode : AllocationDateMode) : string :=
  match mode with
  | previous => prevMonthEndStr v
  | current =>
      if negb (Js.startsWith today (viewMonthStr v)) then viewMonthStr v ++ "-01"
      else today
  end.

Definition effectiveParentTxId (selectedAllocationIndex : nat) : option string :=
  match nth_error currentMonthIncomeTxs selectedAllocationIndex with
  | Some t => Some (Transaction.id t)
  | None =>
      match currentMonthIncomeTxs with
      | t :: _ => Some (Transaction.id t)
      | [] => None
      end
  end.

(** Gap fill: what a category was already given in the previous month. *)
Definition allocatedInPrevMonth (cat : Category.t) : Q :=
  Js.sum_by Transaction.amount
    (List.filter (fun t =>
       Js.opt_is (Transaction.categoryId t) (Category.id cat)
       && TransactionType_eqb (Transaction.type t) INCOME
       && Js.startsWith (Transaction.date t) (prevMonthStr v)) transactions).

Definition deficits (dateStr : string) : list (Category.t * Q) :=
  List.filter (fun d => Js.Qgt_bool (snd d) 0)
    (List.map (fun cat =>
                 let target := getBudgetForDate cat dateStr in
                 let allocated := allocatedInPrevMonth cat in
                 (cat, Qmax 0 (target - allocated)))
       expenseCategories).

(** Current month: the multiplier of a category under a rule. *)
Definition multiplier (rule : AllocationRule.t) (cat : Category.t) : Q :=
  let multiplier := AllocationRule.percentage rule / 100 in
  match Category.linkedPaymentIndex cat with
  | Some linked =>
      if negb (linked =? 0)%Z && (linked >? 0)%Z then
        if (linked =? AllocationRule.paymentIndex rule)%Z then 1 else 0
      else multiplier
  | None => multiplier
  end.

(** The [targets] array: category, share and multiplier. *)
Definition targets (rule : AllocationRule.t) (dateStr : string)
  : list (Category.t * Q * Q) :=
  List.map (fun cat =>
              let budget := getBudgetForDate cat dateStr in
              let multiplier := multiplier rule cat in
              let share := budget * multiplier in
              (cat, share, multiplier))
    expenseCategories.

Definition potentialAllocation (rule : AllocationRule.t) (dateStr : string) : Q :=
  fold_left (fun potentialAllocation '(_, share, _) => potentialAllocation + share)
    (targets rule dateStr) 0.

(** [activeSource?.allocations[selectedAllocationIndex]] *)
Definition selectedRule (selectedAllocationIndex : nat) : option AllocationRule.t :=
  match activeSource with
  | Some src => nth_error (IncomeSource.allocations src) selectedAllocationIndex
  | None => None
  end.

Definition handleDistributeIncome (today : string)
    (allocationDateMode : AllocationDateMode) (selectedAllocationIndex : nat)
    (confirmDuplicate confirmProportional : bool) (next : nat) : DistributeOutcome :=
  let unchanged alert := mkDistribute transactions allocationDateMode alert next in
  let finish newTransactions :=
    match newTransactions with
    | [] => unchanged (Some AlertNoAllocations)
    | _ => mkDistribute (transactions ++ newTransactions)%list allocationDateMode None
             (next + List.length newTransactions)%nat
    end in
  let poolAmount := totalUnallocatedAvailable in
  if Qle_bool poolAmount 0 then unchanged (Some AlertNoFunds)
  else
    let dateStr := distributionDate today allocationDateMode in
    match allocationDateMode with
    | previous =>
        let deficits := deficits dateStr in
        let totalDeficit := Js.sum_by snd deficits in
        if Qeq_bool totalDeficit 0 then
          mkDistribute transactions current (Some AlertPreviousFullyFunded) next
        else
          let ratio := Qmin 1 (poolAmount / totalDeficit) in
          finish
            (forEachPush deficits
               (fun '(_, deficit) => Js.Qgt_bool (deficit * ratio) 0.01)
               (fun id '(cat, deficit) =>
                  Transaction.mk id dateStr (Js.toFixed2 (deficit * ratio))
                    ("Gap Fill: " ++ Category.name cat) (Some (Category.id cat)) None
                    INCOME None None None) next)
    | current =>
        match selectedRule selectedAllocationIndex with
        | None => unchanged None
        | Some rule =>
            if isAllocationRuleExecuted selectedAllocationIndex && negb confirmDuplicate
            then unchanged None
            else
              let targets := targets rule dateStr in
              let potentialAllocation := potentialAllocation rule dateStr in
              let exceeds := Js.Qgt_bool potentialAllocation poolAmount in
              if exceeds && negb confirmProportional then unchanged None
              else
                let finalRatio :=
                  if exceeds then poolAmount / potentialAllocation else 1 in
                finish
                  (forEachPush targets
                     (fun '(_, share, _) => Js.Qgt_bool (share * finalRatio) 0.01)
                     (fun id '(cat, share, multiplier) =>
                        let isStrict := Qeq_bool multiplier 1 in
                        let desc :=
                          if isStrict
                          then "Allocated: " ++ Category.name cat
                               ++ " (100% via Linked Payment)"
                          else "Allocated: " ++ Category.name cat ++ " ("
                               ++ Js.numberToString (AllocationRule.percentage rule)
                               ++ "%)" in
                        Transaction.mk id dateStr (Js.toFixed2 (share * finalRatio))
                          desc (Some (Category.id cat)) None INCOME
                          (effectiveParentTxId selectedAllocationIndex) None None)
                     next)
        end
    end.


(** *** Category statistics *)

(** The sum of the amounts of the transactions of a category, of a type,
    whose date passes a test. *)
Definition categorySum (cat : Category.t) (type : TransactionType)
    (inRange : string -> bool) : Q :=
  Js.sum_by Transaction.amount
    (List.filter (fun t =>
       Js.opt_is (Transaction.categoryId t) (Category.id cat)
       && TransactionType_eqb (Transaction.type t) type
       && inRange (Transaction.date t)) transactions).

(** [t.date < startOfMonthStr] *)
Definition beforeMonth (date : string) : bool := String.ltb date (startOfMonthStr v).

(** [t.date >= startOfMonthStr && t.date <= endOfViewMonthStr] *)
Definition inMonth (date : string) : bool :=
  String.leb (startOfMonthStr v) date && String.leb date (endOfViewMonthStr v).

Definition carriedOver (cat : Category.t) : Q :=
  let prevIncome := categorySum cat INCOME beforeMonth in
  let prevSpent := categorySum cat EXPENSE beforeMonth in
  Category.rollover cat + prevIncome - prevSpent.

Definition thisMonthIncome (cat : Category.t) : Q := categorySum cat INCOME inMonth.

Definition thisMonthSpent (cat : Category.t) : Q := categorySum cat EXPENSE inMonth.

Record CategoryStats := mkStats {
  st_category : Category.t;
  st_totalAvailableForMonth : Q;
  st_remaining : Q;
  st_thisMonthSpent : Q;
  st_budget : Q
}.

Definition getCategoryStats (subset : list Category.t) : list CategoryStats :=
  List.map (fun cat =>
              let totalAvailableForMonth := carriedOver cat + thisMonthIncome cat in
              let remaining := totalAvailableForMonth - thisMonthSpent cat in
              let budget := getBudgetForDate cat (endOfViewMonthStr v) in
              mkStats cat totalAvailableForMonth remaining (thisMonthSpent cat) budget)
    subset.

(** *** The previous month: target, allocated and gap *)

Record PrevMonthStats := mkPrev {
  pm_target : Q;
  pm_allocated : Q;
  pm_gap : Q
}.

Definition prevMonthStats : PrevMonthStats :=
  let expenseCats :=
    List.filter (fun c => CategoryType_eqb (Category.type c) expense) categories in
  let target := Js.sum_by (fun c => getBudgetForDate c (prevMonthEndStr v)) expenseCats in
  let allocated :=
    Js.sum_by Transaction.amount
      (List.filter (fun t =>
         match findCategory categories (Transaction.categoryId t) with
         | Some cat => CategoryType_eqb (Category.type cat) expense
         | None => false
         end)
         (List.filter (fun t =>
            TransactionType_eqb (Transaction.type t) INCOME
            && Js.truthy (Transaction.categoryId t)
            && Js.startsWith (Transaction.date t) (prevMonthStr v)) transactions)) in
  mkPrev target allocated (target - allocated).

(** *** [handleAddTransaction] and [handleTopUp] *)

(** [s || undefined] *)
Definition orUndefined (s : string) : option string :=
  if String.eqb s "" then None else Some s.

Definition handleAddTransaction (newTxDesc newTxAmount newTxCat newTxDate : string)
    (newTxType : TransactionType) (next : nat) : list Transaction.t * nat :=
  if String.eqb newTxDesc "" || String.eqb newTxAmount "" then (transactions, next)
  else
    match JsString.parseFloat newTxAmount with
    | None => (transactions, next)
    | Some amountVal =>
        if Qle_bool amountVal 0 then (transactions, next)
        else
          let newTx :=
            Transaction.mk (Js.uuid next) newTxDate amountVal newTxDesc
              (orUndefined newTxCat) None newTxType None None None in
          (newTx :: transactions, S next)
    end.

Definition handleTopUp (topUpCategory : option Category.t) (topUpAmount : string)
    (today : string) (confirmDeficit : bool) (next : nat) : list Transaction.t * nat :=
  match topUpCategory with
  | None => (transactions, next)
  | Some topUpCategory =>
      if String.eqb topUpAmount "" then (transactions, next)
      else
        match JsString.parseFloat topUpAmount with
        | None => (transactions, next)
        | Some amountVal =>
            if Qle_bool amountVal 0 then (transactions, next)
            else if Js.Qgt_bool amountVal totalUnallocatedAvailable
                    && negb confirmDeficit
            then (transactions, next)
            else
              let newTx :=
                Transaction.mk (Js.uuid next) today amountVal
                  ("Manual Top-up: " ++ Category.name topUpCategory)
                  (Some (Category.id topUpCategory)) None INCOME None None None in
              (newTx :: transactions, S next)
        end
  end.

End Calculations.
End Dashboard.

(** ** The Transactions component *)

Inductive CsvMode := single | split.

Module CsvMapping.
Record t := mk {
  dateIndex : nat;
  descIndex : nat;
  mode : CsvMode;
  amountIndex : nat;
  debitIndex : nat;
  creditIndex : nat
}.
End CsvMapping.

(** [Partial<Transaction>]: for every field, whether the key is present and
    the value it then has. *)
Module PartialTransaction.
Record t := mk {
  id : option string;
  date : option string;
  amount : option Q;
  description : option string;
  categoryId : option (option string);
  accountId : option (option string);
  type : option TransactionType;
  parentTransactionId : option (option string);
  transferDirection : option (option TransferDirection);
  transferPeerId : option (option string)
}.

Definition or_else {A : Type} (o : option A) (d : A) : A :=
  match o with
  | Some x => x
  | None => d
  end.

(** [{ ...x, ...p }] *)
Definition spread (x : Transaction.t) (p : t) : Transaction.t :=
  Transaction.mk
    (or_else (id p) (Transaction.id x))
    (or_else (date p) (Transaction.date x))
    (or_else (amount p) (Transaction.amount x))
    (or_else (description p) (Transaction.description x))
    (or_else (categoryId p) (Transaction.categoryId x))
    (or_else (accountId p) (Transaction.accountId x))
    (or_else (type p) (Transaction.type x))
    (or_else (parentTransactionId p) (Transaction.parentTransactionId x))
    (or_else (transferDirection p) (Transaction.transferDirection x))
    (or_else (transferPeerId p) (Transaction.transferPeerId x)).
End PartialTransaction.

(** The date patterns of the CSV import. *)
Module DatePattern.
Import JsString.

(** [/^\d{4}-\d{2}-\d{2}$/] *)
Definition isIso (s : string) : bool :=
  match chars s with
  | [y1; y2; y3; y4; s1; m1; m2; s2; d1; d2] =>
      forallb isDigit [y1; y2; y3; y4; m1; m2; d1; d2]
      && Ascii.eqb s1 "-" && Ascii.eqb s2 "-"
  | _ => false
  end.

(** [[\/\-\.]] *)
Definition isSep (c : ascii) : bool :=
  Ascii.eqb c "/" || Ascii.eqb c "-" || Ascii.eqb c ".".

(** [\d{n}] at the head of [l]: the digits and what follows them. *)
Definition takeDigits (n : nat) (l : list ascii) : option (list ascii * list ascii) :=
  let ds := firstn n l in
  if (List.length ds =? n)%nat && forallb isDigit ds then Some (ds, skipn n l) else None.

Definition takeSep (l : list ascii) : option (list ascii) :=
  match l with
  | c :: r => if isSep c then Some r else None
  | [] => None
  end.

(** [(\d{n})[\/\-\.](\d{4})] at the head of [l]. *)
Definition monthYear (n : nat) (l : list ascii) : option (list ascii * list ascii) :=
  match takeDigits n l with
  | Some (m, r) =>
      match takeSep r with
      | Some r' =>
          match takeDigits 4 r' with
          | Some (y, _) => Some (m, y)
          | None => None
          end
      | None => None
      end
  | None => None
  end.

(** [(\d{n})[\/\-\.](\d{1,2})[\/\-\.](\d{4})] at the head of [l]; the
    greedy [\d{1,2}] tries two digits before one. *)
Definition dayMonthYear (n : nat) (l : list ascii)
  : option (list ascii * list ascii * list ascii) :=
  match takeDigits n l with
  | Some (d, r) =>
      match takeSep r with
      | Some r' =>
          match monthYear 2 r' with
          | Some (m, y) => Some (d, m, y)
          | None =>
              match monthYear 1 r' with
              | Some (m, y) => Some (d, m, y)
              | None => None
              end
          end
      | None => None
      end
  | None => None
  end.

Definition matchAt (l : list ascii) : option (list ascii * list ascii * list ascii) :=
  match dayMonthYear 2 l with
  | Some r => Some r
  | None => dayMonthYear 1 l
  end.

(** [str.match(/(\d{1,2})[\/\-\.](\d{1,2})[\/\-\.](\d{4})/)]: the leftmost
    match, as its three captures. *)
Fixpoint search (l : list ascii) : option (list ascii * list ascii * list ascii) :=
  match matchAt l with
  | Some r => Some r
  | None =>
      match l with
      | [] => None
      | _ :: l' => search l'
      end
  end.

(** [parseInt(capture).toString().padStart(2, '0')] *)
Definition twoDigits (capture : list ascii) : string :=
  match parseInt (ofChars capture) with
  | Some n => padStart2 (ofNat (Z.to_nat n))
  | None => "NaN"
  end.
End DatePattern.

Module Transactions.

Record FundingOutcome := mkFunding {
  fu_transactions : list Transaction.t;
  fu_alert : option Alert;
  fu_next : nat
}.

(** What a CSV row becomes: its date, description, amount, type and the
    category found for its description. *)
Record ImportedRow := mkRow {
  row_date : string;
  row_description : string;
  row_amount : Q;
  row_type : TransactionType;
  row_category : option string
}.

Section Component.
Context `{rt : Js.Runtime}.
Variable transactions : list Transaction.t.
Variable categories : list Category.t.

(** Description (lower case, trimmed) to the category last used with it. *)
Definition historyMap : gmap string string :=
  fold_left (fun map t =>
               match Transaction.categoryId t with
               | Some cat =>
                   if Js.truthy (Some cat)
                      && negb (String.eqb (Transaction.description t) "")
                   then <[JsString.trim (JsString.toLowerCase (Transaction.description t))
                          := cat]> map
                   else map
               | None => map
               end) transactions ∅.

(** Parent id to the children, in ledger order. *)
Definition childrenMap : gmap string (list Transaction.t) :=
  fold_left (fun map t =>
               match Transaction.parentTransactionId t with
               | Some parent =>
                   if Js.truthy (Some parent)
                   then let existing := default [] (map !! parent) in
                        <[parent := (existing ++ [t])%list]> map
                   else map
               | None => map
               end) transactions ∅.

(** Available balance, over the whole ledger. *)
Definition grossIncome : Q :=
  Js.sum_by Transaction.amount
    (List.filter (fun t => negb (isLegacySystemTx t))
       (List.filter (fun t =>
          TransactionType_eqb (Transaction.type t) INCOME
          && (negb (Js.truthy (Transaction.categoryId t))
              || match findCategory categories (Transaction.categoryId t) with
                 | Some cat => CategoryType_eqb (Category.type cat) income
                 | None => false
                 end)) transactions)).

Definition allocated : Q :=
  Js.sum_by Transaction.amount
    (List.filter (fun t =>
       match findCategory categories (Transaction.categoryId t) with
       | Some cat => CategoryType_eqb (Category.type cat) expense
                     || CategoryType_eqb (Category.type cat) investment
       | None => false
       end)
       (List.filter (fun t =>
          TransactionType_eqb (Transaction.type t) INCOME
          && Js.truthy (Transaction.categoryId t)) transactions)).

Definition uncategorizedExpenses : Q :=
  Js.sum_by Transaction.amount
    (List.filter (fun t =>
       TransactionType_eqb (Transaction.type t) EXPENSE
       && negb (Js.truthy (Transaction.categoryId t))) transactions).

Definition totalUnallocatedAvailable : Q :=
  grossIncome - allocated - uncategorizedExpenses.

(** *** [handleSaveEdit] *)
Definition handleSaveEdit (editingId : option string)
    (editForm : PartialTransaction.t) : list Transaction.t :=
  match editingId with
  | None => transactions
  | Some editingId =>
      if String.eqb editingId "" then transactions
      else
        match find (fun t => String.eqb (Transaction.id t) editingId) transactions with
        | None => transactions
        | Some original =>
            let newAmount :=
              match PartialTransaction.amount editForm with
              | Some a => a
              | None => Transaction.amount original
              end in
            let updatedTransactions :=
              List.map (fun t =>
                          if String.eqb (Transaction.id t) editingId
                          then PartialTransaction.spread t editForm
                          else t) transactions in
            if negb (Qeq_bool (Transaction.amount original) newAmount)
               && negb (Qeq_bool (Transaction.amount original) 0)
            then
              let ratio := newAmount / Transaction.amount original in
              List.map (fun t =>
                          if Js.opt_is (Transaction.parentTransactionId t) editingId
                          then Transaction.with_amount
                                 (Js.toFixed2 (Transaction.amount t * ratio)) t
                          else t) updatedTransactions
            else updatedTransactions
        end
  end.

(** *** [deleteTransaction] *)
Definition deleteTransaction (id : string) : list Transaction.t :=
  let prev := transactions in
  let children :=
    List.filter (fun t => Js.opt_is (Transaction.parentTransactionId t) id) prev in
  let idsToDelete : gset string :=
    list_to_set (id :: List.map Transaction.id children) in
  List.filter (fun t => negb (bool_decide (Transaction.id t ∈ idsToDelete))) prev.

(** *** [executeFunding] *)
Definition sourceNames (fundingSources : list (string * Q)) : string :=
  JsString.join ", "
    (List.filter (fun n => negb (String.eqb n ""))
       (List.map (fun '(id, _) =>
                    match findCategory categories (Some id) with
                    | Some c => Category.name c
                    | None => ""
                    end)
          (List.filter (fun '(_, amt) => Js.Qgt_bool amt 0) fundingSources))).

Definition executeFunding (fundingTx : option Transaction.t)
    (fundingSources : list (string * Q)) (next : nat) : FundingOutcome :=
  let unchanged alert := mkFunding transactions alert next in
  match fundingTx with
  | None => unchanged None
  | Some fundingTx =>
      let totalFunded := totalFunded fundingSources in
      let expenseAmount := Transaction.amount fundingTx in
      let remainderFromPool := Qmax 0 (expenseAmount - totalFunded) in
      let oldChildren := default [] (childrenMap !! Transaction.id fundingTx) in
      let oldFundedAmount := Js.sum_by (fun c => Qabs (Transaction.amount c)) oldChildren in
      let effectiveAvailable := totalUnallocatedAvailable + oldFundedAmount in
      if Js.Qgt_bool remainderFromPool (effectiveAvailable + 0.01) then
        unchanged (Some (AlertInsufficientFunds expenseAmount totalFunded
                           remainderFromPool effectiveAvailable))
      else
        match find (fun c => String.eqb (JsString.toLowerCase (Category.name c))
                                        "other expenses") categories with
        | None => unchanged (Some AlertMissingOtherCategory)
        | Some otherCategory =>
            let newTxs :=
              forEachPush fundingSources (fun '(_, val) => negb (Qle_bool val 0))
                (fun id '(catId, val) =>
                   Transaction.mk id (Transaction.date fundingTx) (- val)
                     ("Moved for One-Time: " ++ Transaction.description fundingTx)
                     (Some catId) None INCOME (Some (Transaction.id fundingTx))
                     None None) next in
            let names := sourceNames fundingSources in
            let cleanDesc :=
              JsString.beforeFirst " (Funded by:" (Transaction.description fundingTx) in
            let newDesc :=
              if String.eqb names "" then cleanDesc
              else cleanDesc ++ " (Funded by: " ++ names ++ ")" in
            let updatedTargetTx :=
              Transaction.with_description_category newDesc (Category.id otherCategory)
                fundingTx in
            let idsToRemove :=
              Transaction.id fundingTx :: List.map Transaction.id oldChildren in
            let filtered :=
              List.filter (fun t =>
                 negb (existsb (String.eqb (Transaction.id t)) idsToRemove))
                transactions in
            mkFunding (updatedTargetTx :: newTxs ++ filtered)%list None
                      (next + List.length newTxs)%nat
        end
  end.

(** *** CSV import *)
Definition parseDate (today : string) (str : string) : string :=
  if String.eqb str "" then today
  else if DatePattern.isIso str then str
  else
    match DatePattern.search (JsString.chars str) with
    | Some (p1, p2, y) =>
        JsString.ofChars y ++ "-" ++ DatePattern.twoDigits p2
          ++ "-" ++ DatePattern.twoDigits p1
    | None => today
    end.

(** [raw.replace(/[^0-9.-]/g, '')] *)
Definition cleanAmount (raw : string) : string :=
  JsString.ofChars
    (List.filter (fun c => JsString.isDigit c || Ascii.eqb c "." || Ascii.eqb c "-")
       (JsString.chars raw)).

(** A cell of a row; absent and empty cells are both falsy. *)
Definition cell (row : list string) (i : nat) : option string :=
  match nth_error row i with
  | Some s => if String.eqb s "" then None else Some s
  | None => None
  end.

(** [x > 0] for a parsed number; [NaN > 0] is false. *)
Definition positive (x : option Q) : bool :=
  match x with
  | Some q => Js.Qgt_bool q 0
  | None => false
  end.

(** The body of the [forEach] over the rows: [None] is a skipped row. *)
Definition importRow (today : string) (mapping : CsvMapping.t)
    (idx : nat) (row : list string) : option ImportedRow :=
  if (List.length row <? 2)%nat then None
  else
    match cell row (CsvMapping.dateIndex mapping),
          cell row (CsvMapping.descIndex mapping) with
    | Some rawDate, Some rawDesc =>
        let dateStr := parseDate today rawDate in
        if Js.includes (JsString.toLowerCase rawDate) "date" && (idx =? 0)%nat
        then None
        else
          let amountAndType :=
            match CsvMapping.mode mapping with
            | single =>
                match cell row (CsvMapping.amountIndex mapping) with
                | None => None
                | Some rawAmt =>
                    match JsString.parseFloat (cleanAmount rawAmt) with
                    | None => None
                    | Some cleanAmt =>
                        Some (Qabs cleanAmt,
                              if Js.Qlt_bool cleanAmt 0 then EXPENSE
                              else if Js.Qgt_bool cleanAmt 0 then INCOME
                              else EXPENSE)
                    end
                end
            | split =>
                let debitRaw :=
                  default "0" (cell row (CsvMapping.debitIndex mapping)) in
                let creditRaw :=
                  default "0" (cell row (CsvMapping.creditIndex mapping)) in
                let debitVal := JsString.parseFloat (cleanAmount debitRaw) in
                let creditVal := JsString.parseFloat (cleanAmount creditRaw) in
                match debitVal, creditVal with
                | None, None => None
                | _, _ =>
                    if positive debitVal then Some (default 0 debitVal, EXPENSE)
                    else if positive creditVal then Some (default 0 creditVal, INCOME)
                    else None
                end
            end in
          match amountAndType with
          | None => None
          | Some (amountVal, type) =>
              let matchedCatId :=
                historyMap !! JsString.trim (JsString.toLowerCase rawDesc) in
              Some (mkRow dateStr rawDesc amountVal type matchedCatId)
          end
    | _, _ => None
    end.

Definition executeImport (today : string) (mapping : CsvMapping.t)
    (csvFullData : list (list string)) (next : nat) : FundingOutcome :=
  let '(newTxs, autoMatchedCount, _) :=
    fold_left (fun '(newTxs, autoMatchedCount, idx) row =>
                 match importRow today mapping idx row with
                 | None => (newTxs, autoMatchedCount, S idx)
                 | Some r =>
                     ((newTxs ++
                       [Transaction.mk (Js.uuid (next + List.length newTxs))
                          (row_date r) (row_amount r) (row_description r)
                          (row_category r) None (row_type r) None None None])%list,
                      (if Js.truthy (row_category r) then S autoMatchedCount
                       else autoMatchedCount),
                      S idx)
                 end) csvFullData ([], 0%nat, 0%nat) in
  mkFunding (newTxs ++ transactions)%list
            (Some (AlertImported (List.length newTxs) autoMatchedCount))
            (next + List.length newTxs)%nat.

(** *** Grouping, balances and direct updates *)

(** The transactions that are not children, latest first. *)
Definition roots : list Transaction.t :=
  Js.sort (fun a b => (Js.getTime (Transaction.date b)
                       - Js.getTime (Transaction.date a))%Z)
    (List.filter (fun t => negb (Js.truthy (Transaction.parentTransactionId t)))
       transactions).

(** The balance of every expense envelope, over the whole ledger. *)
Definition envelopeBalances : list (Category.t * Q) :=
  List.map (fun cat =>
              let income :=
                Js.sum_by Transaction.amount
                  (List.filter (fun t =>
                     Js.opt_is (Transaction.categoryId t) (Category.id cat)
                     && TransactionType_eqb (Transaction.type t) INCOME) transactions) in
              let expense :=
                Js.sum_by Transaction.amount
                  (List.filter (fun t =>
                     Js.opt_is (Transaction.categoryId t) (Category.id cat)
                     && TransactionType_eqb (Transaction.type t) EXPENSE) transactions) in
              (cat, Category.rollover cat + income - expense))
    (List.filter (fun c => CategoryType_eqb (Category.type c) expense) categories).

Definition updateTransactionDirect (id : string) (updates : PartialTransaction.t)
  : list Transaction.t :=
  List.map (fun t => if String.eqb (Transaction.id t) id
                     then PartialTransaction.spread t updates else t) transactions.

Definition updateCategory (txId catId : string) : list Transaction.t :=
  updateTransactionDirect txId
    (PartialTransaction.mk None None None None (Some (Some catId)) None None None None
       None).

(** *** [openFundModal]: the funding sources shown for a transaction *)
Definition openFundModal (tx : Transaction.t) : list (string * Q) :=
  let children := default [] (childrenMap !! Transaction.id tx) in
  fold_left (fun existingSources child =>
               match Transaction.categoryId child with
               | Some categoryId =>
                   if Js.truthy (Some categoryId)
                      && TransactionType_eqb (Transaction.type child) INCOME
                      && Js.Qlt_bool (Transaction.amount child) 0
                   then JsObject.set categoryId (Qabs (Transaction.amount child))
                          existingSources
                   else existingSources
               | None => existingSources
               end) children [].

(** [handleFundingChange]: [{ ...prev, [catId]: parseFloat(value) || 0 }] *)
Definition handleFundingChange (prev : list (string * Q)) (catId value : string)
  : list (string * Q) :=
  let val :=
    match JsString.parseFloat value with
    | Some x => x
    | None => 0
    end in
  JsObject.set catId val prev.
End Component.
End Transactions.

(** ** Accounts ([types.ts]) *)

Inductive AccountType := checking | savings | credit | cash | acc_investment.

Module Account.
Record t := mk {
  id : string;
  name : string;
  type : AccountType;
  initialBalance : Q;
  currency : string
}.
End Account.

(** [accounts.find(a => a.id === id)?.name] inside a template literal. *)
Definition accountName (accounts : list Account.t) (id : string) : string :=
  match find (fun a => String.eqb (Account.id a) id) accounts with
  | Some a => Account.name a
  | None => "undefined"
  end.

(** ** The Transactions component with accounts

    The later revision of the component, in which transactions belong to
    accounts and transfers are pairs of linked transactions.  [handleSaveEdit],
    [parseDate] and the body of the import loop are the same as above. *)

Module TransactionsAccounts.
Section Component.
Context `{rt : Js.Runtime}.
Variable transactions : list Transaction.t.
Variable categories : list Category.t.

(** *** [deleteTransaction] *)
Definition deleteTransaction (id : string) : list Transaction.t :=
  let prev := transactions in
  match find (fun t => String.eqb (Transaction.id t) id) prev with
  | None => prev
  | Some txToDelete =>
      let idsToDelete : gset string := {[ id ]} in
      let children :=
        List.filter (fun t => Js.opt_is (Transaction.parentTransactionId t) id) prev in
      let idsToDelete :=
        fold_left (fun ids c => ids ∪ {[ Transaction.id c ]}) children idsToDelete in
      let idsToDelete :=
        if TransactionType_eqb (Transaction.type txToDelete) TRANSFER
           && Js.truthy (Transaction.transferPeerId txToDelete)
        then idsToDelete ∪ {[ default "" (Transaction.transferPeerId txToDelete) ]}
        else idsToDelete in
      List.filter (fun t => negb (bool_decide (Transaction.id t ∈ idsToDelete))) prev
  end.

(** *** [executeFunding] *)
Definition executeFunding (fundingTx : option Transaction.t)
    (fundingSources : list (string * Q)) (next : nat) : list Transaction.t * nat :=
  match fundingTx with
  | None => (transactions, next)
  | Some fundingTx =>
      if negb (Js.truthy (Transaction.categoryId fundingTx)) then (transactions, next)
      else
        (* 1. Remove all existing funding children of this transaction *)
        let cleanTransactions :=
          List.filter (fun t =>
             negb (Js.opt_is (Transaction.parentTransactionId t)
                             (Transaction.id fundingTx))) transactions in
        let date := Transaction.date fundingTx in
        let newTxs :=
          fold_left (fun newTxs '(sourceCatId, amount) =>
             if Qle_bool amount 0 then newTxs
             else
               let sourceName :=
                 match findCategory categories (Some sourceCatId) with
                 | Some sourceCat => Category.name sourceCat
                 | None => "undefined"
                 end in
               let n := (next + List.length newTxs)%nat in
               (newTxs ++
                [ (* take from the source *)
                  Transaction.mk (Js.uuid n) date (- amount)
                    ("Covering: " ++ Transaction.description fundingTx)
                    (Some sourceCatId) None INCOME (Some (Transaction.id fundingTx))
                    None None;
                  (* give to the target *)
                  Transaction.mk (Js.uuid (S n)) date amount
                    ("Funded from: " ++ sourceName)
                    (Transaction.categoryId fundingTx) None INCOME
                    (Some (Transaction.id fundingTx)) None None ])%list)
            fundingSources [] in
        ((cleanTransactions ++ newTxs)%list, (next + List.length newTxs)%nat)
  end.

(** *** [handleAddManual] *)

Record AddOutcome := mkAdd {
  ad_transactions : list Transaction.t;
  (** the alert that asks for two different accounts *)
  ad_alerted : bool;
  ad_next : nat
}.

Definition handleAddManual (accounts : list Account.t)
    (description amount selectedCat selectedAccount transferToAccount : string)
    (newTxType : TransactionType) (today : string) (next : nat) : AddOutcome :=
  let unchanged := mkAdd transactions false next in
  if String.eqb amount "" then unchanged
  else if negb (TransactionType_eqb newTxType TRANSFER) && String.eqb description ""
  then unchanged
  else
    match JsString.parseFloat amount with
    | None => unchanged
    | Some amountVal =>
        if Qle_bool amountVal 0 then unchanged
        else
          match newTxType with
          | TRANSFER =>
              if String.eqb selectedAccount "" || String.eqb transferToAccount ""
                 || String.eqb selectedAccount transferToAccount
              then mkAdd transactions true next
              else
                let id1 := Js.uuid next in
                let id2 := Js.uuid (S next) in
                let txOut :=
                  Transaction.mk id1 today amountVal
                    ("Transfer to " ++ accountName accounts transferToAccount)
                    None (Some selectedAccount) TRANSFER None (Some dir_out)
                    (Some id2) in
                let txIn :=
                  Transaction.mk id2 today amountVal
                    ("Transfer from " ++ accountName accounts selectedAccount)
                    None (Some transferToAccount) TRANSFER None (Some dir_in)
                    (Some id1) in
                mkAdd (txOut :: txIn :: transactions) false (S (S next))
          | _ =>
              let newTx :=
                Transaction.mk (Js.uuid next) today amountVal description
                  (if String.eqb selectedCat "" then None else Some selectedCat)
                  (if String.eqb selectedAccount "" then None else Some selectedAccount)
                  newTxType None None None in
              mkAdd (newTx :: transactions) false (S next)
          end
    end.

(** *** [openFundModal]: what each source envelope already gives *)
Definition openFundModal (tx : Transaction.t) : list (string * Q) :=
  let children :=
    List.filter (fun t => Js.opt_is (Transaction.parentTransactionId t)
                            (Transaction.id tx)) transactions in
  fold_left (fun existingSources c =>
               match Transaction.categoryId c with
               | Some categoryId =>
                   if TransactionType_eqb (Transaction.type c) INCOME
                      && Js.Qlt_bool (Transaction.amount c) 0
                      && Js.truthy (Some categoryId)
                   then
                     let absAmount := Qabs (Transaction.amount c) in
                     JsObject.set categoryId
                       (JsObject.getOrZero categoryId existingSources + absAmount)
                       existingSources
                   else existingSources
               | None => existingSources
               end) children [].
End Component.
End TransactionsAccounts.

(** ** The Dashboard component with accounts

    The pool starts from the initial balances of the accounts; a one-time
    expense is paid from an account or split over several; a distribution
    gives out the pool or an amount typed by the user. *)

Module DashboardAccounts.
Section Balances.
Variable accounts : list Account.t.
Variable transactions : list Transaction.t.

(** The sum of the amounts of the transactions of an account that pass a
    test of their type and direction. *)
Definition accountSum (acc : Account.t) (test : Transaction.t -> bool) : Q :=
  Js.sum_by Transaction.amount
    (List.filter (fun t =>
       Js.opt_is (Transaction.accountId t) (Account.id acc) && test t) transactions).

Definition isTransfer (direction : TransferDirection) (t : Transaction.t) : bool :=
  TransactionType_eqb (Transaction.type t) TRANSFER
  && match Transaction.transferDirection t, direction with
     | Some dir_in, dir_in | Some dir_out, dir_out => true
     | _, _ => false
     end.

Definition currentBalance (acc : Account.t) : Q :=
  let income :=
    accountSum acc (fun t => TransactionType_eqb (Transaction.type t) INCOME) in
  let expenses :=
    accountSum acc (fun t => TransactionType_eqb (Transaction.type t) EXPENSE) in
  let transfersIn := accountSum acc (isTransfer dir_in) in
  let transfersOut := accountSum acc (isTransfer dir_out) in
  Account.initialBalance acc + income - expenses + transfersIn - transfersOut.

Definition accountBalances : list (Account.t * Q) :=
  List.map (fun acc => (acc, currentBalance acc)) accounts.

(** Available to budget: the initial balances of the accounts in place of
    the opening balance. *)
Definition totalAccountInitial : Q := Js.sum_by Account.initialBalance accounts.
End Balances.

(** What the one-time expense reports. *)
Inductive OneTimeReport :=
| ReportNone
| ReportInsufficientFunds (expenseAmount totalFunded remainderFromPool available : Q)
| ReportSplitMismatch (expenseAmount totalPaid : Q).

Record OneTimeOutcome := mkOneTime {
  ot_categories : list Category.t;
  ot_transactions : list Transaction.t;
  ot_report : OneTimeReport;
  ot_next : nat
}.

Section Handlers.
Context `{rt : Js.Runtime}.
Variable accounts : list Account.t.
Variable categories : list Category.t.
Variable transactions : list Transaction.t.
Variable v : Dashboard.View.

Definition totalUnallocatedAvailable : Q :=
  totalAccountInitial accounts + Dashboard.totalGrossIncome categories transactions v
  - Dashboard.totalAllocated categories transactions v
  - Dashboard.uncategorizedExpenses transactions v.

(** *** [handleCreateOneTimeExpense], paid from one account or split over
    several *)
Definition handleCreateOneTimeExpense
    (oneTimeDesc oneTimeAmount oneTimeDate : string)
    (fundingSources : list (string * Q)) (isSplitPayment : bool)
    (paymentSplits : list (string * Q)) (selectedOneTimeAccount : string)
    (next : nat) : OneTimeOutcome :=
  let unchanged report := mkOneTime categories transactions report next in
  match JsString.parseFloat oneTimeAmount with
  | None => unchanged ReportNone
  | Some expenseAmount =>
      if Qle_bool expenseAmount 0 then unchanged ReportNone
      else
        let totalFunded := totalFunded fundingSources in
        let remainderFromPool := Qmax 0 (expenseAmount - totalFunded) in
        if Js.Qgt_bool remainderFromPool (totalUnallocatedAvailable + 0.01) then
          unchanged (ReportInsufficientFunds expenseAmount totalFunded
                       remainderFromPool totalUnallocatedAvailable)
        else
          let totalPaid :=
            fold_left (fun sum val => sum + val) (List.map snd paymentSplits) 0 in
          if isSplitPayment && Js.Qgt_bool (Qabs (totalPaid - expenseAmount)) 0.01 then
            unchanged (ReportSplitMismatch expenseAmount totalPaid)
          else
            let '(otherCategory, categories', next1) :=
              match find (fun c =>
                            String.eqb (JsString.toLowerCase (Category.name c))
                                       "other expenses (one time)"
                            || String.eqb (JsString.toLowerCase (Category.name c))
                                          "other expenses") categories with
              | Some c => (c, categories, next)
              | None =>
                  let newOtherCat :=
                    Category.mk (Js.uuid next) "Other Expenses (One Time)" expense 0 0 0
                                "#64748b" (Some oneTimeDate) (Some []) None in
                  (newOtherCat, (categories ++ [newOtherCat])%list, S next)
              end in
            (* 1. funding transactions *)
            let txs :=
              forEachPush fundingSources (fun '(_, val) => negb (Qle_bool val 0))
                (fun id '(catId, val) =>
                   Transaction.mk id oneTimeDate (- val)
                     ("Moved for One-Time: " ++ oneTimeDesc) (Some catId) None INCOME
                     None None None) next1 in
            let names := Dashboard.sourceNames categories fundingSources in
            let finalDesc :=
              if String.eqb names "" then oneTimeDesc
              else oneTimeDesc ++ " (Funded by: " ++ names ++ ")" in
            (* 2. expense transaction(s) *)
            let txs :=
              if isSplitPayment then
                pushFrom (fun '(_, amt) => negb (Qle_bool amt 0))
                  (fun id '(accId, amt) =>
                     Transaction.mk id oneTimeDate amt (finalDesc ++ " (Split)")
                       (Some (Category.id otherCategory)) (Some accId) EXPENSE
                       None None None) next1 paymentSplits txs
              else
                (txs ++ [Transaction.mk (Js.uuid (next1 + List.length txs)) oneTimeDate
                           expenseAmount finalDesc (Some (Category.id otherCategory))
                           (Dashboard.orUndefined selectedOneTimeAccount) EXPENSE
                           None None None])%list in
            mkOneTime categories' (txs ++ transactions)%list ReportNone
                      (next1 + List.length txs)%nat
  end.

(** *** [handleDistributeIncome], of the pool or of an amount typed by the user *)

(** Income transactions of the view month, latest first. *)
Definition currentMonthIncomeTxs : list Transaction.t :=
  Js.sort (fun a b => (Js.getTime (Transaction.date b)
                       - Js.getTime (Transaction.date a))%Z)
    (List.filter (fun t =>
       Js.startsWith (Transaction.date t) (Dashboard.viewMonthStr v)
       && Js.truthy (Transaction.categoryId t)
       && match findCategory categories (Transaction.categoryId t) with
          | Some cat => CategoryType_eqb (Category.type cat) income
          | None => false
          end) (Dashboard.grossIncomeTransactions categories transactions v)).

(** The income transaction the new allocations are attached to. *)
Definition effectiveParentTxId (allocationDateMode : AllocationDateMode)
    (useManualFunding : bool) (selectedIncomeTxId : string) : option string :=
  match allocationDateMode with
  | current =>
      if negb useManualFunding then
        if negb (String.eqb selectedIncomeTxId "") then Some selectedIncomeTxId
        else match currentMonthIncomeTxs with
             | t :: _ => Some (Transaction.id t)
             | [] => None
             end
      else None
  | previous => None
  end.

(** [effectiveParentTxId && transactions.some(t => t.parentTransactionId === effectiveParentTxId)] *)
Definition txHasChildren (effectiveParentTxId : option string) : bool :=
  match effectiveParentTxId with
  | Some parent =>
      negb (String.eqb parent "")
      && existsb (fun t => Js.opt_is (Transaction.parentTransactionId t) parent) transactions
  | None => false
  end.

(** [parseFloat(manualFundAmount) || 0], or the pool. *)
Definition poolAmount (useManualFunding : bool) (manualFundAmount : string) : Q :=
  if useManualFunding then
    match JsString.parseFloat manualFundAmount with
    | Some amount => amount
    | None => 0
    end
  else totalUnallocatedAvailable.

Definition handleDistributeIncome (incomeSources : list IncomeSource.t) (today : string)
    (allocationDateMode : AllocationDateMode) (selectedAllocationIndex : nat)
    (useManualFunding : bool) (manualFundAmount selectedIncomeTxId : string)
    (confirmDuplicate confirmProportional : bool) (next : nat)
  : Dashboard.DistributeOutcome :=
  let unchanged alert := Dashboard.mkDistribute transactions allocationDateMode alert next in
  let finish newTransactions :=
    Dashboard.mkDistribute (transactions ++ newTransactions)%list allocationDateMode None
      (next + List.length newTransactions)%nat in
  let poolAmount := poolAmount useManualFunding manualFundAmount in
  if useManualFunding && Qle_bool poolAmount 0 then unchanged None
  else if Qle_bool poolAmount 0 then unchanged (Some AlertNoFunds)
  else
    let dateStr := Dashboard.distributionDate v today allocationDateMode in
    let effectiveParentTxId :=
      effectiveParentTxId allocationDateMode useManualFunding selectedIncomeTxId in
    match allocationDateMode with
    | previous =>
        let deficits := Dashboard.deficits categories transactions v dateStr in
        let totalDeficit := Js.sum_by snd deficits in
        if Qeq_bool totalDeficit 0 then
          Dashboard.mkDistribute transactions current (Some AlertPreviousFullyFunded) next
        else
          let ratio := Qmin 1 (poolAmount / totalDeficit) in
          finish
            (forEachPush deficits
               (fun '(_, deficit) => Js.Qgt_bool (deficit * ratio) 0.01)
               (fun id '(cat, deficit) =>
                  Transaction.mk id dateStr (Js.toFixed2 (deficit * ratio))
                    ("Gap Fill: " ++ Category.name cat) (Some (Category.id cat)) None
                    INCOME None None None) next)
    | current =>
        match Dashboard.selectedRule incomeSources selectedAllocationIndex with
        | None => unchanged None
        | Some rule =>
            if txHasChildren effectiveParentTxId && negb useManualFunding
               && negb confirmDuplicate
            then unchanged None
            else
              let targets := Dashboard.targets categories rule dateStr in
              let potentialAllocation :=
                Dashboard.potentialAllocation categories rule dateStr in
              let exceeds := Js.Qgt_bool potentialAllocation poolAmount in
              if exceeds && negb confirmProportional then unchanged None
              else
                let finalRatio :=
                  if exceeds then poolAmount / potentialAllocation else 1 in
                finish
                  (forEachPush targets
                     (fun '(_, share, _) => Js.Qgt_bool (share * finalRatio) 0.01)
                     (fun id '(cat, share, multiplier) =>
                        let isStrict := Qeq_bool multiplier 1 in
                        let desc :=
                          if isStrict
                          then "Allocated: " ++ Category.name cat
                               ++ " (100% via Linked Payment)"
                          else if useManualFunding
                          then "Manual Allocation: " ++ Category.name cat ++ " ("
                               ++ Js.numberToString (AllocationRule.percentage rule)
                               ++ "%)"
                          else "Allocated: " ++ Category.name cat ++ " ("
                               ++ Js.numberToString (AllocationRule.percentage rule)
                               ++ "%)" in
                        Transaction.mk id dateStr (Js.toFixed2 (share * finalRatio))
                          desc (Some (Category.id cat)) None INCOME
                          effectiveParentTxId None None)
                     next)
        end
    end.
End Handlers.
End DashboardAccounts.

(** ** The unallocated pool as the specification words it *)

Section AvailableToBudget.
Variable categories : list Category.t.

Definition uncategorized (t : Transaction.t) : bool :=
  negb (Js.truthy (Transaction.categoryId t)).

(** The transaction is tagged to an existing category of the given kind. *)
Definition taggedTo (kind : CategoryType) (t : Transaction.t) : bool :=
  Js.truthy (Transaction.categoryId t)
  && match findCategory categories (Transaction.categoryId t) with
     | Some cat => CategoryType_eqb (Category.type cat) kind
     | None => false
     end.

(** Gross income: uncategorized or tagged to an income category, the legacy
    markers left out. *)
Definition isPoolIncome (t : Transaction.t) : bool :=
  TransactionType_eqb (Transaction.type t) INCOME
  && (uncategorized t || taggedTo income t)
  && negb (isLegacySystemTx t).

(** Allocated out: income tagged to an expense or investment category. *)
Definition isAllocatedOut (t : Transaction.t) : bool :=
  TransactionType_eqb (Transaction.type t) INCOME
  && (taggedTo expense t || taggedTo investment t).

(** Spent directly from the pool: an expense with no category. *)
Definition isPoolExpense (t : Transaction.t) : bool :=
  TransactionType_eqb (Transaction.type t) EXPENSE && uncategorized t.

Definition availableToBudget (openingBalance : Q)
    (transactions : list Transaction.t) : Q :=
  openingBalance
  + Js.sum_by Transaction.amount (List.filter isPoolIncome transactions)
  - Js.sum_by Transaction.amount (List.filter isAllocatedOut transactions)
  - Js.sum_by Transaction.amount (List.filter isPoolExpense transactions).
End AvailableToBudget.

(** What the ledger shows of an allocation: its category and its amount. *)
Definition allocationView (t : Transaction.t) : option string * Q :=
  (Transaction.categoryId t, Transaction.amount t).


(** The deficit of a category in the gap fill: what its target at the given
    date exceeds the income put into it during the previous month by, if
    anything. *)
Definition deficitOf `{rt : Js.Runtime} (transactions : list Transaction.t)
    (v : Dashboard.View) (dateStr : string) (cat : Category.t) : Q :=
  Qmax 0 (getBudgetForDate cat dateStr - Dashboard.allocatedInPrevMonth transactions v cat).

(** ** What a deletion removes *)

(** The transaction [id] itself and the transactions whose parent it is. *)
Definition removedWith (id : string) (t : Transaction.t) : bool :=
  String.eqb (Transaction.id t) id || Js.opt_is (Transaction.parentTransactionId t) id.

(** [t] is the other half of the transfer [target]. *)
Definition isTransferPeer (target t : Transaction.t) : bool :=
  TransactionType_eqb (Transaction.type target) TRANSFER
  && Js.truthy (Transaction.transferPeerId target)
  && Js.opt_is (Transaction.transferPeerId target) (Transaction.id t).

(** ** The children of a funded transaction *)

Definition isChildOf (id : string) (t : Transaction.t) : bool :=
  Js.opt_is (Transaction.parentTransactionId t) id.

Definition childrenOf (id : string) (transactions : list Transaction.t)
  : list Transaction.t :=
  List.filter (isChildOf id) transactions.

(** One debit of the source envelope for every source with a positive amount. *)
Definition sourceDebits (fundingSources : list (string * Q)) : list (option string * Q) :=
  List.map (fun '(catId, val) => (Some catId, - val))
    (List.filter (fun '(_, val) => negb (Qle_bool val 0)) fundingSources).

(** A debit of the source envelope and a credit of the target's category for
    every source with a positive amount. *)
Definition debitCreditPairs (target : Transaction.t) (fundingSources : list (string * Q))
  : list (option string * Q) :=
  flat_map (fun '(catId, val) => [ (Some catId, - val); (Transaction.categoryId target, val) ])
    (List.filter (fun '(_, val) => negb (Qle_bool val 0)) fundingSources).

(** ** Dates of imported rows *)

(** A day or month of one or two digits, written with two. *)
Definition zeroPad (digits : list ascii) : string :=
  match digits with
  | [c] => String "0" (String c EmptyString)
  | _ => JsString.ofChars digits
  end.


(** ** The balance of an envelope at a date *)

(** The rollover of a category plus the income put into it, minus what was
    spent from it, over the transactions dated on or before [date]. *)
Definition balanceAt (transactions : list Transaction.t) (date : string)
    (cat : Category.t) : Q :=
  Category.rollover cat
  + Js.sum_by Transaction.amount
      (List.filter (fun t =>
         Js.opt_is (Transaction.categoryId t) (Category.id cat)
         && TransactionType_eqb (Transaction.type t) INCOME
         && String.leb (Transaction.date t) date) transactions)
  - Js.sum_by Transaction.amount
      (List.filter (fun t =>
         Js.opt_is (Transaction.categoryId t) (Category.id cat)
         && TransactionType_eqb (Transaction.type t) EXPENSE
         && String.leb (Transaction.date t) date) transactions).

(** ** The rows an import accepts *)

(** What the import reads of a transaction it wrote. *)
Definition rowOf (t : Transaction.t) : Transactions.ImportedRow :=
  Transactions.mkRow (Transaction.date t) (Transaction.description t) (Transaction.amount t)
    (Transaction.type t) (Transaction.categoryId t).

(** The rows of a file that are not skipped, in the order of the file, the
    first of [rows] being the row number [idx]. *)
Fixpoint importedRows (transactions : list Transaction.t) (today : string)
    (mapping : CsvMapping.t) (idx : nat) (rows : list (list string))
  : list Transactions.ImportedRow :=
  match rows with
  | [] => []
  | row :: rest =>
      match Transactions.importRow transactions today mapping idx row with
      | Some r => r :: importedRows transactions today mapping (S idx) rest
      | None => importedRows transactions today mapping (S idx) rest
      end
  end.

(** ** The category learned for a description *)

(** The transaction teaches the import the category of the description [key]:
    it has a category and a description, and [key] is its description in lower
    case with the white space at both ends removed. *)
Definition teaches (key : string) (t : Transaction.t) : bool :=
  Js.truthy (Transaction.categoryId t)
  && negb (String.eqb (Transaction.description t) "")
  && String.eqb (JsString.trim (JsString.toLowerCase (Transaction.description t))) key.

(** ** What the funding dialog reads of a child *)

Definition fundingView (t : Transaction.t) : option string * TransactionType * Q :=
  (Transaction.categoryId t, Transaction.type t, Transaction.amount t).

(** ** What a transaction does to the balance of an account *)

(** Income and transfers in add their amount to the account they are booked
    on, expenses and transfers out take it; other accounts are not touched. *)
Definition accountEffect (acc : Account.t) (t : Transaction.t) : Q :=
  if Js.opt_is (Transaction.accountId t) (Account.id acc) then
    match Transaction.type t, Transaction.transferDirection t with
    | INCOME, _ => Transaction.amount t
    | EXPENSE, _ => - Transaction.amount t
    | TRANSFER, Some dir_in => Transaction.amount t
    | TRANSFER, Some dir_out => - Transaction.amount t
    | TRANSFER, None => 0
    end
  else 0.

(** ** Text in ASCII and dates of the calendar *)

(** Every character of the text is one of the 128 of ASCII.  On such text
    [toLowerCase] changes the letters A to Z only, and the white space that
    [trim] and [parseFloat] skip is the tab, the line breaks and the blank. *)
Definition isAscii (s : string) : bool :=
  forallb (fun c => (nat_of_ascii c <? 128)%nat) (JsString.chars s).

Definition isLeapYear (y : Z) : bool :=
  ((y mod 4 =? 0) && negb (y mod 100 =? 0) || (y mod 400 =? 0))%Z.

Definition daysOfMonth (y m : Z) : Z :=
  if (m =? 2)%Z then (if isLeapYear y then 29 else 28)%Z
  else if ((m =? 4) || (m =? 6) || (m =? 9) || (m =? 11))%Z then 30%Z
  else 31%Z.

(** A day of the calendar written YYYY-MM-DD: the dates [new Date] reads as
    a time, in every runtime. *)
Definition isCalendarDate (s : string) : bool :=
  let field start len :=
    JsString.digitsValue (JsString.chars (String.substring start len s)) in
  let year := field 0%nat 4%nat in
  let month := field 5%nat 2%nat in
  let day := field 8%nat 2%nat in
  DatePattern.isIso s
  && (1 <=? month)%Z && (month <=? 12)%Z
  && (1 <=? day)%Z && (day <=? daysOfMonth year month)%Z.

(** ** Amounts rounded to cents *)




(** ** What a distribution gives to the categories *)

(** The categories a distribution looks at: those of type expense, in the
    order of the list. *)
Definition expenseEnvelopes (categories : list Category.t) : list Category.t :=
  List.filter (fun c => match Category.type c with
                        | expense => true
                        | _ => false
                        end) categories.



(** The transaction is tagged to the category. *)
Definition isTaggedTo (c : Category.t) (t : Transaction.t) : bool :=
  match Transaction.categoryId t with
  | Some id => String.eqb id (Category.id c)
  | None => false
  end.







(** ** The deficit of a category in the previous month *)

(** The income put into the category during the month [month], written
    YYYY-MM: the amounts of the incomes tagged to it whose date starts with
    the month. *)
Fixpoint givenInMonth (month : string) (c : Category.t) (txs : list Transaction.t) : Q :=
  match txs with
  | [] => 0
  | t :: rest =>
      let counts :=
        isTaggedTo c t
        && match Transaction.type t with
           | INCOME => true
           | _ => false
           end
        && String.prefix month (Transaction.date t) in
      (if counts then Transaction.amount t else 0) + givenInMonth month c rest
  end.

(** The deficit: what the target of the category at the last day of the
    previous month exceeds the income put into it during that month by, if
    anything. *)
Definition deficit `{rt : Js.Runtime} (v : Dashboard.View)
    (transactions : list Transaction.t) (c : Category.t) : Q :=
  Qmax 0 (getBudgetForDate c (Dashboard.prevMonthEndStr v)
          - givenInMonth (Dashboard.prevMonthStr v) c transactions).


(** ** A runtime and ledgers for the scenarios *)

Module Scenario.
Import JsString.

(** The number of a two- or four-digit field of an ISO date. *)
Definition field (s : string) (start len : nat) : Z :=
  digitsValue (chars (String.substring start len s)).

(** Days from 1970-01-01 to a civil date (proleptic Gregorian calendar). *)
Definition daysFromCivil (y m d : Z) : Z :=
  let y' := (if m <=? 2 then y - 1 else y)%Z in
  let era := (y' / 400)%Z in
  let yoe := (y' - era * 400)%Z in
  let mp := (if m >? 2 then m - 3 else m + 9)%Z in
  let doy := ((153 * mp + 2) / 5 + d - 1)%Z in
  let doe := (yoe * 365 + yoe / 4 - yoe / 100 + doy)%Z in
  (era * 146097 + doe - 719468)%Z.

(** Milliseconds from the epoch to the midnight (UTC) of an ISO date. *)
Definition isoTime (s : string) : Z :=
  (daysFromCivil (field s 0 4) (field s 5 2) (field s 8 2) * 86400000)%Z.

(** Numbers print with at most two decimals. *)
Definition showNumber (q : Q) : string :=
  let cents := Qfloor (Qabs q * 100 + (1 # 2)) in
  let sign := if Js.Qlt_bool q 0 then "-" else "" in
  let whole := ofNat (Z.to_nat (cents / 100)) in
  let frac := Z.to_nat (cents mod 100) in
  if (frac =? 0)%nat then sign ++ whole
  else if (frac mod 10 =? 0)%nat then sign ++ whole ++ "." ++ ofNat (frac / 10)
  else sign ++ whole ++ "." ++ padStart2 (ofNat frac).

Definition runtime : Js.Runtime :=
  {| Js.getTime := isoTime;
     Js.numberToString := showNumber;
     Js.uuid := fun n => "tx-" ++ ofNat n |}.

Definition expenseCategory (id name : string) (target : Q)
    (changes : list ScheduledBudgetChange.t) (linked : option Z) : Category.t :=
  Category.mk id name expense target 0 0 "#64748b" None (Some changes) linked.

Definition incomeTx (id date : string) (amount : Q) (cat : option string)
  : Transaction.t :=
  Transaction.mk id date amount "Salary" cat None INCOME None None None.

(** Base 100, 150 from March 2024, 200 from June 2024. *)
Definition scheduled : Category.t :=
  expenseCategory "cat-rent" "Rent" 100
    [ ScheduledBudgetChange.mk "a" "2024-03-01" 150;
      ScheduledBudgetChange.mk "b" "2024-06-01" 200 ] None.

(** June 2024, and an income dated after it. *)
Definition june : Dashboard.View := Dashboard.mkView "2024-06" 30 "2024-05" 31.

Definition julyIncome : list Transaction.t :=
  [ incomeTx "t1" "2024-07-15" 100 None ].

(** One income source paying once, the whole of it open to every envelope. *)
Definition wholeRule : AllocationRule.t :=
  AllocationRule.mk 1 100 0 (Some "Salary 1") None (Some false).

Definition oneSource : list IncomeSource.t :=
  [ IncomeSource.mk "src" "Job" "USD" 0 [ wholeRule ] None ].

(** Two envelopes of 300 each and a pool of 300. *)
Definition twoEnvelopes : list Category.t :=
  [ expenseCategory "cat-a" "Groceries" 300 [] None;
    expenseCategory "cat-b" "Transport" 300 [] None ].

Definition pool300 : list Transaction.t := [ incomeTx "t1" "2024-06-01" 300 None ].





(** An envelope funded by the second payment only, and the rules of the
    first payment (70%) and of the second (30%). *)
Definition linkedEnvelope : Category.t :=
  expenseCategory "cat-l" "Insurance" 120 [] (Some 2%Z).

Definition firstRule : AllocationRule.t :=
  AllocationRule.mk 1 70 0 (Some "Salary 1") None (Some false).

Definition secondRule : AllocationRule.t :=
  AllocationRule.mk 2 30 0 (Some "Salary 2") None (Some false).

(** The envelope funded by the second payment and one funded by every
    payment. *)
Definition linkedAndFree : list Category.t :=
  [ linkedEnvelope; expenseCategory "cat-a" "Groceries" 300 [] None ].

(** One income source paying twice. *)
Definition twoPayments : list IncomeSource.t :=
  [ IncomeSource.mk "src" "Job" "USD" 0 [ firstRule; secondRule ] None ].

(** A pool of 300 received in May, of which 100 went to the first envelope
    during May. *)
Definition mayLedger : list Transaction.t :=
  [ incomeTx "t1" "2024-05-01" 300 None;
    incomeTx "t2" "2024-05-02" 100 (Some "cat-a") ].

(** A transfer of 50 between two accounts: two transactions that name each
    other as peer. *)
Definition transferOut : Transaction.t :=
  Transaction.mk "x1" "2024-06-05" 50 "Transfer to Savings" None (Some "acc-1")
    TRANSFER None (Some dir_out) (Some "x2").

Definition transferIn : Transaction.t :=
  Transaction.mk "x2" "2024-06-05" 50 "Transfer from Checking" None (Some "acc-2")
    TRANSFER None (Some dir_in) (Some "x1").

(** A paycheck, the two allocations made from it, and an unrelated expense. *)
Definition paycheckLedger : list Transaction.t :=
  [ incomeTx "p1" "2024-06-01" 300 None;
    Transaction.mk "a1" "2024-06-01" 150 "Allocated: Groceries (100%)" (Some "cat-a")
      None INCOME (Some "p1") None None;
    Transaction.mk "a2" "2024-06-01" 150 "Allocated: Transport (100%)" (Some "cat-b")
      None INCOME (Some "p1") None None;
    Transaction.mk "e1" "2024-06-03" 20 "Coffee" (Some "cat-a") None EXPENSE
      None None None ].

(** An edit form that changes the amount only. *)
Definition amountEdit (a : Q) : PartialTransaction.t :=
  PartialTransaction.mk None None (Some a) None None None None None None None.

(** An unbudgeted expense, filed under Transport, to be covered from the
    Groceries envelope; the catch-all category the first funding model
    moves a funded expense to. *)
Definition repair : Transaction.t :=
  Transaction.mk "r1" "2024-06-07" 80 "Bike repair" (Some "cat-b") None EXPENSE
    None None None.

Definition repairLedger : list Transaction.t :=
  [ incomeTx "t1" "2024-06-01" 300 None; repair ].

Definition withOther : list Category.t :=
  (twoEnvelopes ++ [ expenseCategory "cat-o" "Other Expenses" 0 [] None ])%list.

(** The default column mapping: date, description and one signed amount. *)
Definition singleAmount : CsvMapping.t := CsvMapping.mk 0 1 single 2 2 3.

Definition coffeeRow : list string := [ "03/04/2024"; "Coffee Shop"; "-4.50" ].

(** July 2024, the month after [june]. *)
Definition july : Dashboard.View := Dashboard.mkView "2024-07" 31 "2024-06" 30.

(** A checking and a savings account. *)
Definition twoAccounts : list Account.t :=
  [ Account.mk "acc-1" "Checking" checking 1000 "USD";
    Account.mk "acc-2" "Savings" savings 0 "USD" ].

(** A pool of 300 and a repair that 80 from the Groceries envelope were
    moved for. *)
Definition fundedRepair (amount : Q) : Transaction.t :=
  Transaction.mk "r1" "2024-06-07" amount "Bike repair (Funded by: Groceries)"
    (Some "cat-o") None EXPENSE None None None.

Definition fundedLedger (amount : Q) : list Transaction.t :=
  [ incomeTx "t1" "2024-06-01" 300 None;
    fundedRepair amount;
    Transaction.mk "m1" "2024-06-07" (- 80) "Moved for One-Time: Bike repair"
      (Some "cat-a") None INCOME (Some "r1") None None ].

(** A coffee shop filed under Groceries, then under Transport, and once
    under nothing. *)
Definition coffees : list Transaction.t :=
  [ Transaction.mk "c1" "2024-06-01" 4 " Coffee Shop " (Some "cat-a") None EXPENSE
      None None None;
    Transaction.mk "c2" "2024-06-02" 5 "COFFEE SHOP" (Some "cat-b") None EXPENSE
      None None None;
    Transaction.mk "c3" "2024-06-03" 6 "Coffee Shop" None None EXPENSE None None None ].

(** The transactions a handler added at the end of a ledger. *)
Definition added (before after : list Transaction.t) : list Transaction.t :=
  skipn (List.length before) after.
End Scenario.

(** * Properties *)

(** ** Comparisons and rounding *)

Lemma Qlt_bool_iff (a b : Q) : Js.Qlt_bool a b = true <-> a < b.
Proof.
  unfold Js.Qlt_bool. rewrite negb_true_iff, <- not_true_iff_false, Qle_bool_iff.
  split; [apply Qnot_le_lt | apply Qlt_not_le].
Qed.

Lemma Qgt_bool_iff (a b : Q) : Js.Qgt_bool a b = true <-> b < a.
Proof. apply (Qlt_bool_iff b a). Qed.

Lemma Qgt_bool_false_iff (a b : Q) : Js.Qgt_bool a b = false <-> a <= b.
Proof.
  unfold Js.Qgt_bool. rewrite negb_false_iff. apply Qle_bool_iff.
Qed.

Lemma string_leb_false_ltb (a b : string) :
  String.leb a b = false <-> String.ltb b a = true.
Proof.
  unfold String.leb, String.ltb. rewrite (String.compare_antisym a b).
  destruct (String.compare b a); simpl; split; congruence.
Qed.

(** ** Lists *)

Lemma filter_none {A : Type} (p : A -> bool) (l : list A) :
  (forall x, In x l -> p x = false) -> List.filter p l = [].
Proof.
  induction l as [|a l IH]; intros H; simpl; [reflexivity|].
  rewrite (H a (or_introl eq_refl)). apply IH. intros x Hx. apply H. now right.
Qed.

(** ** Sorting *)

Lemma insert_In {A : Type} (cmp : A -> A -> Z) x y l :
  In y (Js.insert cmp x l) <-> y = x \/ In y l.
Proof.
  induction l as [|a l IH]; simpl.
  - intuition congruence.
  - destruct (cmp x a <=? 0)%Z; simpl; rewrite ?IH; intuition congruence.
Qed.

Lemma sort_In {A : Type} (cmp : A -> A -> Z) y l : In y (Js.sort cmp l) <-> In y l.
Proof.
  induction l as [|a l IH]; simpl; [tauto|].
  rewrite insert_In, IH. intuition congruence.
Qed.

(** Latest first: sorting with the comparator [(a, b) => key(b) - key(a)]. *)
Lemma insert_desc {A : Type} (key : A -> Z) x l :
  StronglySorted (fun a b => (key b <= key a)%Z) l ->
  StronglySorted (fun a b => (key b <= key a)%Z)
                 (Js.insert (fun a b => (key b - key a)%Z) x l).
Proof.
  induction 1 as [|a l Hs IH Ha]; simpl.
  - repeat constructor.
  - destruct (Z.leb_spec (key a - key x) 0).
    + constructor; [constructor; assumption|].
      constructor; [lia|].
      rewrite List.Forall_forall in Ha |- *. intros y Hy. specialize (Ha y Hy). lia.
    + constructor; [exact IH|].
      rewrite List.Forall_forall in Ha |- *. intros y Hy.
      apply insert_In in Hy. destruct Hy as [->|Hy]; [lia|auto].
Qed.

Lemma sort_desc {A : Type} (key : A -> Z) l :
  StronglySorted (fun a b => (key b <= key a)%Z)
                 (Js.sort (fun a b => (key b - key a)%Z) l).
Proof.
  induction l as [|a l IH]; simpl; [constructor|]. apply insert_desc, IH.
Qed.

(** The first element of a sorted list that passes a test dominates every
    element that passes it. *)
Lemma find_sorted {A : Type} (R : A -> A -> Prop) (p : A -> bool) l x :
  StronglySorted R l -> find p l = Some x ->
  In x l /\ p x = true /\ forall y, In y l -> p y = true -> y = x \/ R x y.
Proof.
  induction 1 as [|a l Hs IH Ha]; simpl; [discriminate|].
  destruct (p a) eqn:Hpa.
  - intros [= <-]. repeat split; auto.
    intros y [<-|Hy] _; [now left|right].
    rewrite List.Forall_forall in Ha. auto.
  - intros Hf. destruct (IH Hf) as (Hin & Hpx & Hmax). repeat split; auto.
    intros y [<-|Hy] Hpy; [congruence|auto].
Qed.

(** ** Schedule resolver *)

Section ScheduleFacts.
Context `{rt : Js.Runtime}.

Lemma getBudgetForDate_find cat dateStr :
  getBudgetForDate cat dateStr =
  match find (fun change => String.leb (ScheduledBudgetChange.date change) dateStr)
             (Js.sort byDateDesc (schedule cat)) with
  | Some activeChange => ScheduledBudgetChange.amount activeChange
  | None => Category.monthlyBudget cat
  end.
Proof.
  unfold getBudgetForDate, schedule.
  destruct (Category.scheduledChanges cat) as [[|c l]|]; reflexivity.
Qed.

Lemma chronological_spec changes a b :
  chronological changes = true -> In a changes -> In b changes ->
  (Js.getTime (ScheduledBudgetChange.date a)
   <= Js.getTime (ScheduledBudgetChange.date b))%Z ->
  String.leb (ScheduledBudgetChange.date a) (ScheduledBudgetChange.date b) = true.
Proof.
  unfold chronological. rewrite forallb_forall. intros H Ha Hb Hle.
  specialize (H a Ha). rewrite forallb_forall in H. specialize (H b Hb).
  apply Z.leb_le in Hle. rewrite Hle in H. exact H.
Qed.

Lemma getBudgetForDate_none_in_force cat dateStr :
  inForce cat dateStr = [] -> getBudgetForDate cat dateStr = Category.monthlyBudget cat.
Proof.
  intros Hnone. rewrite getBudgetForDate_find.
  destruct (find _ _) as [c|] eqn:Hf; [|reflexivity].
  apply find_some in Hf. destruct Hf as [Hin Hle].
  apply sort_In in Hin.
  assert (In c (inForce cat dateStr)) as Hc
    by (unfold inForce; apply filter_In; split; assumption).
  rewrite Hnone in Hc. destruct Hc.
Qed.

Lemma getBudgetForDate_some_in_force cat dateStr c0 :
  chronological (schedule cat) = true ->
  In c0 (inForce cat dateStr) ->
  exists c, In c (inForce cat dateStr)
    /\ (forall c', In c' (inForce cat dateStr) ->
          String.leb (ScheduledBudgetChange.date c') (ScheduledBudgetChange.date c) = true)
    /\ getBudgetForDate cat dateStr = ScheduledBudgetChange.amount c.
Proof.
  intros Hchr Hc0. rewrite getBudgetForDate_find.
  unfold inForce in *. apply filter_In in Hc0. destruct Hc0 as [Hin0 Hle0].
  destruct (find _ _) as [c|] eqn:Hf.
  - pose proof (sort_desc (fun x => Js.getTime (ScheduledBudgetChange.date x))
                  (schedule cat)) as Hs.
    destruct (find_sorted _ _ _ _ Hs Hf) as (Hin & Hle & Hmax).
    apply sort_In in Hin. exists c. split; [apply filter_In; auto|]. split; [|reflexivity].
    intros c' Hc'. apply filter_In in Hc'. destruct Hc' as [Hin' Hle'].
    apply (chronological_spec (schedule cat)); auto.
    destruct (Hmax c') as [->|Hr]; [apply sort_In; exact Hin'|exact Hle'|lia|exact Hr].
  - exfalso. pose proof (find_none _ _ Hf c0) as Hn. simpl in Hn.
    rewrite Hn in Hle0; [discriminate|]. apply sort_In. exact Hin0.
Qed.
End ScheduleFacts.

(** ** Sums *)

Lemma fold_sum_acc {A : Type} (f : A -> Q) (l : list A) (a : Q) :
  fold_left (fun sum t => sum + f t) l a == a + Js.sum_by f l.
Proof.
  unfold Js.sum_by. revert a. induction l as [|x l IH]; intros a; simpl.
  - ring.
  - rewrite (IH (a + f x)), (IH (0 + f x)). ring.
Qed.

Lemma sum_by_cons {A : Type} (f : A -> Q) (x : A) (l : list A) :
  Js.sum_by f (x :: l) == f x + Js.sum_by f l.
Proof.
  unfold Js.sum_by at 1. simpl. rewrite fold_sum_acc. ring.
Qed.

Lemma sum_by_map {A B : Type} (g : A -> B) (f : B -> Q) (l : list A) :
  Js.sum_by f (List.map g l) = Js.sum_by (fun x => f (g x)) l.
Proof.
  unfold Js.sum_by. generalize 0. induction l as [|x l IH]; intros a; simpl; auto.
Qed.

Lemma sum_by_views {A B : Type} (f : A -> Q) (g : B -> Q) (l : list A) (l' : list B) :
  List.map f l = List.map g l' -> Js.sum_by f l = Js.sum_by g l'.
Proof.
  intros H. rewrite <- (sum_by_map f (fun q => q)), <- (sum_by_map g (fun q => q)), H.
  reflexivity.
Qed.

Lemma sum_by_le {A : Type} (f g : A -> Q) (l : list A) :
  (forall x, In x l -> f x <= g x) -> Js.sum_by f l <= Js.sum_by g l.
Proof.
  induction l as [|x l IH]; intros H; [apply Qle_refl|].
  rewrite !sum_by_cons.
  pose proof (H x (or_introl eq_refl)).
  assert (Js.sum_by f l <= Js.sum_by g l) by (apply IH; intros y Hy; apply H; now right).
  lra.
Qed.

Lemma sum_by_nonneg {A : Type} (f : A -> Q) (l : list A) :
  (forall x, In x l -> 0 <= f x) -> 0 <= Js.sum_by f l.
Proof.
  induction l as [|x l IH]; intros H; [apply Qle_refl|].
  rewrite sum_by_cons.
  pose proof (H x (or_introl eq_refl)).
  assert (0 <= Js.sum_by f l) by (apply IH; intros y Hy; apply H; now right).
  lra.
Qed.




Lemma sum_by_app {A : Type} (f : A -> Q) (l1 l2 : list A) :
  Js.sum_by f (l1 ++ l2)%list == Js.sum_by f l1 + Js.sum_by f l2.
Proof.
  induction l1 as [|a l IH]; simpl.
  - unfold Js.sum_by at 2. simpl. ring.
  - rewrite !sum_by_cons, IH. ring.
Qed.

Lemma sum_by_Qeq {A : Type} (f g : A -> Q) (l : list A) :
  (forall x, In x l -> f x == g x) -> Js.sum_by f l == Js.sum_by g l.
Proof.
  induction l as [|a l IH]; intros H; [reflexivity|].
  rewrite !sum_by_cons, IH, (H a) by (try (now left); intros x Hx; apply H; now right).
  reflexivity.
Qed.

Lemma sum_by_add {A : Type} (f g : A -> Q) (l : list A) :
  Js.sum_by (fun x => f x + g x) l == Js.sum_by f l + Js.sum_by g l.
Proof.
  induction l as [|a l IH]; [reflexivity|]. rewrite !sum_by_cons, IH. ring.
Qed.

(** A sum of amounts that are not negative is the sum of the positive ones. *)
Lemma sum_by_positive {A : Type} (f : A -> Q) (l : list A) :
  (forall x, In x l -> 0 <= f x) ->
  Js.sum_by f (List.filter (fun x => Js.Qgt_bool (f x) 0) l) == Js.sum_by f l.
Proof.
  induction l as [|a l IH]; intros Hf; [reflexivity|].
  simpl. pose proof (Hf a (or_introl eq_refl)) as Ha.
  assert (Js.sum_by f (List.filter (fun x => Js.Qgt_bool (f x) 0) l) == Js.sum_by f l) as IHl
    by (apply IH; intros x Hx; apply Hf; now right).
  destruct (Js.Qgt_bool (f a) 0) eqn:Hpos; rewrite ?sum_by_cons, IHl; [reflexivity|].
  apply Qgt_bool_false_iff in Hpos. lra.
Qed.

(** ** Rounding to cents *)

(** The rounded amount is the same for equal numbers. *)
Lemma toFixed2_compat (x y : Q) : x == y -> Js.toFixed2 x = Js.toFixed2 y.
Proof.
  intros H. unfold Js.toFixed2.
  assert (Js.Qlt_bool x 0 = Js.Qlt_bool y 0) as ->.
  { destruct (Js.Qlt_bool x 0) eqn:Hx, (Js.Qlt_bool y 0) eqn:Hy; try reflexivity.
    - apply Qlt_bool_iff in Hx. rewrite H in Hx. apply Qlt_bool_iff in Hx. congruence.
    - apply Qlt_bool_iff in Hy. rewrite <- H in Hy. apply Qlt_bool_iff in Hy. congruence. }
  assert (Qfloor (- x * 100 + (1 # 2)) = Qfloor (- y * 100 + (1 # 2))) as ->
    by (apply Qfloor_comp; rewrite H; reflexivity).
  assert (Qfloor (x * 100 + (1 # 2)) = Qfloor (y * 100 + (1 # 2))) as ->
    by (apply Qfloor_comp; rewrite H; reflexivity).
  reflexivity.
Qed.



(** What exceeds a cent rounds to a cent at least. *)
Lemma toFixed2_cent (x : Q) : Js.Qgt_bool x 0.01 = true -> 1 # 100 <= Js.toFixed2 x.
Proof.
  intros Hx. apply Qgt_bool_iff in Hx. change 0.01 with (1 # 100) in Hx.
  unfold Js.toFixed2.
  assert (Js.Qlt_bool x 0 = false) as ->.
  { destruct (Js.Qlt_bool x 0) eqn:Hneg; [|reflexivity].
    apply Qlt_bool_iff in Hneg. lra. }
  assert (Qfloor 1 <= Qfloor (x * 100 + (1 # 2)))%Z as Hfloor
    by (apply Qfloor_resp_le; lra).
  change (Qfloor 1) with 1%Z in Hfloor.
  unfold Qle. cbn [Qnum Qden]. lia.
Qed.

Section PushInvariant.
Context `{rt : Js.Runtime}.

(** What holds of everything the loop may push holds of what it pushed. *)
Lemma pushFrom_Forall_kept {A : Type} (P : Transaction.t -> Prop) (keep : A -> bool)
    (mk : string -> A -> Transaction.t) (next : nat) (l : list A)
    (acc : list Transaction.t) :
  (forall id x, In x l -> keep x = true -> P (mk id x)) -> List.Forall P acc ->
  List.Forall P (pushFrom keep mk next l acc).
Proof.
  revert acc. induction l as [|a l IH]; intros acc Hmk Hacc; simpl; [exact Hacc|].
  apply IH; [intros id x Hx; apply Hmk; now right|].
  destruct (keep a) eqn:Ha; [|exact Hacc].
  apply List.Forall_app. split; [exact Hacc|].
  constructor; [apply Hmk; [now left|exact Ha]|constructor].
Qed.
End PushInvariant.








(** ** Loops that push *)

Section PushFacts.
Context `{rt : Js.Runtime}.

Lemma forEachPush_acc {A B : Type} (l : list A) (keep : A -> bool)
    (mk : string -> A -> Transaction.t) (next : nat)
    (view : Transaction.t -> B) (g : A -> B) (acc : list Transaction.t) :
  (forall id x, view (mk id x) = g x) ->
  List.map view (pushFrom keep mk next l acc)
  = (List.map view acc ++ List.map g (List.filter keep l))%list.
Proof.
  intros Hview. revert acc. induction l as [|x l IH]; intros acc; simpl.
  - now rewrite app_nil_r.
  - rewrite IH. destruct (keep x); [|reflexivity].
    rewrite List.map_app. simpl. rewrite Hview, <- List.app_assoc. reflexivity.
Qed.

(** What is pushed, seen through [view], is the image of the kept elements. *)
Lemma forEachPush_view {A B : Type} (l : list A) (keep : A -> bool)
    (mk : string -> A -> Transaction.t) (next : nat)
    (view : Transaction.t -> B) (g : A -> B) :
  (forall id x, view (mk id x) = g x) ->
  List.map view (forEachPush l keep mk next) = List.map g (List.filter keep l).
Proof.
  intros Hview. unfold forEachPush. now rewrite (forEachPush_acc _ _ _ _ view g).
Qed.



Lemma pushFrom_cons {A : Type} (keep : A -> bool) (mk : string -> A -> Transaction.t)
    (next : nat) (x : A) (l : list A) (acc : list Transaction.t) :
  pushFrom keep mk next (x :: l) acc
  = pushFrom keep mk next l
      (if keep x then (acc ++ [mk (Js.uuid (next + List.length acc)) x])%list else acc).
Proof. reflexivity. Qed.

(** The loop started with [acc] already pushed. *)
Lemma pushFrom_app {A : Type} (keep : A -> bool) (mk : string -> A -> Transaction.t)
    (next : nat) (l : list A) (acc : list Transaction.t) :
  pushFrom keep mk next l acc
  = (acc ++ forEachPush l keep mk (next + List.length acc))%list.
Proof.
  unfold forEachPush. revert next acc. induction l as [|x l IH]; intros next acc.
  - simpl. now rewrite app_nil_r.
  - rewrite !pushFrom_cons. destruct (keep x).
    + rewrite IH, (IH _ ([] ++ _)%list), List.length_app, <- List.app_assoc.
      cbn [List.length app]. rewrite !Nat.add_0_r, Nat.add_assoc. reflexivity.
    + apply IH.
Qed.

Lemma forEachPush_cons {A : Type} (keep : A -> bool) (mk : string -> A -> Transaction.t)
    (next : nat) (x : A) (l : list A) :
  forEachPush (x :: l) keep mk next
  = if keep x then mk (Js.uuid next) x :: forEachPush l keep mk (S next)
    else forEachPush l keep mk next.
Proof.
  unfold forEachPush at 1. rewrite pushFrom_cons. destruct (keep x); [|reflexivity].
  rewrite pushFrom_app. cbn [List.length app]. rewrite Nat.add_0_r.
  do 2 f_equal. lia.
Qed.


(** Whatever the loop pushed was made of an element it keeps. *)
Lemma forEachPush_In {A : Type} (keep : A -> bool) (mk : string -> A -> Transaction.t)
    (next : nat) (l : list A) (t : Transaction.t) :
  In t (forEachPush l keep mk next) ->
  exists id x, In x l /\ keep x = true /\ t = mk id x.
Proof.
  revert next. induction l as [|x l IH]; intros next; [intros []|].
  rewrite forEachPush_cons. destruct (keep x) eqn:Hkeep.
  - intros [<-|Hin].
    + exists (Js.uuid next), x. split; [now left|]. split; [exact Hkeep|reflexivity].
    + destruct (IH _ Hin) as (id & y & Hy & Hk & ->). exists id, y. split; [now right|].
      split; [exact Hk|reflexivity].
  - intros Hin. destruct (IH _ Hin) as (id & y & Hy & Hk & ->). exists id, y.
    split; [now right|]. split; [exact Hk|reflexivity].
Qed.
End PushFacts.

(** C3. The effective target of a category at a date is the amount of the
    scheduled change with the latest date among those dated on or before it,
    and the base [monthlyBudget] when the schedule is empty or every change is
    dated after it.  The timestamps the sort compares are assumed to order the
    dates of the schedule as the strings do, which is the case for ISO dates. *)
Theorem getBudgetForDate_latest_change `{rt : Js.Runtime}
    (cat : Category.t) (asOfDate : string) :
  chronological (schedule cat) = true ->
  (schedule cat = [] -> getBudgetForDate cat asOfDate = Category.monthlyBudget cat)
  /\ ((forall c, In c (schedule cat) ->
         String.ltb asOfDate (ScheduledBudgetChange.date c) = true) ->
      getBudgetForDate cat asOfDate = Category.monthlyBudget cat)
  /\ (forall c0, In c0 (schedule cat) ->
        String.leb (ScheduledBudgetChange.date c0) asOfDate = true ->
        exists c,
          In c (schedule cat)
          /\ String.leb (ScheduledBudgetChange.date c) asOfDate = true
          /\ (forall c', In c' (schedule cat) ->
                String.leb (ScheduledBudgetChange.date c') asOfDate = true ->
                String.leb (ScheduledBudgetChange.date c')
                           (ScheduledBudgetChange.date c) = true)
          /\ getBudgetForDate cat asOfDate = ScheduledBudgetChange.amount c).
Proof.
  intros Hchr. split; [|split].
  - intros Hempty. apply getBudgetForDate_none_in_force.
    unfold inForce. rewrite Hempty. reflexivity.
  - intros Hafter. apply getBudgetForDate_none_in_force.
    unfold inForce. apply filter_none. intros c Hc.
    apply string_leb_false_ltb, Hafter, Hc.
  - intros c0 Hin0 Hle0.
    destruct (getBudgetForDate_some_in_force cat asOfDate c0 Hchr) as (c & Hc & Hmax & Hres).
    { unfold inForce. apply filter_In. split; assumption. }
    unfold inForce in Hc. apply filter_In in Hc. destruct Hc as [Hin Hle].
    exists c. split; [exact Hin|]. split; [exact Hle|]. split; [|exact Hres].
    intros c' Hin' Hle'. apply Hmax. unfold inForce. apply filter_In. split; assumption.
Qed.

Lemma getBudgetForDate_latest_change_witness :
  chronological (rt := Scenario.runtime) (schedule Scenario.scheduled) = true
  /\ exists c,
       In c (schedule Scenario.scheduled)
       /\ String.leb (ScheduledBudgetChange.date c) "2024-04-01" = true
       /\ (forall c', In c' (schedule Scenario.scheduled) ->
             String.leb (ScheduledBudgetChange.date c') "2024-04-01" = true ->
             String.leb (ScheduledBudgetChange.date c')
                        (ScheduledBudgetChange.date c) = true)
       /\ getBudgetForDate (rt := Scenario.runtime) Scenario.scheduled "2024-04-01"
          = ScheduledBudgetChange.amount c.
Proof.
  split; [reflexivity|].
  apply (proj2 (proj2 (getBudgetForDate_latest_change (rt := Scenario.runtime)
                         Scenario.scheduled "2024-04-01" eq_refl))
           (ScheduledBudgetChange.mk "a" "2024-03-01" 150)).
  - left. reflexivity.
  - reflexivity.
Defined.

(** The three dates of the specification's example. *)
Example getBudgetForDate_april :
  getBudgetForDate (rt := Scenario.runtime) Scenario.scheduled "2024-04-01" = 150.
Proof. reflexivity. Qed.

Example getBudgetForDate_july :
  getBudgetForDate (rt := Scenario.runtime) Scenario.scheduled "2024-07-01" = 200.
Proof. reflexivity. Qed.

Example getBudgetForDate_january :
  getBudgetForDate (rt := Scenario.runtime) Scenario.scheduled "2024-01-01" = 100.
Proof. reflexivity. Qed.

(** ** The unallocated pool *)

Lemma filter_filter_andb {A : Type} (p q : A -> bool) (l : list A) :
  List.filter p (List.filter q l) = List.filter (fun x => q x && p x) l.
Proof.
  induction l as [|a l IH]; simpl; [reflexivity|].
  destruct (q a); simpl; [destruct (p a)|]; rewrite IH; reflexivity.
Qed.

(** Case analysis on every test a pool predicate makes of a transaction. *)
Ltac pool_cases t :=
  destruct (TransactionType_eqb (Transaction.type t) INCOME);
  destruct (TransactionType_eqb (Transaction.type t) EXPENSE);
  destruct (isLegacySystemTx t);
  destruct (Js.truthy (Transaction.categoryId t));
  try reflexivity;
  destruct (findCategory _ (Transaction.categoryId t)) as [cat|];
  try reflexivity;
  destruct (CategoryType_eqb (Category.type cat) income);
  destruct (CategoryType_eqb (Category.type cat) expense);
  destruct (CategoryType_eqb (Category.type cat) investment);
  reflexivity.

Section PoolFacts.
Variable categories : list Category.t.

Lemma grossIncomeTransactions_spec transactions v :
  Dashboard.grossIncomeTransactions categories transactions v =
  List.filter (isPoolIncome categories)
    (List.filter (fun t => String.leb (Transaction.date t) (Dashboard.endOfViewMonthStr v))
       transactions).
Proof using Type.
  unfold Dashboard.grossIncomeTransactions. rewrite filter_filter_andb.
  apply filter_ext. intros t.
  unfold isPoolIncome, uncategorized, taggedTo.
  destruct (string_leb_false_ltb (Transaction.date t) (Dashboard.endOfViewMonthStr v))
    as [H1 H2].
  destruct (String.leb (Transaction.date t) (Dashboard.endOfViewMonthStr v)) eqn:Hle.
  - destruct (String.ltb (Dashboard.endOfViewMonthStr v) (Transaction.date t)) eqn:Hlt;
      [specialize (H2 eq_refl); discriminate|].
    pool_cases t.
  - rewrite (H1 eq_refl). pool_cases t.
Qed.

Lemma allocatedTransactions_spec transactions v :
  Dashboard.allocatedTransactions categories transactions v =
  List.filter (isAllocatedOut categories)
    (List.filter (fun t => String.leb (Transaction.date t) (Dashboard.endOfViewMonthStr v))
       transactions).
Proof using Type.
  unfold Dashboard.allocatedTransactions. rewrite filter_filter_andb.
  apply filter_ext. intros t.
  unfold isAllocatedOut, taggedTo.
  destruct (string_leb_false_ltb (Transaction.date t) (Dashboard.endOfViewMonthStr v))
    as [H1 H2].
  destruct (String.leb (Transaction.date t) (Dashboard.endOfViewMonthStr v)) eqn:Hle.
  - destruct (String.ltb (Dashboard.endOfViewMonthStr v) (Transaction.date t)) eqn:Hlt;
      [specialize (H2 eq_refl); discriminate|].
    pool_cases t.
  - rewrite (H1 eq_refl). pool_cases t.
Qed.
End PoolFacts.

(** C4, as amended.  On the Dashboard the pool is the opening balance plus the
    gross income (uncategorized or tagged to an income category, legacy
    markers left out), minus the income tagged to expense or investment
    categories, minus the uncategorized expenses, all three taken over the
    transactions dated on or before the last day of the viewed month.  The
    Transactions page takes them over the whole ledger, with no opening
    balance. *)
Theorem totalUnallocatedAvailable_formula
    (categories : list Category.t) (transactions : list Transaction.t)
    (incomeSources : list IncomeSource.t) (v : Dashboard.View) :
  Dashboard.totalUnallocatedAvailable categories transactions incomeSources v
  == availableToBudget categories (Dashboard.openingBalance incomeSources)
       (List.filter (fun t => String.leb (Transaction.date t) (Dashboard.endOfViewMonthStr v))
          transactions)
  /\ Transactions.totalUnallocatedAvailable transactions categories
     == availableToBudget categories 0 transactions.
Proof.
  split.
  - unfold Dashboard.totalUnallocatedAvailable, availableToBudget,
      Dashboard.totalGrossIncome, Dashboard.totalAllocated, Dashboard.uncategorizedExpenses.
    rewrite grossIncomeTransactions_spec, allocatedTransactions_spec.
    rewrite (filter_filter_andb (isPoolExpense)).
    replace (List.filter (fun x => String.leb (Transaction.date x) (Dashboard.endOfViewMonthStr v)
                                   && isPoolExpense x) transactions)
      with (List.filter (fun t => TransactionType_eqb (Transaction.type t) EXPENSE
                                  && negb (Js.truthy (Transaction.categoryId t))
                                  && String.leb (Transaction.date t)
                                       (Dashboard.endOfViewMonthStr v)) transactions).
    + reflexivity.
    + apply filter_ext. intros t. unfold isPoolExpense, uncategorized.
      destruct (String.leb _ _); pool_cases t.
  - unfold Transactions.totalUnallocatedAvailable, availableToBudget,
      Transactions.grossIncome, Transactions.allocated,
      Transactions.uncategorizedExpenses.
    rewrite !filter_filter_andb.
    assert (forall f g : Transaction.t -> bool, (forall t, f t = g t) ->
            Js.sum_by Transaction.amount (List.filter f transactions)
            = Js.sum_by Transaction.amount (List.filter g transactions)) as Hext
      by (intros f g Hfg; f_equal; apply filter_ext, Hfg).
    rewrite (Hext _ (isPoolIncome categories)).
    2:{ intros t. unfold isPoolIncome, uncategorized, taggedTo. pool_cases t. }
    rewrite (Hext (fun t => _ && _ && match _ with Some _ => _ | None => false end)
                  (isAllocatedOut categories)).
    2:{ intros t. unfold isAllocatedOut, taggedTo. pool_cases t. }
    rewrite (Hext (fun t => _ && negb _) isPoolExpense).
    2:{ intros t. unfold isPoolExpense, uncategorized. pool_cases t. }
    ring.
Qed.

(** An income dated after the viewed month is not in the Dashboard's pool,
    so the pool is not the formula taken over every transaction. *)
Lemma totalUnallocatedAvailable_ignores_later_income :
  ~ (Dashboard.totalUnallocatedAvailable [] Scenario.julyIncome [] Scenario.june
     == availableToBudget [] (Dashboard.openingBalance []) Scenario.julyIncome).
Proof. vm_compute. discriminate. Qed.

(** ** Income distribution, current month *)

Section DistributionFacts.
Context `{rt : Js.Runtime}.
Variable categories : list Category.t.
Variable transactions : list Transaction.t.
Variable incomeSources : list IncomeSource.t.
Variable v : Dashboard.View.


End DistributionFacts.

(** ** What a distribution gives to the categories *)



Section Shares.
Context `{rt : Js.Runtime}.





End Shares.





(** ** Distributions that stay within the pool *)

Section TargetsLoop.
Context `{rt : Js.Runtime}.
Variable categories : list Category.t.
Variable rule : AllocationRule.t.
Variable dateStr : string.
Variable ratio : Q.
Variable keep : Category.t * Q * Q -> bool.
Variable mk : string -> Category.t * Q * Q -> Transaction.t.
Hypothesis links :
  forall c linked, In c (expenseEnvelopes categories) ->
    Category.linkedPaymentIndex c = Some linked -> (1 <= linked)%Z.
Hypothesis keep_spec :
  forall c share multiplier,
    keep (c, share, multiplier) = Js.Qgt_bool (share * ratio) 0.01.
Hypothesis mk_spec :
  forall id c share multiplier,
    mk id (c, share, multiplier)
    = Transaction.mk id dateStr (Js.toFixed2 (share * ratio))
        (Transaction.description (mk id (c, share, multiplier))) (Some (Category.id c))
        None INCOME (Transaction.parentTransactionId (mk id (c, share, multiplier)))
        None None.



End TargetsLoop.

Section WithinPool.
Context `{rt : Js.Runtime}.
Variable categories : list Category.t.
Variable transactions : list Transaction.t.
Variable rule : AllocationRule.t.
Variable dateStr : string.
Variable poolAmount : Q.
Variable confirmProportional : bool.
Variable after : list Transaction.t.
Variable keep : Q -> Category.t * Q * Q -> bool.
Variable mk : Q -> string -> Category.t * Q * Q -> Transaction.t.
Variable next : nat.
Hypothesis links :
  forall c linked, In c (expenseEnvelopes categories) ->
    Category.linkedPaymentIndex c = Some linked -> (1 <= linked)%Z.
Hypothesis budgets :
  forall c, In c (expenseEnvelopes categories) -> 0 <= getBudgetForDate c dateStr.
Hypothesis percentage : 0 <= AllocationRule.percentage rule.
Hypothesis funds : 0 < poolAmount.
Hypothesis keep_spec :
  forall ratio c share multiplier,
    keep ratio (c, share, multiplier) = Js.Qgt_bool (share * ratio) 0.01.
Hypothesis mk_spec :
  forall ratio id c share multiplier,
    mk ratio id (c, share, multiplier)
    = Transaction.mk id dateStr (Js.toFixed2 (share * ratio))
        (Transaction.description (mk ratio id (c, share, multiplier)))
        (Some (Category.id c)) None INCOME
        (Transaction.parentTransactionId (mk ratio id (c, share, multiplier))) None None.
Hypothesis run :
  let potentialAllocation := Dashboard.potentialAllocation categories rule dateStr in
  let exceeds := Js.Qgt_bool potentialAllocation poolAmount in
  let finalRatio := if exceeds then poolAmount / potentialAllocation else 1 in
  if exceeds && negb confirmProportional then after = transactions
  else after
       = (transactions
          ++ forEachPush (Dashboard.targets categories rule dateStr) (keep finalRatio)
               (mk finalRatio) next)%list.

End WithinPool.

Section CurrentRuns.
Context `{rt : Js.Runtime}.
Variable accounts : list Account.t.
Variable categories : list Category.t.
Variable transactions : list Transaction.t.
Variable incomeSources : list IncomeSource.t.
Variable v : Dashboard.View.
Variable today : string.
Variable selectedAllocationIndex : nat.
Variable useManualFunding : bool.
Variables manualFundAmount selectedIncomeTxId : string.
Variables confirmDuplicate confirmProportional : bool.
Variable next : nat.
Variable rule : AllocationRule.t.
Hypothesis selected :
  Dashboard.selectedRule incomeSources selectedAllocationIndex = Some rule.


End CurrentRuns.



(** Two envelopes of 300 and a pool of 300: each receives 150. *)
Example handleDistributeIncome_halves :
  List.map allocationView
    (Scenario.added Scenario.pool300
       (Dashboard.di_transactions
          (Dashboard.handleDistributeIncome (rt := Scenario.runtime) Scenario.twoEnvelopes
             Scenario.pool300 Scenario.oneSource Scenario.june "2024-06-10" current
             0 true true 0)))
  = [ (Some "cat-a", 15000 # 100); (Some "cat-b", 15000 # 100) ].
Proof. reflexivity. Qed.

(** 1000 typed by the user for two envelopes of 300: each receives 300 and
    nothing is written for the 400 that remain. *)
Example handleDistributeIncome_typed_amount :
  List.map allocationView
    (Scenario.added Scenario.pool300
       (Dashboard.di_transactions
          (DashboardAccounts.handleDistributeIncome (rt := Scenario.runtime)
             Scenario.twoAccounts Scenario.twoEnvelopes Scenario.pool300 Scenario.june
             Scenario.oneSource "2024-06-10" current 0 true "1000" "" true true 0)))
  = [ (Some "cat-a", 30000 # 100); (Some "cat-b", 30000 # 100) ].
Proof. reflexivity. Qed.


(** ** Linked payments *)

Section Links.
Context `{rt : Js.Runtime}.
Variable categories : list Category.t.
Variable transactions : list Transaction.t.
Variable rule : AllocationRule.t.
Variable dateStr : string.
Variable poolAmount : Q.
Variable after : list Transaction.t.
Variable keep : Q -> Category.t * Q * Q -> bool.
Variable mk : Q -> string -> Category.t * Q * Q -> Transaction.t.
Variable next : nat.
Hypothesis links :
  forall c linked, In c (expenseEnvelopes categories) ->
    Category.linkedPaymentIndex c = Some linked -> (1 <= linked)%Z.
Hypothesis distinct_ids : List.NoDup (List.map Category.id (expenseEnvelopes categories)).
Hypothesis keep_spec :
  forall ratio c share multiplier,
    keep ratio (c, share, multiplier) = Js.Qgt_bool (share * ratio) 0.01.
Hypothesis mk_spec :
  forall ratio id c share multiplier,
    mk ratio id (c, share, multiplier)
    = Transaction.mk id dateStr (Js.toFixed2 (share * ratio))
        (Transaction.description (mk ratio id (c, share, multiplier)))
        (Some (Category.id c)) None INCOME
        (Transaction.parentTransactionId (mk ratio id (c, share, multiplier))) None None.
Hypothesis run :
  let potentialAllocation := Dashboard.potentialAllocation categories rule dateStr in
  let exceeds := Js.Qgt_bool potentialAllocation poolAmount in
  let finalRatio := if exceeds then poolAmount / potentialAllocation else 1 in
  if exceeds && negb true then after = transactions
  else after
       = (transactions
          ++ forEachPush (Dashboard.targets categories rule dateStr) (keep finalRatio)
               (mk finalRatio) next)%list.

End Links.



(** A category linked to the second payment gets nothing under the rule of
    the first payment and its whole target of 120, not 30% of it, under the
    rule of the second. *)
Example linked_to_second_payment :
  let given idx :=
    List.map allocationView
      (Scenario.added Scenario.pool300
         (Dashboard.di_transactions
            (Dashboard.handleDistributeIncome (rt := Scenario.runtime)
               Scenario.linkedAndFree Scenario.pool300 Scenario.twoPayments Scenario.june
               "2024-06-10" current idx true true 0))) in
  given 0%nat = [ (Some "cat-a", 21000 # 100) ]
  /\ given 1%nat = [ (Some "cat-l", 12000 # 100); (Some "cat-a", 9000 # 100) ].
Proof. split; reflexivity. Qed.

(** ** Income distribution, gap fill for the previous month *)

Lemma filter_map_comm {A B : Type} (g : A -> B) (p : B -> bool) (l : list A) :
  List.filter p (List.map g l) = List.map g (List.filter (fun x => p (g x)) l).
Proof.
  induction l as [|a l IH]; simpl; [reflexivity|].
  destruct (p (g a)); simpl; rewrite IH; reflexivity.
Qed.

Section GapFillFacts.
Context `{rt : Js.Runtime}.

Variable transactions : list Transaction.t.
Variable v : Dashboard.View.

Lemma deficits_spec categories dateStr :
  Dashboard.deficits categories transactions v dateStr
  = List.map (fun cat => (cat, deficitOf transactions v dateStr cat))
      (List.filter (fun cat => Js.Qgt_bool (deficitOf transactions v dateStr cat) 0)
         (Dashboard.expenseCategories categories)).
Proof using Type.
  unfold Dashboard.deficits. rewrite filter_map_comm. reflexivity.
Qed.




End GapFillFacts.

Section GapFill.
Context `{rt : Js.Runtime}.
Variable transactions : list Transaction.t.
Variable v : Dashboard.View.



End GapFill.

Section Deficits.
Context `{rt : Js.Runtime}.
Variable transactions : list Transaction.t.
Variable v : Dashboard.View.



Lemma deficit_nonneg (c : Category.t) : 0 <= deficit v transactions c.
Proof using Type. apply Q.le_max_l. Qed.


End Deficits.

Section GapFillAccounts.
Context `{rt : Js.Runtime}.
Variable accounts : list Account.t.
Variable transactions : list Transaction.t.
Variable v : Dashboard.View.



End GapFillAccounts.

Section GapFillLedger.
Context `{rt : Js.Runtime}.
Variable transactions : list Transaction.t.
Variable v : Dashboard.View.

End GapFillLedger.



(** Deficits of 200 and 300 and a pool of 200: the envelopes receive 80 and
    120; of 50 typed by the user they receive 20 and 30. *)
Example handleDistributeIncome_gap_fill_shares :
  List.map allocationView
    (Scenario.added Scenario.mayLedger
       (Dashboard.di_transactions
          (Dashboard.handleDistributeIncome (rt := Scenario.runtime) Scenario.twoEnvelopes
             Scenario.mayLedger Scenario.oneSource Scenario.june "2024-06-10" previous
             0 true true 0)))
  = [ (Some "cat-a", 8000 # 100); (Some "cat-b", 12000 # 100) ]
  /\ List.map allocationView
       (Scenario.added Scenario.mayLedger
          (Dashboard.di_transactions
             (DashboardAccounts.handleDistributeIncome (rt := Scenario.runtime)
                Scenario.twoAccounts Scenario.twoEnvelopes Scenario.mayLedger Scenario.june
                Scenario.oneSource "2024-06-10" previous 0 true "50" "" true true 0)))
     = [ (Some "cat-a", 2000 # 100); (Some "cat-b", 3000 # 100) ].
Proof. split; reflexivity. Qed.

(** ** Deletion *)

Lemma unique_id (prev : list Transaction.t) (a b : Transaction.t) :
  List.NoDup (List.map Transaction.id prev) ->
  In a prev -> In b prev -> Transaction.id a = Transaction.id b -> a = b.
Proof.
  induction prev as [|x l IH]; simpl; [tauto|].
  intros Hnd Ha Hb Hid. inversion Hnd as [|? ? Hnotin Hnd']; subst.
  destruct Ha as [->|Ha], Hb as [->|Hb]; auto.
  - exfalso. apply Hnotin. rewrite Hid. apply in_map, Hb.
  - exfalso. apply Hnotin. rewrite <- Hid. apply in_map, Ha.
Qed.

Lemma find_unique_id (prev : list Transaction.t) (target : Transaction.t) :
  List.NoDup (List.map Transaction.id prev) -> In target prev ->
  find (fun t => String.eqb (Transaction.id t) (Transaction.id target)) prev = Some target.
Proof.
  intros Hnd Hin.
  destruct (find _ prev) as [t|] eqn:Hf.
  - apply find_some in Hf. destruct Hf as [Ht Heq]. apply String.eqb_eq in Heq.
    f_equal. apply (unique_id prev); auto.
  - apply (find_none _ _ Hf) in Hin. rewrite String.eqb_refl in Hin. discriminate.
Qed.

(** The ids of the children of [id] are ids of nothing else in the ledger. *)
Lemma child_id_iff (prev : list Transaction.t) (id : string) (t : Transaction.t) :
  List.NoDup (List.map Transaction.id prev) -> In t prev ->
  In (Transaction.id t)
     (List.map Transaction.id
        (List.filter (fun c => Js.opt_is (Transaction.parentTransactionId c) id) prev))
  <-> Js.opt_is (Transaction.parentTransactionId t) id = true.
Proof.
  intros Hnd Ht. rewrite in_map_iff. split.
  - intros (c & Hid & Hc). apply filter_In in Hc. destruct Hc as [Hc Hp].
    rewrite <- (unique_id prev c t Hnd Hc Ht Hid). exact Hp.
  - intros Hp. exists t. split; [reflexivity|]. apply filter_In. auto.
Qed.

Lemma elem_of_fold_union (children : list Transaction.t) (ids : gset string) (x : string) :
  x ∈ fold_left (fun ids c => ids ∪ {[ Transaction.id c ]}) children ids
  <-> x ∈ ids \/ In x (List.map Transaction.id children).
Proof.
  revert ids. induction children as [|c l IH]; intros ids; simpl.
  - tauto.
  - rewrite IH, elem_of_union, elem_of_singleton. intuition congruence.
Qed.

Lemma deleteTransaction_removes (prev : list Transaction.t) (id : string) :
  List.NoDup (List.map Transaction.id prev) ->
  Transactions.deleteTransaction prev id
  = List.filter (fun t => negb (removedWith id t)) prev.
Proof.
  intros Hnd. unfold Transactions.deleteTransaction. apply filter_ext_in.
  intros t Ht. f_equal. unfold removedWith.
  apply eq_true_iff_eq. rewrite bool_decide_eq_true, elem_of_list_to_set, list_elem_of_In.
  simpl. rewrite (child_id_iff prev id t Hnd Ht), orb_true_iff, String.eqb_eq.
  intuition congruence.
Qed.

(** C7, as amended.  In a ledger of transactions with distinct ids, deleting a
    transaction that is present removes it and every transaction whose
    [parentTransactionId] is its id and, where transfers exist and it is a
    transfer with a peer, that peer; every other transaction stays, unchanged
    and in its place. *)
Theorem deleteTransaction_cascade (prev : list Transaction.t) (target : Transaction.t) :
  List.NoDup (List.map Transaction.id prev) ->
  In target prev ->
  let id := Transaction.id target in
  Dashboard.deleteTransaction prev id
  = List.filter (fun t => negb (removedWith id t)) prev
  /\ Transactions.deleteTransaction prev id
     = List.filter (fun t => negb (removedWith id t)) prev
  /\ TransactionsAccounts.deleteTransaction prev id
     = List.filter (fun t => negb (removedWith id t || isTransferPeer target t)) prev.
Proof.
  intros Hnd Hin id. split; [|split].
  - apply (deleteTransaction_removes prev id Hnd).
  - apply (deleteTransaction_removes prev id Hnd).
  - unfold TransactionsAccounts.deleteTransaction. unfold id at 1.
    rewrite (find_unique_id prev target Hnd Hin).
    apply filter_ext_in. intros t Ht. f_equal.
    unfold removedWith, isTransferPeer.
    apply eq_true_iff_eq. rewrite bool_decide_eq_true.
    destruct (TransactionType_eqb (Transaction.type target) TRANSFER
              && Js.truthy (Transaction.transferPeerId target)) eqn:Hpeer.
    + rewrite elem_of_union, elem_of_fold_union, !elem_of_singleton.
      rewrite (child_id_iff prev id t Hnd Ht), !orb_true_iff, String.eqb_eq.
      simpl. unfold Js.opt_is.
      destruct (Transaction.transferPeerId target) as [peer|]; simpl.
      * rewrite String.eqb_eq. intuition congruence.
      * apply andb_true_iff in Hpeer. destruct Hpeer as [_ Hpeer]. discriminate Hpeer.
    + rewrite elem_of_fold_union, elem_of_singleton.
      rewrite (child_id_iff prev id t Hnd Ht), !orb_true_iff, String.eqb_eq.
      simpl. intuition congruence.
Qed.

Lemma deleteTransaction_cascade_witness :
  List.NoDup (List.map Transaction.id Scenario.paycheckLedger)
  /\ In (Scenario.incomeTx "p1" "2024-06-01" 300 None) Scenario.paycheckLedger
  /\ Transactions.deleteTransaction Scenario.paycheckLedger "p1"
     = List.filter (fun t => negb (removedWith "p1" t)) Scenario.paycheckLedger.
Proof.
  assert (List.NoDup (List.map Transaction.id Scenario.paycheckLedger)) as Hnd.
  { repeat constructor; simpl; intuition discriminate. }
  assert (In (Scenario.incomeTx "p1" "2024-06-01" 300 None) Scenario.paycheckLedger) as Hin
    by (left; reflexivity).
  split; [exact Hnd|]. split; [exact Hin|].
  exact (proj1 (proj2 (deleteTransaction_cascade Scenario.paycheckLedger
                         (Scenario.incomeTx "p1" "2024-06-01" 300 None) Hnd Hin))).
Defined.

(** Deleting the paycheck leaves the unrelated expense alone. *)
Example deleteTransaction_paycheck :
  List.map Transaction.id (Transactions.deleteTransaction Scenario.paycheckLedger "p1")
  = [ "e1" ].
Proof. reflexivity. Qed.

(** Deleting one half of a transfer removes the other half too, which is
    neither the deleted transaction nor a child of it. *)
Lemma deleteTransaction_removes_transfer_peer :
  In Scenario.transferIn [ Scenario.transferOut; Scenario.transferIn ]
  /\ removedWith "x1" Scenario.transferIn = false
  /\ TransactionsAccounts.deleteTransaction [ Scenario.transferOut; Scenario.transferIn ] "x1"
     = [].
Proof.
  split; [right; left; reflexivity|]. split; reflexivity.
Qed.

(** ** Editing an amount *)



(** A third of the paycheck taken away: the allocations of 150 become 100. *)
Example handleSaveEdit_two_thirds :
  List.map (fun t => (Transaction.id t, Transaction.amount t))
    (Transactions.handleSaveEdit Scenario.paycheckLedger (Some "p1") (Scenario.amountEdit 200))
  = [ ("p1", 200); ("a1", 10000 # 100); ("a2", 10000 # 100); ("e1", 20) ].
Proof. reflexivity. Qed.

(** Doubling the paycheck doubles its two allocations and leaves the expense. *)
Example handleSaveEdit_doubles :
  List.map (fun t => (Transaction.id t, Transaction.amount t))
    (Transactions.handleSaveEdit Scenario.paycheckLedger (Some "p1") (Scenario.amountEdit 600))
  = [ ("p1", 600); ("a1", 30000 # 100); ("a2", 30000 # 100); ("e1", 20) ].
Proof. reflexivity. Qed.

(** ** Insufficient funds *)

(** The children the Transactions page groups under a parent id. *)
Lemma childrenMap_fold (l : list Transaction.t) (m : gmap string (list Transaction.t))
    (parent : string) :
  parent <> "" ->
  default [] (fold_left (fun map t =>
                match Transaction.parentTransactionId t with
                | Some p =>
                    if Js.truthy (Some p)
                    then let existing := default [] (map !! p) in
                         <[p := (existing ++ [t])%list]> map
                    else map
                | None => map
                end) l m !! parent)
  = (default [] (m !! parent)
     ++ List.filter (fun t => Js.opt_is (Transaction.parentTransactionId t) parent) l)%list.
Proof.
  intros Hne. revert m. induction l as [|t l IH]; intros m; simpl.
  - now rewrite app_nil_r.
  - rewrite IH. unfold Js.opt_is at 2.
    destruct (Transaction.parentTransactionId t) as [p|]; [|reflexivity].
    destruct (String.eqb_spec p parent) as [->|Hp].
    + apply String.eqb_neq in Hne. simpl. rewrite Hne. simpl.
      rewrite lookup_insert_eq. simpl. now rewrite <- List.app_assoc.
    + simpl. destruct (negb (p =? "")); [|reflexivity].
      simpl. now rewrite lookup_insert_ne.
Qed.

Lemma childrenMap_lookup (transactions : list Transaction.t) (parent : string) :
  parent <> "" ->
  default [] (Transactions.childrenMap transactions !! parent)
  = List.filter (fun t => Js.opt_is (Transaction.parentTransactionId t) parent) transactions.
Proof.
  intros Hne. unfold Transactions.childrenMap. rewrite childrenMap_fold by exact Hne.
  rewrite lookup_empty. reflexivity.
Qed.

(** C6, as amended.  A one-time expense of a valid, positive amount that
    needs more from the pool than the pool holds plus 0.01 is reported as
    insufficient funds, with the amounts required and available, and nothing
    is written: the categories, the ledger and the id counter are as before.
    Funding an existing transaction is refused in the same way when it needs
    more than 0.01 above what the alert reports as available: the pool plus
    the absolute amounts of the children the transaction has in the ledger,
    which a new funding replaces; so a transaction with no children is
    refused against the pool itself. *)
Theorem insufficient_funds_rejected `{rt : Js.Runtime}
    (categories : list Category.t) (transactions : list Transaction.t)
    (incomeSources : list IncomeSource.t) (v : Dashboard.View)
    (oneTimeDesc oneTimeAmount oneTimeDate : string)
    (fundingSources : list (string * Q)) (next : nat)
    (expenseAmount : Q) (fundingTx : Transaction.t) :
  let funded := totalFunded fundingSources in
  let pool := Dashboard.totalUnallocatedAvailable categories transactions incomeSources v in
  let pagePool := Transactions.totalUnallocatedAvailable transactions categories in
  let alreadyFunded :=
    Js.sum_by (fun c => Qabs (Transaction.amount c))
      (childrenOf (Transaction.id fundingTx) transactions) in
  let need := Transaction.amount fundingTx - funded in
  (JsString.parseFloat oneTimeAmount = Some expenseAmount ->
   0 < expenseAmount ->
   pool + 0.01 < expenseAmount - funded ->
   Dashboard.handleCreateOneTimeExpense categories transactions incomeSources v
     oneTimeDesc oneTimeAmount oneTimeDate fundingSources next
   = Dashboard.mkOneTime categories transactions
       (Some (AlertInsufficientFunds expenseAmount funded
                (Qmax 0 (expenseAmount - funded)) pool))
       next)
  /\ (Transaction.id fundingTx <> "" ->
      pagePool + alreadyFunded + 0.01 < need ->
      Transactions.executeFunding transactions categories (Some fundingTx)
        fundingSources next
      = Transactions.mkFunding transactions
          (Some (AlertInsufficientFunds (Transaction.amount fundingTx) funded
                   (Qmax 0 need) (pagePool + alreadyFunded)))
          next)
  /\ (Transaction.id fundingTx <> "" ->
      childrenOf (Transaction.id fundingTx) transactions = [] ->
      pagePool + 0.01 < need ->
      exists available,
        available == pagePool
        /\ Transactions.executeFunding transactions categories (Some fundingTx)
             fundingSources next
           = Transactions.mkFunding transactions
               (Some (AlertInsufficientFunds (Transaction.amount fundingTx) funded
                        (Qmax 0 need) available))
               next).
Proof.
  intros funded pool pagePool alreadyFunded need.
  assert (Transaction.id fundingTx <> "" ->
          pagePool + alreadyFunded + 0.01 < need ->
          Transactions.executeFunding transactions categories (Some fundingTx)
            fundingSources next
          = Transactions.mkFunding transactions
              (Some (AlertInsufficientFunds (Transaction.amount fundingTx) funded
                       (Qmax 0 need) (pagePool + alreadyFunded)))
              next) as Hrefused.
  { intros Hid Hneed. unfold Transactions.executeFunding.
    rewrite (childrenMap_lookup transactions (Transaction.id fundingTx) Hid).
    fold funded need. fold (isChildOf (Transaction.id fundingTx)).
    fold (childrenOf (Transaction.id fundingTx) transactions).
    fold alreadyFunded pagePool.
    assert (Js.Qgt_bool (Qmax 0 need) (pagePool + alreadyFunded + 0.01) = true) as ->.
    { apply Qgt_bool_iff. pose proof (Q.le_max_r 0 need). lra. }
    reflexivity. }
  split; [|split].
  - intros Hparse Hpos Hneed. unfold Dashboard.handleCreateOneTimeExpense.
    rewrite Hparse. fold funded pool.
    assert (Qle_bool expenseAmount 0 = false) as ->.
    { apply not_true_iff_false. rewrite Qle_bool_iff. lra. }
    assert (Js.Qgt_bool (Qmax 0 (expenseAmount - funded)) (pool + 0.01) = true) as ->.
    { apply Qgt_bool_iff. pose proof (Q.le_max_r 0 (expenseAmount - funded)). lra. }
    reflexivity.
  - exact Hrefused.
  - intros Hid Hnone Hneed. exists (pagePool + alreadyFunded).
    assert (alreadyFunded == 0) as Hzero
      by (unfold alreadyFunded; rewrite Hnone; reflexivity).
    split; [rewrite Hzero; ring|]. apply Hrefused; [exact Hid|]. rewrite Hzero. lra.
Qed.

Lemma insufficient_funds_rejected_witness :
  let ledger := Scenario.fundedLedger 500 in
  let pool :=
    Dashboard.totalUnallocatedAvailable Scenario.withOther ledger Scenario.oneSource
      Scenario.june in
  let pagePool := Transactions.totalUnallocatedAvailable ledger Scenario.withOther in
  (pool == 380
   /\ Dashboard.handleCreateOneTimeExpense (rt := Scenario.runtime) Scenario.withOther
        ledger Scenario.oneSource Scenario.june "Laptop" "500" "2024-06-10"
        [ ("cat-a", 100) ] 0
      = Dashboard.mkOneTime Scenario.withOther ledger
          (Some (AlertInsufficientFunds 500 (totalFunded [ ("cat-a", 100) ])
                   (Qmax 0 (500 - totalFunded [ ("cat-a", 100) ])) pool))
          0)
  /\ (pagePool == 380
      /\ Js.sum_by (fun c => Qabs (Transaction.amount c)) (childrenOf "r1" ledger) == 80
      /\ Transactions.fu_transactions
           (Transactions.executeFunding (rt := Scenario.runtime) ledger Scenario.withOther
              (Some (Scenario.fundedRepair 600)) [ ("cat-a", 100) ] 0)
         = ledger
      /\ Transactions.fu_alert
           (Transactions.executeFunding (rt := Scenario.runtime) ledger Scenario.withOther
              (Some (Scenario.fundedRepair 600)) [ ("cat-a", 100) ] 0)
         = Some (AlertInsufficientFunds 600 (totalFunded [ ("cat-a", 100) ])
                   (Qmax 0 (600 - totalFunded [ ("cat-a", 100) ]))
                   (pagePool
                    + Js.sum_by (fun c => Qabs (Transaction.amount c))
                        (childrenOf "r1" ledger)))).
Proof.
  intros ledger pool pagePool.
  destruct (insufficient_funds_rejected (rt := Scenario.runtime) Scenario.withOther ledger
              Scenario.oneSource Scenario.june "Laptop" "500" "2024-06-10"
              [ ("cat-a", 100) ] 0 500 (Scenario.fundedRepair 600))
    as (Hexpense & Hfunding & _).
  split.
  - split; [reflexivity|]. apply Hexpense; reflexivity.
  - split; [reflexivity|]. split; [reflexivity|].
    assert ("r1" <> "") as Hid by discriminate.
    rewrite (Hfunding Hid eq_refl). split; reflexivity.
Defined.

(** A repair of 400 that 80 were moved for, funded anew with nothing from the
    envelopes: it needs 400 from a pool of 380, which is more than the pool
    holds plus 0.01, and the funding is applied with no report, the 80 its
    child moved counting as available. *)
Lemma executeFunding_accepts_beyond_pool :
  let ledger := Scenario.fundedLedger 400 in
  let pool := Transactions.totalUnallocatedAvailable ledger Scenario.withOther in
  let out :=
    Transactions.executeFunding (rt := Scenario.runtime) ledger Scenario.withOther
      (Some (Scenario.fundedRepair 400)) [] 0 in
  pool == 380
  /\ pool + 0.01 < Transaction.amount (Scenario.fundedRepair 400) - totalFunded []
  /\ Transactions.fu_alert out = None
  /\ List.map Transaction.id (Transactions.fu_transactions out) = [ "r1"; "t1" ]
  /\ Transactions.fu_transactions out <> ledger.
Proof.
  split; [reflexivity|]. split; [reflexivity|]. split; [reflexivity|].
  split; [reflexivity|]. discriminate.
Qed.
(** ** Re-funding *)

Lemma filter_all {A : Type} (p : A -> bool) (l : list A) :
  (forall x, In x l -> p x = true) -> List.filter p l = l.
Proof.
  induction l as [|a l IH]; intros H; simpl; [reflexivity|].
  rewrite (H a (or_introl eq_refl)). f_equal. apply IH. intros x Hx. apply H. now right.
Qed.

Section FundingFacts.
Context `{rt : Js.Runtime}.

Lemma pushFrom_Forall {A : Type} (P : Transaction.t -> Prop) (keep : A -> bool)
    (mk : string -> A -> Transaction.t) (next : nat) (l : list A)
    (acc : list Transaction.t) :
  (forall id x, P (mk id x)) -> List.Forall P acc ->
  List.Forall P (pushFrom keep mk next l acc).
Proof.
  intros Hmk. revert acc. induction l as [|a l IH]; intros acc Hacc; simpl; [exact Hacc|].
  apply IH. destruct (keep a); [|exact Hacc].
  apply List.Forall_app. split; [exact Hacc|]. constructor; [apply Hmk|constructor].
Qed.

Variable categories : list Category.t.
Variable fundingTx : Transaction.t.
Variable fundingSources : list (string * Q).
Hypothesis id_set : Transaction.id fundingTx <> "".
Hypothesis not_own_parent : isChildOf (Transaction.id fundingTx) fundingTx = false.

(** A run of the first funding model either changes nothing, whatever ids it
    could draw, or leaves the target with one debit for every source as its
    only children. *)
Lemma executeFunding_children (transactions : list Transaction.t) :
  (forall next,
     Transactions.fu_transactions
       (Transactions.executeFunding transactions categories (Some fundingTx)
          fundingSources next) = transactions
     /\ Transactions.fu_alert
          (Transactions.executeFunding transactions categories (Some fundingTx)
             fundingSources next) <> None)
  \/ (forall next,
        Transactions.fu_alert
          (Transactions.executeFunding transactions categories (Some fundingTx)
             fundingSources next) = None
        /\ List.map allocationView
             (childrenOf (Transaction.id fundingTx)
                (Transactions.fu_transactions
                   (Transactions.executeFunding transactions categories (Some fundingTx)
                      fundingSources next)))
           = sourceDebits fundingSources).
Proof using id_set not_own_parent.
  unfold Transactions.executeFunding.
  destruct (Js.Qgt_bool _ _); [left; intros next; split; [reflexivity|discriminate]|].
  destruct (find _ categories) as [otherCategory|];
    [|left; intros next; split; [reflexivity|discriminate]].
  right. intros next. split; [reflexivity|]. cbn [Transactions.fu_transactions].
  unfold childrenOf. cbn [List.filter]. unfold isChildOf at 1.
  cbn [Transaction.with_description_category Transaction.parentTransactionId].
  unfold isChildOf in not_own_parent. rewrite not_own_parent.
  rewrite List.filter_app, filter_all, (filter_none _ (List.filter _ transactions)).
  - rewrite app_nil_r. unfold sourceDebits.
    apply forEachPush_view. intros id [catId val]. reflexivity.
  - intros t Ht. apply filter_In in Ht. destruct Ht as [Ht Hkeep].
    destruct (isChildOf (Transaction.id fundingTx) t) eqn:Hchild; [|reflexivity].
    exfalso. apply negb_true_iff in Hkeep.
    assert (existsb (String.eqb (Transaction.id t))
              (Transaction.id fundingTx
               :: List.map Transaction.id
                    (default [] (Transactions.childrenMap transactions
                                 !! Transaction.id fundingTx))) = true) as Hin;
      [|congruence].
    apply existsb_exists. exists (Transaction.id t). split; [|apply String.eqb_refl].
    right. apply in_map. rewrite childrenMap_lookup by exact id_set.
    apply filter_In. split; assumption.
  - apply List.Forall_forall. unfold forEachPush.
    apply pushFrom_Forall; [|constructor].
    intros id [catId val]. unfold isChildOf. simpl. apply String.eqb_refl.
Qed.

(** The loop of the second funding model, started with [acc]. *)
Lemma pairs_loop (acc : list Transaction.t) (next : nat) :
  let newTxs :=
    fold_left (fun newTxs '(sourceCatId, amount) =>
       if Qle_bool amount 0 then newTxs
       else
         let sourceName :=
           match findCategory categories (Some sourceCatId) with
           | Some sourceCat => Category.name sourceCat
           | None => "undefined"
           end in
         let n := (next + List.length newTxs)%nat in
         (newTxs ++
          [ Transaction.mk (Js.uuid n) (Transaction.date fundingTx) (- amount)
              ("Covering: " ++ Transaction.description fundingTx)
              (Some sourceCatId) None INCOME (Some (Transaction.id fundingTx))
              None None;
            Transaction.mk (Js.uuid (S n)) (Transaction.date fundingTx) amount
              ("Funded from: " ++ sourceName)
              (Transaction.categoryId fundingTx) None INCOME
              (Some (Transaction.id fundingTx)) None None ])%list)
      fundingSources acc in
  List.map allocationView newTxs
  = (List.map allocationView acc ++ debitCreditPairs fundingTx fundingSources)%list
  /\ (List.Forall (fun t => isChildOf (Transaction.id fundingTx) t = true) acc ->
      List.Forall (fun t => isChildOf (Transaction.id fundingTx) t = true) newTxs).
Proof using Type.
  revert acc. unfold debitCreditPairs.
  induction fundingSources as [|[catId val] l IH]; intros acc; simpl.
  - split; [now rewrite app_nil_r|auto].
  - destruct (Qle_bool val 0); simpl; [apply IH|].
    match goal with
    | |- context [fold_left _ l ?a] => destruct (IH a) as [Hviews Hchildren]
    end.
    split.
    + rewrite Hviews, List.map_app, <- List.app_assoc. reflexivity.
    + intros Hacc. apply Hchildren. apply List.Forall_app. split; [exact Hacc|].
      repeat constructor; unfold isChildOf; simpl; apply String.eqb_refl.
Qed.

(** A run of the second funding model keeps every transaction that is not a
    child of the target and either changes nothing or leaves the target with
    a debit and a credit for every source as its only children. *)
Lemma executeFunding_pairs (transactions : list Transaction.t) (next : nat) :
  let out :=
    fst (TransactionsAccounts.executeFunding transactions categories (Some fundingTx)
           fundingSources next) in
  List.filter (fun t => negb (isChildOf (Transaction.id fundingTx) t)) out
  = List.filter (fun t => negb (isChildOf (Transaction.id fundingTx) t)) transactions
  /\ (if Js.truthy (Transaction.categoryId fundingTx)
      then List.map allocationView (childrenOf (Transaction.id fundingTx) out)
           = debitCreditPairs fundingTx fundingSources
      else out = transactions).
Proof using Type.
  unfold TransactionsAccounts.executeFunding.
  destruct (Js.truthy (Transaction.categoryId fundingTx)); simpl; [|split; reflexivity].
  destruct (pairs_loop [] next) as [Hviews Hchildren]. simpl in Hviews.
  specialize (Hchildren (List.Forall_nil _)). rewrite List.Forall_forall in Hchildren.
  unfold childrenOf. rewrite !List.filter_app. split.
  - rewrite (filter_none _ (fold_left _ _ _)).
    + rewrite app_nil_r, filter_filter_andb. apply filter_ext. intros t.
      unfold isChildOf. destruct (Js.opt_is _ _); reflexivity.
    + intros t Ht. rewrite (Hchildren t Ht). reflexivity.
  - rewrite (filter_none _ (List.filter _ transactions)), filter_all.
    + exact Hviews.
    + exact Hchildren.
    + intros t Ht. apply filter_In in Ht. destruct Ht as [_ Ht].
      unfold isChildOf. apply negb_true_iff in Ht. exact Ht.
Qed.
End FundingFacts.

(** C5. Funding a transaction twice with the same sources leaves it with the
    same children, by category and amount and in the same order, as funding it
    once.  In the first funding model a run that is not refused leaves one
    debit for every source as the only children; in the second a run leaves a
    debit and a credit for every source as the only children and keeps every
    transaction that is not a child.  The target has an id and is not its own
    parent. *)
Theorem executeFunding_idempotent `{rt : Js.Runtime}
    (transactions : list Transaction.t) (categories : list Category.t)
    (fundingTx : Transaction.t) (fundingSources : list (string * Q)) (next next' : nat) :
  Transaction.id fundingTx <> "" ->
  isChildOf (Transaction.id fundingTx) fundingTx = false ->
  let id := Transaction.id fundingTx in
  (let first := Transactions.executeFunding transactions categories (Some fundingTx)
                  fundingSources next in
   let once := Transactions.fu_transactions first in
   let twice :=
     Transactions.fu_transactions
       (Transactions.executeFunding once categories (Some fundingTx) fundingSources next') in
   List.map allocationView (childrenOf id twice) = List.map allocationView (childrenOf id once)
   /\ (Transactions.fu_alert first = None ->
       List.map allocationView (childrenOf id once) = sourceDebits fundingSources))
  /\ (let once :=
        fst (TransactionsAccounts.executeFunding transactions categories (Some fundingTx)
               fundingSources next) in
      let twice :=
        fst (TransactionsAccounts.executeFunding once categories (Some fundingTx)
               fundingSources next') in
      List.map allocationView (childrenOf id twice)
      = List.map allocationView (childrenOf id once)
      /\ List.filter (fun t => negb (isChildOf id t)) twice
         = List.filter (fun t => negb (isChildOf id t)) transactions
      /\ (Js.truthy (Transaction.categoryId fundingTx) = true ->
          List.map allocationView (childrenOf id once)
          = debitCreditPairs fundingTx fundingSources)).
Proof.
  intros Hid Hself id. split.
  - intros first once twice. subst id.
    destruct (executeFunding_children categories fundingTx fundingSources Hid Hself
                transactions) as [Hsame|Hrun].
    + destruct (Hsame next) as [Honce Halert]. fold first in Honce, Halert. fold once in Honce.
      split; [|intros Hnone; contradiction].
      unfold twice. rewrite Honce. rewrite (proj1 (Hsame next')). reflexivity.
    + destruct (Hrun next) as [_ Honce]. fold first in Honce. fold once in Honce.
      split; [|intros _; exact Honce].
      destruct (executeFunding_children categories fundingTx fundingSources Hid Hself once)
        as [Hsame2|Hrun2].
      * unfold twice. rewrite (proj1 (Hsame2 next')). reflexivity.
      * unfold twice. rewrite (proj2 (Hrun2 next')). symmetry. exact Honce.
  - intros once twice. subst id.
    destruct (executeFunding_pairs categories fundingTx fundingSources transactions next)
      as [Hkeep1 Hnew1].
    destruct (executeFunding_pairs categories fundingTx fundingSources once next')
      as [Hkeep2 Hnew2].
    fold once in Hkeep1, Hnew1. fold twice in Hkeep2, Hnew2.
    split; [|split].
    + destruct (Js.truthy (Transaction.categoryId fundingTx)).
      * rewrite Hnew1, Hnew2. reflexivity.
      * rewrite Hnew2. reflexivity.
    + rewrite Hkeep2. exact Hkeep1.
    + intros Hcat. rewrite Hcat in Hnew1. exact Hnew1.
Qed.

Lemma executeFunding_idempotent_witness :
  Transaction.id Scenario.repair <> ""
  /\ isChildOf (Transaction.id Scenario.repair) Scenario.repair = false
  /\ (let once :=
        fst (TransactionsAccounts.executeFunding (rt := Scenario.runtime)
               Scenario.repairLedger Scenario.withOther (Some Scenario.repair)
               [ ("cat-a", 80) ] 0) in
      let twice :=
        fst (TransactionsAccounts.executeFunding (rt := Scenario.runtime) once
               Scenario.withOther (Some Scenario.repair) [ ("cat-a", 80) ] 2) in
      List.map allocationView (childrenOf "r1" twice)
      = List.map allocationView (childrenOf "r1" once)
      /\ List.filter (fun t => negb (isChildOf "r1" t)) twice
         = List.filter (fun t => negb (isChildOf "r1" t)) Scenario.repairLedger
      /\ (Js.truthy (Transaction.categoryId Scenario.repair) = true ->
          List.map allocationView (childrenOf "r1" once)
          = debitCreditPairs Scenario.repair [ ("cat-a", 80) ])).
Proof.
  assert (Transaction.id Scenario.repair <> "") as Hid by discriminate.
  assert (isChildOf (Transaction.id Scenario.repair) Scenario.repair = false) as Hself
    by reflexivity.
  split; [exact Hid|]. split; [exact Hself|].
  exact (proj2 (executeFunding_idempotent (rt := Scenario.runtime) Scenario.repairLedger
                  Scenario.withOther Scenario.repair [ ("cat-a", 80) ] 0 2 Hid Hself)).
Defined.

(** Funding the repair from Groceries, once and twice, in both models. *)
Example executeFunding_twice_first_model :
  let once :=
    Transactions.fu_transactions
      (Transactions.executeFunding (rt := Scenario.runtime) Scenario.repairLedger
         Scenario.withOther (Some Scenario.repair) [ ("cat-a", 80) ] 0) in
  let twice :=
    Transactions.fu_transactions
      (Transactions.executeFunding (rt := Scenario.runtime) once Scenario.withOther
         (Some Scenario.repair) [ ("cat-a", 80) ] 1) in
  List.map allocationView (childrenOf "r1" once) = [ (Some "cat-a", - 80) ]
  /\ List.map allocationView (childrenOf "r1" twice) = [ (Some "cat-a", - 80) ]
  /\ List.length twice = List.length once.
Proof. repeat split. Qed.

Example executeFunding_twice_second_model :
  let once :=
    fst (TransactionsAccounts.executeFunding (rt := Scenario.runtime) Scenario.repairLedger
           Scenario.withOther (Some Scenario.repair) [ ("cat-a", 80) ] 0) in
  let twice :=
    fst (TransactionsAccounts.executeFunding (rt := Scenario.runtime) once
           Scenario.withOther (Some Scenario.repair) [ ("cat-a", 80) ] 2) in
  List.map allocationView (childrenOf "r1" twice)
  = [ (Some "cat-a", - 80); (Some "cat-b", 80) ]
  /\ List.length twice = List.length once.
Proof. repeat split. Qed.

(** ** CSV import *)

Lemma isDigit_cases (c : ascii) :
  JsString.isDigit c = true ->
  In c [ "0"; "1"; "2"; "3"; "4"; "5"; "6"; "7"; "8"; "9" ]%char.
Proof.
  destruct c as [[] [] [] [] [] [] [] []]; vm_compute; intros H;
    try discriminate H; tauto.
Qed.

Lemma digit_not_dash (c : ascii) : JsString.isDigit c = true -> Ascii.eqb c "-" = false.
Proof.
  intros H. apply isDigit_cases in H. simpl in H.
  repeat (destruct H as [<-|H]; [reflexivity|]). destruct H.
Qed.



(** The two-digit rendering of a captured day or month. *)
Lemma twoDigits_zeroPad (digits : list ascii) :
  forallb JsString.isDigit digits = true ->
  (1 <= List.length digits <= 2)%nat ->
  DatePattern.twoDigits digits = zeroPad digits.
Proof.
  destruct digits as [|c1 [|c2 [|c3 l]]]; simpl; intros Hd Hlen; try lia.
  - rewrite andb_true_r in Hd. apply isDigit_cases in Hd. simpl in Hd.
    repeat (destruct Hd as [<-|Hd]; [reflexivity|]). destruct Hd.
  - rewrite andb_true_r in Hd. apply andb_true_iff in Hd. destruct Hd as [H1 H2].
    apply isDigit_cases in H1, H2. simpl in H1, H2.
    repeat (destruct H1 as [<-|H1];
            [repeat (destruct H2 as [<-|H2]; [reflexivity|]); destruct H2|]).
    destruct H1.
Qed.






(** The row of the specification's scenario. *)
Example importRow_coffee_shop :
  Transactions.importRow [] "2026-11-03" Scenario.singleAmount 1 Scenario.coffeeRow
  = Some (Transactions.mkRow "2024-04-03" "Coffee Shop" (9 # 2) EXPENSE None).
Proof. reflexivity. Qed.

Example executeImport_coffee_shop :
  List.map (fun t => (Transaction.date t, Transaction.description t, Transaction.amount t,
                      Transaction.type t))
    (Transactions.fu_transactions
       (Transactions.executeImport (rt := Scenario.runtime) [] "2026-11-03"
          Scenario.singleAmount [ [ "Date"; "Description"; "Amount" ]; Scenario.coffeeRow ]
          0))
  = [ ("2024-04-03", "Coffee Shop", 9 # 2, EXPENSE) ].
Proof. reflexivity. Qed.

(** * Further properties of the components *)

(** ** The order of date strings *)

Lemma string_ltb_leb_trans (a b c : string) :
  String.ltb a b = true -> String.leb b c = true -> String.leb a c = true.
Proof.
  unfold String.ltb, String.leb. intros Hab Hbc.
  destruct (String.compare a b) eqn:Eab; try discriminate.
  apply String_as_OT.cmp_lt in Eab.
  destruct (String.compare b c) eqn:Ebc; try discriminate.
  - apply String_as_OT.cmp_eq in Ebc. subst c.
    apply String_as_OT.cmp_lt in Eab. unfold String_as_OT.cmp in Eab. now rewrite Eab.
  - apply String_as_OT.cmp_lt in Ebc.
    pose proof (String_as_OT.lt_trans _ _ _ Eab Ebc) as Hac.
    apply String_as_OT.cmp_lt in Hac. unfold String_as_OT.cmp in Hac. now rewrite Hac.
Qed.

Lemma string_ltb_false_leb (a b : string) :
  String.ltb a b = false <-> String.leb b a = true.
Proof.
  pose proof (string_leb_false_ltb b a) as H.
  destruct (String.ltb a b), (String.leb b a); intuition congruence.
Qed.

(** ** Sums over a ledger split in two *)

Lemma sum_by_filter_split {A : Type} (f : A -> Q) (p q1 q2 : A -> bool) (l : list A) :
  (forall x, In x l -> p x = q1 x || q2 x) ->
  (forall x, In x l -> q1 x && q2 x = false) ->
  Js.sum_by f (List.filter p l)
  == Js.sum_by f (List.filter q1 l) + Js.sum_by f (List.filter q2 l).
Proof.
  induction l as [|a l IH]; intros Hp Hq; [reflexivity|].
  assert (Js.sum_by f (List.filter p l)
          == Js.sum_by f (List.filter q1 l) + Js.sum_by f (List.filter q2 l)) as IHl
    by (apply IH; intros x Hx; [apply Hp|apply Hq]; now right).
  pose proof (Hp a (or_introl eq_refl)) as Hpa.
  pose proof (Hq a (or_introl eq_refl)) as Hqa.
  simpl. rewrite Hpa.
  destruct (q1 a), (q2 a); simpl in *; try discriminate;
    rewrite ?sum_by_cons, IHl; ring.
Qed.

(** ** Envelope balances *)

Section BalanceFacts.
Context `{rt : Js.Runtime}.
Variable transactions : list Transaction.t.
Variable v : Dashboard.View.
Hypothesis month_ordered :
  String.leb (Dashboard.startOfMonthStr v) (Dashboard.endOfViewMonthStr v) = true.

Lemma categorySum_month (cat : Category.t) (type : TransactionType) :
  Dashboard.categorySum transactions cat type (Dashboard.beforeMonth v)
  + Dashboard.categorySum transactions cat type (Dashboard.inMonth v)
  == Dashboard.categorySum transactions cat type
       (fun d => String.leb d (Dashboard.endOfViewMonthStr v)).
Proof using month_ordered.
  unfold Dashboard.categorySum. symmetry. apply sum_by_filter_split.
  - intros t _. unfold Dashboard.beforeMonth, Dashboard.inMonth.
    destruct (Js.opt_is _ _ && TransactionType_eqb _ _); [|reflexivity]. simpl.
    destruct (String.ltb (Transaction.date t) (Dashboard.startOfMonthStr v)) eqn:Hlt.
    + rewrite (string_ltb_leb_trans _ _ _ Hlt month_ordered). reflexivity.
    + apply string_ltb_false_leb in Hlt. rewrite Hlt. reflexivity.
  - intros t _. unfold Dashboard.beforeMonth, Dashboard.inMonth.
    destruct (Js.opt_is _ _ && TransactionType_eqb _ _); [|reflexivity]. simpl.
    destruct (String.ltb (Transaction.date t) (Dashboard.startOfMonthStr v)) eqn:Hlt;
      [|reflexivity].
    assert (String.leb (Dashboard.startOfMonthStr v) (Transaction.date t) = false) as ->
      by (apply string_leb_false_ltb; exact Hlt).
    reflexivity.
Qed.

Lemma remaining_balanceAt (cat : Category.t) :
  Dashboard.carriedOver transactions v cat + Dashboard.thisMonthIncome transactions v cat
  - Dashboard.thisMonthSpent transactions v cat
  == balanceAt transactions (Dashboard.endOfViewMonthStr v) cat.
Proof using month_ordered.
  unfold Dashboard.carriedOver, Dashboard.thisMonthIncome, Dashboard.thisMonthSpent,
    balanceAt.
  pose proof (categorySum_month cat INCOME) as Hincome.
  pose proof (categorySum_month cat EXPENSE) as Hspent.
  unfold Dashboard.categorySum in *. lra.
Qed.
End BalanceFacts.

(** X1. What remains in an envelope in the viewed month is its rollover plus
    all the income put into it up to the last day of the month, minus all that
    was spent from it up to that day: where the month starts does not matter.
    The first day of the month is not after its last day. *)
Theorem getCategoryStats_remaining `{rt : Js.Runtime}
    (transactions : list Transaction.t) (v : Dashboard.View) (subset : list Category.t) :
  String.leb (Dashboard.startOfMonthStr v) (Dashboard.endOfViewMonthStr v) = true ->
  List.Forall2
    (fun stats cat =>
       Dashboard.st_category stats = cat
       /\ Dashboard.st_remaining stats
          == balanceAt transactions (Dashboard.endOfViewMonthStr v) cat
       /\ Dashboard.st_totalAvailableForMonth stats - Dashboard.st_thisMonthSpent stats
          == Dashboard.st_remaining stats)
    (Dashboard.getCategoryStats transactions v subset) subset.
Proof.
  intros Hmonth. unfold Dashboard.getCategoryStats.
  induction subset as [|cat l IH]; simpl; constructor; [|exact IH].
  split; [reflexivity|]. split; [|reflexivity]. cbn [Dashboard.st_remaining].
  apply remaining_balanceAt. exact Hmonth.
Qed.

Lemma getCategoryStats_remaining_witness :
  String.leb (Dashboard.startOfMonthStr Scenario.june)
             (Dashboard.endOfViewMonthStr Scenario.june) = true
  /\ List.Forall2
       (fun stats cat =>
          Dashboard.st_category stats = cat
          /\ Dashboard.st_remaining stats
             == balanceAt Scenario.paycheckLedger (Dashboard.endOfViewMonthStr Scenario.june)
                  cat
          /\ Dashboard.st_totalAvailableForMonth stats - Dashboard.st_thisMonthSpent stats
             == Dashboard.st_remaining stats)
       (Dashboard.getCategoryStats (rt := Scenario.runtime) Scenario.paycheckLedger
          Scenario.june Scenario.twoEnvelopes)
       Scenario.twoEnvelopes.
Proof.
  split; [reflexivity|].
  exact (getCategoryStats_remaining (rt := Scenario.runtime) Scenario.paycheckLedger
           Scenario.june Scenario.twoEnvelopes eq_refl).
Defined.

(** X2. What remains in an envelope at the end of a month (carried over plus
    the month's income minus the month's spending) is what the view of the
    next month carries over, when no transaction of the ledger is dated
    between the last day of the one and the first day of the other. *)
Theorem carriedOver_is_previous_remaining
    (transactions : list Transaction.t) (v next : Dashboard.View) (cat : Category.t) :
  String.leb (Dashboard.startOfMonthStr v) (Dashboard.endOfViewMonthStr v) = true ->
  (forall t, In t transactions ->
     String.ltb (Transaction.date t) (Dashboard.startOfMonthStr next)
     = String.leb (Transaction.date t) (Dashboard.endOfViewMonthStr v)) ->
  Dashboard.carriedOver transactions next cat
  == Dashboard.carriedOver transactions v cat + Dashboard.thisMonthIncome transactions v cat
     - Dashboard.thisMonthSpent transactions v cat.
Proof.
  intros Hmonth Hdates.
  rewrite (remaining_balanceAt transactions v Hmonth cat).
  unfold Dashboard.carriedOver, Dashboard.categorySum, balanceAt, Dashboard.beforeMonth.
  rewrite (filter_ext_in
             (fun t => Js.opt_is (Transaction.categoryId t) (Category.id cat)
                       && TransactionType_eqb (Transaction.type t) INCOME
                       && String.ltb (Transaction.date t) (Dashboard.startOfMonthStr next))
             (fun t => Js.opt_is (Transaction.categoryId t) (Category.id cat)
                       && TransactionType_eqb (Transaction.type t) INCOME
                       && String.leb (Transaction.date t) (Dashboard.endOfViewMonthStr v)))
    by (intros t Ht; now rewrite (Hdates t Ht)).
  rewrite (filter_ext_in
             (fun t => Js.opt_is (Transaction.categoryId t) (Category.id cat)
                       && TransactionType_eqb (Transaction.type t) EXPENSE
                       && String.ltb (Transaction.date t) (Dashboard.startOfMonthStr next))
             (fun t => Js.opt_is (Transaction.categoryId t) (Category.id cat)
                       && TransactionType_eqb (Transaction.type t) EXPENSE
                       && String.leb (Transaction.date t) (Dashboard.endOfViewMonthStr v)))
    by (intros t Ht; now rewrite (Hdates t Ht)).
  reflexivity.
Qed.

Lemma carriedOver_is_previous_remaining_witness :
  String.leb (Dashboard.startOfMonthStr Scenario.june)
             (Dashboard.endOfViewMonthStr Scenario.june) = true
  /\ (forall t, In t Scenario.paycheckLedger ->
        String.ltb (Transaction.date t) (Dashboard.startOfMonthStr Scenario.july)
        = String.leb (Transaction.date t) (Dashboard.endOfViewMonthStr Scenario.june))
  /\ Dashboard.carriedOver Scenario.paycheckLedger Scenario.july
       (Scenario.expenseCategory "cat-a" "Groceries" 300 [] None)
     == Dashboard.carriedOver Scenario.paycheckLedger Scenario.june
          (Scenario.expenseCategory "cat-a" "Groceries" 300 [] None)
        + Dashboard.thisMonthIncome Scenario.paycheckLedger Scenario.june
            (Scenario.expenseCategory "cat-a" "Groceries" 300 [] None)
        - Dashboard.thisMonthSpent Scenario.paycheckLedger Scenario.june
            (Scenario.expenseCategory "cat-a" "Groceries" 300 [] None).
Proof.
  assert (forall t, In t Scenario.paycheckLedger ->
            String.ltb (Transaction.date t) (Dashboard.startOfMonthStr Scenario.july)
            = String.leb (Transaction.date t) (Dashboard.endOfViewMonthStr Scenario.june))
    as Hdates.
  { intros t Ht. simpl in Ht. repeat (destruct Ht as [<-|Ht]; [reflexivity|]). destruct Ht. }
  split; [reflexivity|]. split; [exact Hdates|].
  exact (carriedOver_is_previous_remaining Scenario.paycheckLedger Scenario.june
           Scenario.july (Scenario.expenseCategory "cat-a" "Groceries" 300 [] None)
           eq_refl Hdates).
Defined.

(** ** How new transactions change the pool *)

Lemma findCategory_unique (categories : list Category.t) (c : Category.t) :
  List.NoDup (List.map Category.id categories) -> In c categories ->
  findCategory categories (Some (Category.id c)) = Some c.
Proof.
  unfold findCategory. induction categories as [|a l IH]; simpl; [tauto|].
  intros Hnd Hin. inversion Hnd as [|? ? Hnotin Hnd']; subst.
  destruct Hin as [->|Hin]; [now rewrite String.eqb_refl|].
  destruct (String.eqb_spec (Category.id c) (Category.id a)) as [Heq|_]; [|auto].
  exfalso. apply Hnotin. rewrite <- Heq. apply in_map, Hin.
Qed.

Section PoolChange.
Variable categories : list Category.t.
Variable incomeSources : list IncomeSource.t.
Variable v : Dashboard.View.

(** The part a transaction has in the pool of the viewed month. *)
Lemma pool_app (l1 l2 : list Transaction.t) :
  Dashboard.totalUnallocatedAvailable categories (l1 ++ l2) incomeSources v
  == Dashboard.totalUnallocatedAvailable categories l1 incomeSources v
     + Dashboard.totalUnallocatedAvailable categories l2 incomeSources v
     - Dashboard.openingBalance incomeSources.
Proof using Type.
  unfold Dashboard.totalUnallocatedAvailable, Dashboard.totalGrossIncome,
    Dashboard.totalAllocated, Dashboard.uncategorizedExpenses,
    Dashboard.grossIncomeTransactions, Dashboard.allocatedTransactions.
  rewrite !List.filter_app, !sum_by_app. ring.
Qed.

(** Income tagged to an expense or investment category and dated in the
    view leaves the pool. *)
Lemma pool_of_allocations (new : list Transaction.t) :
  (forall t, In t new ->
     isAllocatedOut categories t = true
     /\ String.leb (Transaction.date t) (Dashboard.endOfViewMonthStr v) = true) ->
  Dashboard.totalUnallocatedAvailable categories new incomeSources v
  == Dashboard.openingBalance incomeSources - Js.sum_by Transaction.amount new.
Proof using Type.
  intros Hnew. unfold Dashboard.totalUnallocatedAvailable, Dashboard.totalGrossIncome,
    Dashboard.totalAllocated, Dashboard.uncategorizedExpenses.
  rewrite grossIncomeTransactions_spec, allocatedTransactions_spec.
  rewrite (filter_all (fun t => String.leb _ _) new) by (intros t Ht; apply Hnew, Ht).
  rewrite (filter_all (isAllocatedOut categories) new) by (intros t Ht; apply Hnew, Ht).
  rewrite (filter_none (isPoolIncome categories) new), (filter_none _ new).
  - unfold Js.sum_by at 1 3. simpl. ring.
  - intros t Ht. destruct (Hnew t Ht) as [Hout _].
    unfold isAllocatedOut in Hout. apply andb_true_iff in Hout. destruct Hout as [Hty _].
    destruct (Transaction.type t); try discriminate. reflexivity.
  - intros t Ht. destruct (Hnew t Ht) as [Hout _].
    unfold isAllocatedOut, taggedTo in Hout. unfold isPoolIncome, uncategorized, taggedTo.
    destruct (TransactionType_eqb (Transaction.type t) INCOME); [|reflexivity].
    destruct (Js.truthy (Transaction.categoryId t)); [|discriminate].
    destruct (findCategory categories (Transaction.categoryId t)) as [c|]; [|discriminate].
    destruct (Category.type c); simpl in *; try discriminate; reflexivity.
Qed.

Lemma pool_after_allocations (transactions new : list Transaction.t) :
  (forall t, In t new ->
     isAllocatedOut categories t = true
     /\ String.leb (Transaction.date t) (Dashboard.endOfViewMonthStr v) = true) ->
  Dashboard.totalUnallocatedAvailable categories (transactions ++ new) incomeSources v
  == Dashboard.totalUnallocatedAvailable categories transactions incomeSources v
     - Js.sum_by Transaction.amount new.
Proof using Type.
  intros Hnew. rewrite pool_app, (pool_of_allocations new Hnew). ring.
Qed.
End PoolChange.

(** ** The balance of an envelope after new transactions *)

Lemma balanceAt_app (l1 l2 : list Transaction.t) (date : string) (cat : Category.t) :
  balanceAt (l1 ++ l2) date cat
  == balanceAt l1 date cat + balanceAt l2 date cat - Category.rollover cat.
Proof.
  unfold balanceAt. rewrite !List.filter_app, !sum_by_app. ring.
Qed.

(** Of a list of categories with distinct ids, at most one has a given id:
    what is summed once for every category with that id is summed once, or
    not at all. *)
Lemma sum_by_one_category (categories : list Category.t) (c : Category.t) (x : Q) :
  List.NoDup (List.map Category.id categories) -> In c categories ->
  Js.sum_by (fun c' => if String.eqb (Category.id c) (Category.id c') then x else 0)
    categories == x.
Proof.
  induction categories as [|a l IH]; simpl; [tauto|].
  intros Hnd Hin. inversion Hnd as [|? ? Hnotin Hnd']; subst.
  rewrite sum_by_cons. destruct Hin as [->|Hin].
  - rewrite String.eqb_refl.
    assert (Js.sum_by (fun c' => if String.eqb (Category.id c) (Category.id c') then x else 0)
              l == 0) as ->; [|ring].
    clear IH Hnd Hnd'. induction l as [|b l IHl]; [reflexivity|].
    rewrite sum_by_cons.
    destruct (String.eqb_spec (Category.id c) (Category.id b)) as [Heq|_].
    + exfalso. apply Hnotin. left. symmetry. exact Heq.
    + rewrite IHl; [ring|]. intros H. apply Hnotin. now right.
  - destruct (String.eqb_spec (Category.id c) (Category.id a)) as [Heq|_].
    + exfalso. apply Hnotin. rewrite <- Heq. apply in_map, Hin.
    + rewrite (IH Hnd' Hin). ring.
Qed.

(** The income that new transactions put into a list of envelopes with
    distinct ids is the total of the new transactions, when each of them is an
    income dated in the view and tagged to one of the envelopes. *)
Lemma balances_after_allocations (envelopes : list Category.t) (new : list Transaction.t)
    (date : string) :
  List.NoDup (List.map Category.id envelopes) ->
  (forall t, In t new ->
     Transaction.type t = INCOME
     /\ String.leb (Transaction.date t) date = true
     /\ exists c, In c envelopes /\ Transaction.categoryId t = Some (Category.id c)) ->
  Js.sum_by (fun c => balanceAt new date c - Category.rollover c) envelopes
  == Js.sum_by Transaction.amount new.
Proof.
  intros Hnd. induction new as [|t l IH]; intros Hnew.
  - clear. induction envelopes as [|a e IHe]; [reflexivity|].
    rewrite sum_by_cons, IHe. unfold balanceAt, Js.sum_by. simpl. ring.
  - rewrite sum_by_cons, <- IH by (intros t' Ht'; apply Hnew; now right).
    destruct (Hnew t (or_introl eq_refl)) as (Hty & Hdate & c & Hc & Hcat).
    rewrite <- (sum_by_one_category envelopes c (Transaction.amount t) Hnd Hc) at 1.
    rewrite <- sum_by_add. apply sum_by_Qeq. intros c' _. unfold balanceAt. simpl.
    rewrite Hcat, Hty, Hdate. simpl.
    destruct (String.eqb (Category.id c) (Category.id c')); simpl;
      rewrite ?sum_by_cons; ring.
Qed.

(** ** What a distribution adds to the ledger *)

Section DistributionShape.
Context `{rt : Js.Runtime}.
Variable categories : list Category.t.
Variable transactions : list Transaction.t.
Variable incomeSources : list IncomeSource.t.
Variable v : Dashboard.View.

(** In both modes a run appends to the ledger, and what it appends are
    incomes of a cent at least, dated by the mode and tagged to expense
    categories; a run that reports something appends nothing. *)
Lemma handleDistributeIncome_appends today mode idx confirmDuplicate confirmProportional
    next :
  let out := Dashboard.handleDistributeIncome categories transactions incomeSources v
               today mode idx confirmDuplicate confirmProportional next in
  exists newTransactions,
    Dashboard.di_transactions out = (transactions ++ newTransactions)%list
    /\ Dashboard.di_next out = (next + List.length newTransactions)%nat
    /\ (Dashboard.di_alert out <> None -> newTransactions = [])
    /\ List.Forall
         (fun t =>
            Transaction.type t = INCOME
            /\ Transaction.date t = Dashboard.distributionDate v today mode
            /\ 1 # 100 <= Transaction.amount t
            /\ exists c, In c (Dashboard.expenseCategories categories)
                         /\ Transaction.categoryId t = Some (Category.id c))
         newTransactions.
Proof using Type.
  intros out.
  assert (forall alert m n,
            exists newTransactions,
              Dashboard.di_transactions (Dashboard.mkDistribute transactions m alert n)
              = (transactions ++ newTransactions)%list
              /\ n = (n + List.length newTransactions)%nat
              /\ (alert <> None -> newTransactions = [])
              /\ List.Forall
                   (fun t =>
                      Transaction.type t = INCOME
                      /\ Transaction.date t = Dashboard.distributionDate v today mode
                      /\ 1 # 100 <= Transaction.amount t
                      /\ exists c, In c (Dashboard.expenseCategories categories)
                                   /\ Transaction.categoryId t = Some (Category.id c))
                   newTransactions) as Hsame.
  { intros alert m n. exists []. simpl. rewrite app_nil_r, Nat.add_0_r.
    repeat split; constructor. }
  assert (forall newTransactions,
            List.Forall
              (fun t =>
                 Transaction.type t = INCOME
                 /\ Transaction.date t = Dashboard.distributionDate v today mode
                 /\ 1 # 100 <= Transaction.amount t
                 /\ exists c, In c (Dashboard.expenseCategories categories)
                              /\ Transaction.categoryId t = Some (Category.id c))
              newTransactions ->
            let out' :=
              match newTransactions with
              | [] => Dashboard.mkDistribute transactions mode (Some AlertNoAllocations) next
              | _ => Dashboard.mkDistribute (transactions ++ newTransactions)%list mode None
                       (next + List.length newTransactions)%nat
              end in
            exists new,
              Dashboard.di_transactions out' = (transactions ++ new)%list
              /\ Dashboard.di_next out' = (next + List.length new)%nat
              /\ (Dashboard.di_alert out' <> None -> new = [])
              /\ List.Forall
                   (fun t =>
                      Transaction.type t = INCOME
                      /\ Transaction.date t = Dashboard.distributionDate v today mode
                      /\ 1 # 100 <= Transaction.amount t
                      /\ exists c, In c (Dashboard.expenseCategories categories)
                                   /\ Transaction.categoryId t = Some (Category.id c))
                   new) as Hfinish.
  { intros new Hnew out'. exists new. subst out'. destruct new as [|t l].
    - simpl. rewrite app_nil_r, Nat.add_0_r. repeat split; constructor.
    - simpl. repeat split; [congruence|exact Hnew]. }
  unfold out, Dashboard.handleDistributeIncome.
  destruct (Qle_bool _ 0); [apply Hsame|].
  destruct mode.
  - destruct (Dashboard.selectedRule incomeSources idx) as [rule|]; [|apply Hsame].
    destruct (_ && negb confirmDuplicate); [apply Hsame|].
    destruct (_ && negb confirmProportional); [apply Hsame|].
    apply Hfinish. unfold forEachPush. apply pushFrom_Forall_kept; [|constructor].
    intros id [[c s] m] Hin Hkeep. simpl.
    repeat split; [apply toFixed2_cent, Hkeep|].
    exists c. split; [|reflexivity].
    unfold Dashboard.targets in Hin. apply in_map_iff in Hin.
    destruct Hin as (c' & [= -> _ _] & Hc'). exact Hc'.
  - destruct (Qeq_bool _ 0); [apply Hsame|].
    apply Hfinish. unfold forEachPush. apply pushFrom_Forall_kept; [|constructor].
    intros id [c d] Hin Hkeep. simpl.
    repeat split; [apply toFixed2_cent, Hkeep|].
    exists c. split; [|reflexivity].
    unfold Dashboard.deficits in Hin. apply filter_In in Hin. destruct Hin as [Hin _].
    apply in_map_iff in Hin. destruct Hin as (c' & [= -> _] & Hc'). exact Hc'.
Qed.
End DistributionShape.

(** X3. A distribution, in either mode, moves money from the pool to the
    expense envelopes and neither creates nor loses any: the pool of the
    viewed month plus what remains in all the expense envelopes is the same
    before and after, and the pool does not grow.  The category ids are
    distinct, those of the expense categories are not empty, and the date
    given to the new transactions is not after the last day of the viewed
    month. *)
Theorem handleDistributeIncome_conserves `{rt : Js.Runtime}
    (categories : list Category.t) (transactions : list Transaction.t)
    (incomeSources : list IncomeSource.t) (v : Dashboard.View) (today : string)
    (allocationDateMode : AllocationDateMode) (selectedAllocationIndex : nat)
    (confirmDuplicate confirmProportional : bool) (next : nat) :
  let out := Dashboard.handleDistributeIncome categories transactions incomeSources v
               today allocationDateMode selectedAllocationIndex confirmDuplicate
               confirmProportional next in
  let pool ledger := Dashboard.totalUnallocatedAvailable categories ledger incomeSources v in
  let remaining ledger :=
    Js.sum_by Dashboard.st_remaining
      (Dashboard.getCategoryStats ledger v (Dashboard.expenseCategories categories)) in
  List.NoDup (List.map Category.id categories) ->
  (forall c, In c (Dashboard.expenseCategories categories) -> Category.id c <> "") ->
  String.leb (Dashboard.startOfMonthStr v) (Dashboard.endOfViewMonthStr v) = true ->
  String.leb (Dashboard.distributionDate v today allocationDateMode)
    (Dashboard.endOfViewMonthStr v) = true ->
  pool (Dashboard.di_transactions out) + remaining (Dashboard.di_transactions out)
  == pool transactions + remaining transactions
  /\ pool (Dashboard.di_transactions out) <= pool transactions.
Proof.
  intros out pool remaining Hnd Hids Hmonth Hdate.
  destruct (handleDistributeIncome_appends categories transactions incomeSources v today
              allocationDateMode selectedAllocationIndex confirmDuplicate
              confirmProportional next) as (new & Hout & _ & _ & Hnew).
  fold out in Hout. rewrite Hout. rewrite List.Forall_forall in Hnew.
  assert (pool (transactions ++ new)%list
          == pool transactions - Js.sum_by Transaction.amount new) as Hpool.
  { apply pool_after_allocations. intros t Ht.
    destruct (Hnew t Ht) as (Hty & Hd & _ & c & Hc & Hcat).
    split; [|now rewrite Hd].
    unfold isAllocatedOut, taggedTo. rewrite Hty, Hcat. simpl.
    pose proof (Hids c Hc) as Hne. apply String.eqb_neq in Hne. rewrite Hne. simpl.
    pose proof Hc as Hc'. unfold Dashboard.expenseCategories in Hc'.
    apply filter_In in Hc'. destruct Hc' as [Hin Hexp].
    rewrite (findCategory_unique categories c Hnd Hin), Hexp. reflexivity. }
  assert (forall ledger,
            remaining ledger
            == Js.sum_by (fun c => balanceAt ledger (Dashboard.endOfViewMonthStr v) c)
                 (Dashboard.expenseCategories categories)) as Hrem.
  { intros ledger. unfold remaining, Dashboard.getCategoryStats.
    rewrite sum_by_map. apply sum_by_Qeq. intros c _. cbn [Dashboard.st_remaining].
    apply remaining_balanceAt. exact Hmonth. }
  assert (remaining (transactions ++ new)%list
          == remaining transactions + Js.sum_by Transaction.amount new) as Hremaining.
  { rewrite !Hrem.
    rewrite <- (balances_after_allocations (Dashboard.expenseCategories categories) new
                  (Dashboard.endOfViewMonthStr v)).
    - rewrite <- sum_by_add. apply sum_by_Qeq. intros c _. rewrite balanceAt_app. ring.
    - unfold Dashboard.expenseCategories. clear -Hnd.
      induction categories as [|a l IH]; simpl; [constructor|].
      inversion Hnd as [|? ? Hnotin Hnd']; subst.
      destruct (CategoryType_eqb (Category.type a) expense); [|apply IH, Hnd'].
      simpl. constructor; [|apply IH, Hnd'].
      intros Hin. apply Hnotin. apply in_map_iff in Hin. destruct Hin as (c & Hc & Hin).
      apply filter_In in Hin. apply in_map_iff. exists c. tauto.
    - intros t Ht. destruct (Hnew t Ht) as (Hty & Hd & _ & Hc).
      split; [exact Hty|]. split; [now rewrite Hd|exact Hc]. }
  split; [rewrite Hpool, Hremaining; ring|].
  rewrite Hpool.
  assert (0 <= Js.sum_by Transaction.amount new); [|lra].
  apply sum_by_nonneg. intros t Ht. destruct (Hnew t Ht) as (_ & _ & Hamount & _). lra.
Qed.

Lemma handleDistributeIncome_conserves_witness :
  let out :=
    Dashboard.handleDistributeIncome (rt := Scenario.runtime) Scenario.twoEnvelopes
      Scenario.pool300 Scenario.oneSource Scenario.june "2024-06-10" current 0 true true 0 in
  let pool ledger :=
    Dashboard.totalUnallocatedAvailable Scenario.twoEnvelopes ledger Scenario.oneSource
      Scenario.june in
  let remaining ledger :=
    Js.sum_by Dashboard.st_remaining
      (Dashboard.getCategoryStats (rt := Scenario.runtime) ledger Scenario.june
         (Dashboard.expenseCategories Scenario.twoEnvelopes)) in
  List.length (Dashboard.di_transactions out) = 3%nat
  /\ pool (Dashboard.di_transactions out) + remaining (Dashboard.di_transactions out)
     == pool Scenario.pool300 + remaining Scenario.pool300
  /\ pool (Dashboard.di_transactions out) <= pool Scenario.pool300.
Proof.
  intros out pool remaining. split; [reflexivity|].
  apply (handleDistributeIncome_conserves (rt := Scenario.runtime) Scenario.twoEnvelopes
           Scenario.pool300 Scenario.oneSource Scenario.june "2024-06-10" current 0 true true
           0).
  - repeat constructor; simpl; intuition discriminate.
  - intros c [<-|[<-|[]]]; discriminate.
  - reflexivity.
  - reflexivity.
Defined.

(** X4. A distribution, in either mode, only appends to the ledger: what was
    there stays as it was, in its place; every transaction after it is an
    income of one cent at least, tagged to an expense category and dated by
    the mode; as many ids are drawn as transactions are appended; and a run
    that reports anything leaves the ledger and the ids as they were. *)
Theorem handleDistributeIncome_append_only `{rt : Js.Runtime}
    (categories : list Category.t) (transactions : list Transaction.t)
    (incomeSources : list IncomeSource.t) (v : Dashboard.View) (today : string)
    (allocationDateMode : AllocationDateMode) (selectedAllocationIndex : nat)
    (confirmDuplicate confirmProportional : bool) (next : nat) :
  let out := Dashboard.handleDistributeIncome categories transactions incomeSources v
               today allocationDateMode selectedAllocationIndex confirmDuplicate
               confirmProportional next in
  let ledger := Dashboard.di_transactions out in
  firstn (List.length transactions) ledger = transactions
  /\ (List.length ledger + next = List.length transactions + Dashboard.di_next out)%nat
  /\ (Dashboard.di_alert out <> None -> ledger = transactions /\ Dashboard.di_next out = next)
  /\ List.Forall
       (fun t =>
          Transaction.type t = INCOME
          /\ Transaction.date t = Dashboard.distributionDate v today allocationDateMode
          /\ 1 # 100 <= Transaction.amount t
          /\ exists c, In c (Dashboard.expenseCategories categories)
                       /\ Transaction.categoryId t = Some (Category.id c))
       (skipn (List.length transactions) ledger).
Proof.
  intros out ledger.
  destruct (handleDistributeIncome_appends categories transactions incomeSources v today
              allocationDateMode selectedAllocationIndex confirmDuplicate
              confirmProportional next) as (new & Hout & Hnext & Halert & Hnew).
  fold out in Hout, Hnext, Halert. unfold ledger. rewrite Hout, Hnext.
  split; [|split; [|split]].
  - rewrite List.firstn_app, Nat.sub_diag, List.firstn_all. simpl. apply app_nil_r.
  - rewrite List.length_app. lia.
  - intros Hreported. rewrite (Halert Hreported). simpl.
    rewrite app_nil_r, Nat.add_0_r. split; reflexivity.
  - rewrite List.skipn_app, Nat.sub_diag, List.skipn_all. simpl. exact Hnew.
Qed.

(** ** Top-ups *)

Section TopUpFacts.
Variable categories : list Category.t.
Variable incomeSources : list IncomeSource.t.
Variable v : Dashboard.View.

(** One income tagged to an expense or investment category and dated in the
    view, put in front of the ledger. *)
Lemma pool_cons_allocation (t : Transaction.t) (transactions : list Transaction.t) :
  isAllocatedOut categories t = true ->
  String.leb (Transaction.date t) (Dashboard.endOfViewMonthStr v) = true ->
  Dashboard.totalUnallocatedAvailable categories (t :: transactions) incomeSources v
  == Dashboard.totalUnallocatedAvailable categories transactions incomeSources v
     - Transaction.amount t.
Proof using Type.
  intros Hout Hdate. change (t :: transactions) with ([t] ++ transactions)%list.
  rewrite pool_app, (pool_of_allocations categories incomeSources v [t]).
  - rewrite sum_by_cons. unfold Js.sum_by at 1. simpl. ring.
  - intros t' [<-|[]]. split; assumption.
Qed.

Lemma balanceAt_cons_income (t : Transaction.t) (transactions : list Transaction.t)
    (cat : Category.t) :
  Transaction.type t = INCOME ->
  Transaction.categoryId t = Some (Category.id cat) ->
  String.leb (Transaction.date t) (Dashboard.endOfViewMonthStr v) = true ->
  balanceAt (t :: transactions) (Dashboard.endOfViewMonthStr v) cat
  == balanceAt transactions (Dashboard.endOfViewMonthStr v) cat + Transaction.amount t.
Proof using Type.
  intros Hty Hcat Hdate. unfold balanceAt. simpl.
  rewrite Hty, Hcat, Hdate. simpl. rewrite String.eqb_refl. simpl.
  rewrite sum_by_cons. ring.
Qed.
End TopUpFacts.

(** X5. A top-up of an expense or investment category either changes nothing
    (no amount, an amount that is not a positive number, or a deficit the user
    does not confirm) or moves the amount typed from the pool to the category:
    the pool of the viewed month falls by it and what remains in the category
    rises by it; without the user's confirmation the pool is not taken below
    zero.  The category is one of the categories, whose ids are distinct, its id
    is not empty, and today is not after the last day of the viewed month. *)
Theorem handleTopUp_moves_from_pool `{rt : Js.Runtime}
    (categories : list Category.t) (transactions : list Transaction.t)
    (incomeSources : list IncomeSource.t) (v : Dashboard.View)
    (topUpCategory : Category.t) (topUpAmount today : string) (confirmDeficit : bool)
    (next : nat) :
  let pool ledger := Dashboard.totalUnallocatedAvailable categories ledger incomeSources v in
  let remaining ledger :=
    Dashboard.carriedOver ledger v topUpCategory
    + Dashboard.thisMonthIncome ledger v topUpCategory
    - Dashboard.thisMonthSpent ledger v topUpCategory in
  let ledger :=
    fst (Dashboard.handleTopUp categories transactions incomeSources v (Some topUpCategory)
           topUpAmount today confirmDeficit next) in
  List.NoDup (List.map Category.id categories) ->
  In topUpCategory categories ->
  Category.id topUpCategory <> "" ->
  Category.type topUpCategory = expense \/ Category.type topUpCategory = investment ->
  String.leb (Dashboard.startOfMonthStr v) (Dashboard.endOfViewMonthStr v) = true ->
  String.leb today (Dashboard.endOfViewMonthStr v) = true ->
  ledger = transactions
  \/ exists amountVal,
       JsString.parseFloat topUpAmount = Some amountVal
       /\ 0 < amountVal
       /\ List.length ledger = S (List.length transactions)
       /\ pool ledger == pool transactions - amountVal
       /\ remaining ledger == remaining transactions + amountVal
       /\ (confirmDeficit = false -> 0 <= pool ledger).
Proof.
  intros pool remaining ledger Hnd Hin Hid Hkind Hmonth Htoday.
  unfold ledger, Dashboard.handleTopUp.
  destruct (String.eqb topUpAmount ""); [now left|].
  destruct (JsString.parseFloat topUpAmount) as [amountVal|]; [|now left].
  destruct (Qle_bool amountVal 0) eqn:Hpos; [now left|].
  destruct (Js.Qgt_bool amountVal _ && negb confirmDeficit) eqn:Hdeficit; [now left|].
  right. exists amountVal. cbn [fst].
  set (newTx := Transaction.mk _ _ _ _ _ _ _ _ _ _).
  assert (0 < amountVal) as Hgt.
  { apply not_true_iff_false in Hpos. rewrite Qle_bool_iff in Hpos. lra. }
  assert (pool (newTx :: transactions) == pool transactions - amountVal) as Hpool.
  { apply (pool_cons_allocation categories incomeSources v newTx); [|exact Htoday].
    unfold isAllocatedOut, taggedTo, newTx. simpl.
    apply String.eqb_neq in Hid. rewrite Hid. simpl.
    rewrite (findCategory_unique categories topUpCategory Hnd Hin).
    destruct Hkind as [-> | ->]; reflexivity. }
  split; [reflexivity|]. split; [exact Hgt|]. split; [reflexivity|].
  split; [exact Hpool|]. split.
  - unfold remaining. rewrite !(remaining_balanceAt _ v Hmonth).
    apply (balanceAt_cons_income v newTx); [reflexivity|reflexivity|exact Htoday].
  - intros ->. rewrite Hpool. rewrite andb_true_r in Hdeficit.
    apply Qgt_bool_false_iff in Hdeficit. fold (pool transactions) in Hdeficit. lra.
Qed.

Lemma handleTopUp_moves_from_pool_witness :
  let cat := Scenario.expenseCategory "cat-a" "Groceries" 300 [] None in
  let pool ledger :=
    Dashboard.totalUnallocatedAvailable Scenario.twoEnvelopes ledger Scenario.oneSource
      Scenario.june in
  let remaining ledger :=
    Dashboard.carriedOver ledger Scenario.june cat
    + Dashboard.thisMonthIncome ledger Scenario.june cat
    - Dashboard.thisMonthSpent ledger Scenario.june cat in
  let ledger :=
    fst (Dashboard.handleTopUp (rt := Scenario.runtime) Scenario.twoEnvelopes
           Scenario.pool300 Scenario.oneSource Scenario.june (Some cat) "120.50"
           "2024-06-10" false 0) in
  ledger <> Scenario.pool300
  /\ (ledger = Scenario.pool300
      \/ exists amountVal,
           JsString.parseFloat "120.50" = Some amountVal
           /\ 0 < amountVal
           /\ List.length ledger = S (List.length Scenario.pool300)
           /\ pool ledger == pool Scenario.pool300 - amountVal
           /\ remaining ledger == remaining Scenario.pool300 + amountVal
           /\ (false = false -> 0 <= pool ledger)).
Proof.
  intros cat pool remaining ledger. split; [vm_compute; discriminate|].
  apply (handleTopUp_moves_from_pool (rt := Scenario.runtime) Scenario.twoEnvelopes
           Scenario.pool300 Scenario.oneSource Scenario.june cat "120.50" "2024-06-10"
           false 0).
  - repeat constructor; simpl; intuition discriminate.
  - left; reflexivity.
  - discriminate.
  - left; reflexivity.
  - reflexivity.
  - reflexivity.
Defined.

(** ** One-time expenses *)

Lemma findCategory_snoc (categories : list Category.t) (c : Category.t) (id : option string) :
  findCategory (categories ++ [c]) id
  = match findCategory categories id with
    | Some x => Some x
    | None => if Js.opt_is id (Category.id c) then Some c else None
    end.
Proof.
  unfold findCategory. induction categories as [|a l IH]; simpl; [reflexivity|].
  destruct (Js.opt_is id (Category.id a)); [reflexivity|exact IH].
Qed.

Lemma find_snoc_none {A : Type} (p : A -> bool) (l : list A) (x : A) :
  find p l = None -> p x = true -> find p (l ++ [x]) = Some x.
Proof.
  induction l as [|a l IH]; simpl; intros Hl Hx; [now rewrite Hx|].
  destruct (p a); [discriminate|auto].
Qed.

Lemma find_app_some {A : Type} (p : A -> bool) (l l' : list A) (x : A) :
  find p l = Some x -> find p (l ++ l') = Some x.
Proof.
  induction l as [|a l IH]; simpl; intros Hl; [discriminate|].
  destruct (p a); [exact Hl|auto].
Qed.

(** The pool reads the categories only to find the kind of the category a
    transaction is tagged to. *)
Lemma pool_same_kinds (categories categories' : list Category.t)
    (transactions : list Transaction.t) (incomeSources : list IncomeSource.t)
    (v : Dashboard.View) :
  (forall t, In t transactions ->
     findCategory categories' (Transaction.categoryId t)
     = findCategory categories (Transaction.categoryId t)) ->
  Dashboard.totalUnallocatedAvailable categories' transactions incomeSources v
  = Dashboard.totalUnallocatedAvailable categories transactions incomeSources v.
Proof.
  intros Hsame.
  unfold Dashboard.totalUnallocatedAvailable, Dashboard.totalGrossIncome,
    Dashboard.totalAllocated, Dashboard.grossIncomeTransactions,
    Dashboard.allocatedTransactions.
  f_equal. f_equal; [f_equal|]; f_equal; apply filter_ext_in; intros t Ht;
    rewrite (Hsame t Ht); reflexivity.
Qed.

Section OneTimeFacts.
Context `{rt : Js.Runtime}.
Variable categories : list Category.t.
Variable transactions : list Transaction.t.
Variable incomeSources : list IncomeSource.t.
Variable v : Dashboard.View.
Variables oneTimeDesc oneTimeAmount oneTimeDate : string.
Variable fundingSources : list (string * Q).
Variable next : nat.
Variable expenseAmount : Q.
Hypothesis amount_parsed : JsString.parseFloat oneTimeAmount = Some expenseAmount.
Hypothesis amount_positive : 0 < expenseAmount.
Hypothesis no_alert :
  Dashboard.ot_alert
    (Dashboard.handleCreateOneTimeExpense categories transactions incomeSources v
       oneTimeDesc oneTimeAmount oneTimeDate fundingSources next) = None.

(** The outcome of a run past the checks. *)
Lemma handleCreateOneTimeExpense_accepted :
  Dashboard.handleCreateOneTimeExpense categories transactions incomeSources v
    oneTimeDesc oneTimeAmount oneTimeDate fundingSources next
  = let '(otherCategory, categories', next1) :=
      match find (fun c => String.eqb (JsString.toLowerCase (Category.name c))
                                      "other expenses") categories with
      | Some c => (c, categories, next)
      | None =>
          let newOtherCat :=
            Category.mk (Js.uuid next) "Other Expenses" expense 0 0 0 "#64748b"
                        (Some oneTimeDate) (Some []) None in
          (newOtherCat, (categories ++ [newOtherCat])%list, S next)
      end in
    let txs :=
      forEachPush fundingSources (fun '(_, val) => negb (Qle_bool val 0))
        (fun id '(catId, val) =>
           Transaction.mk id oneTimeDate (- val)
             ("Moved for One-Time: " ++ oneTimeDesc) (Some catId) None INCOME
             None None None) next1 in
    let names := Dashboard.sourceNames categories fundingSources in
    let finalDesc :=
      if String.eqb names "" then oneTimeDesc
      else oneTimeDesc ++ " (Funded by: " ++ names ++ ")" in
    let next2 := (next1 + List.length txs)%nat in
    Dashboard.mkOneTime categories'
      ((txs ++ [Transaction.mk (Js.uuid next2) oneTimeDate expenseAmount
                  finalDesc (Some (Category.id otherCategory)) None
                  EXPENSE None None None]) ++ transactions)%list None (S next2).
Proof using amount_parsed amount_positive no_alert.
  revert no_alert.
  unfold Dashboard.handleCreateOneTimeExpense. rewrite amount_parsed.
  assert (Qle_bool expenseAmount 0 = false) as ->.
  { apply not_true_iff_false. rewrite Qle_bool_iff. lra. }
  destruct (Js.Qgt_bool (Qmax 0 (expenseAmount - totalFunded fundingSources))
              (Dashboard.totalUnallocatedAvailable categories transactions incomeSources v
               + 0.01)); [discriminate|reflexivity].
Qed.
End OneTimeFacts.

(** X6. A one-time expense of a positive amount that is booked with no
    alert of insufficient funds puts in front of the ledger one
    debit for every funding source with a positive amount, in the order of the
    sources, then one expense of the whole amount, all dated as typed.  The
    expense is tagged to the first category named Other Expenses in any
    letter case, which is created at the end of the categories only when
    there is none; whatever is asked afterwards, no second one is created. *)
Theorem handleCreateOneTimeExpense_books `{rt : Js.Runtime}
    (categories : list Category.t) (transactions : list Transaction.t)
    (incomeSources : list IncomeSource.t) (v : Dashboard.View)
    (oneTimeDesc oneTimeAmount oneTimeDate : string) (fundingSources : list (string * Q))
    (next : nat) (expenseAmount : Q) :
  let out := Dashboard.handleCreateOneTimeExpense categories transactions incomeSources v
               oneTimeDesc oneTimeAmount oneTimeDate fundingSources next in
  let isOther c := String.eqb (JsString.toLowerCase (Category.name c)) "other expenses" in
  JsString.parseFloat oneTimeAmount = Some expenseAmount ->
  0 < expenseAmount ->
  Dashboard.ot_alert out = None ->
  exists other debits expenseTx,
    Dashboard.ot_transactions out = (debits ++ expenseTx :: transactions)%list
    /\ find isOther (Dashboard.ot_categories out) = Some other
    /\ (Dashboard.ot_categories out = categories
        \/ find isOther categories = None
           /\ Dashboard.ot_categories out = (categories ++ [other])%list
           /\ Category.id other = Js.uuid next
           /\ Category.type other = expense)
    /\ Transaction.type expenseTx = EXPENSE
    /\ Transaction.amount expenseTx = expenseAmount
    /\ Transaction.date expenseTx = oneTimeDate
    /\ Transaction.categoryId expenseTx = Some (Category.id other)
    /\ List.map allocationView debits
       = List.map (fun '(catId, val) => (Some catId, - val))
           (List.filter (fun '(_, val) => Js.Qgt_bool val 0) fundingSources)
    /\ List.Forall (fun t => Transaction.type t = INCOME
                             /\ Transaction.date t = oneTimeDate) debits
    /\ (forall transactions' incomeSources' v' desc' amount' date' sources' next',
          Dashboard.ot_categories
            (Dashboard.handleCreateOneTimeExpense (Dashboard.ot_categories out) transactions'
               incomeSources' v' desc' amount' date' sources' next')
          = Dashboard.ot_categories out).
Proof.
  intros out isOther Hparse Hpos Hpool. unfold out.
  rewrite (handleCreateOneTimeExpense_accepted categories transactions incomeSources v
             oneTimeDesc oneTimeAmount oneTimeDate fundingSources next expenseAmount
             Hparse Hpos Hpool).
  assert (forall cats other,
            find isOther cats = Some other ->
            forall transactions' incomeSources' v' desc' amount' date' sources' next',
              Dashboard.ot_categories
                (Dashboard.handleCreateOneTimeExpense cats transactions'
                   incomeSources' v' desc' amount' date' sources' next')
              = cats) as Honce.
  { intros cats other Hfound transactions' incomeSources' v' desc' amount' date' sources'
      next'.
    unfold Dashboard.handleCreateOneTimeExpense.
    destruct (JsString.parseFloat amount'); [|reflexivity].
    destruct (Qle_bool _ 0); [reflexivity|].
    destruct (Js.Qgt_bool _ _); [reflexivity|].
    fold isOther. rewrite Hfound. reflexivity. }
  assert (forall next1,
            List.map allocationView
              (forEachPush fundingSources (fun '(_, val) => negb (Qle_bool val 0))
                 (fun id '(catId, val) =>
                    Transaction.mk id oneTimeDate (- val)
                      ("Moved for One-Time: " ++ oneTimeDesc) (Some catId) None INCOME
                      None None None) next1)
            = List.map (fun '(catId, val) => (Some catId, - val))
                (List.filter (fun '(_, val) => Js.Qgt_bool val 0) fundingSources)
            /\ List.Forall (fun t => Transaction.type t = INCOME
                                     /\ Transaction.date t = oneTimeDate)
                 (forEachPush fundingSources (fun '(_, val) => negb (Qle_bool val 0))
                    (fun id '(catId, val) =>
                       Transaction.mk id oneTimeDate (- val)
                         ("Moved for One-Time: " ++ oneTimeDesc) (Some catId) None INCOME
                         None None None) next1)) as Hdebits.
  { intros next1. split.
    - rewrite (forEachPush_view _ _ _ _ allocationView
                 (fun '(catId, val) => (Some catId, - val)))
        by (intros id [catId val]; reflexivity).
      reflexivity.
    - unfold forEachPush. apply pushFrom_Forall_kept; [|constructor].
      intros id [catId val] _ _. split; reflexivity. }
  fold isOther. destruct (find isOther categories) as [c|] eqn:Hfind.
  - destruct (Hdebits next) as [Hviews Hshape].
    eexists c, _, _. cbn [Dashboard.ot_transactions Dashboard.ot_categories].
    split; [rewrite <- List.app_assoc; reflexivity|].
    split; [exact Hfind|]. split; [now left|].
    do 4 (split; [reflexivity|]). split; [exact Hviews|]. split; [exact Hshape|].
    apply (Honce categories c Hfind).
  - destruct (Hdebits (S next)) as [Hviews Hshape].
    set (newOtherCat := Category.mk (Js.uuid next) "Other Expenses" expense 0 0 0 "#64748b"
                          (Some oneTimeDate) (Some []) None).
    assert (find isOther (categories ++ [newOtherCat])%list = Some newOtherCat) as Hnew
      by (apply find_snoc_none; [exact Hfind|reflexivity]).
    eexists newOtherCat, _, _.
    cbn [Dashboard.ot_transactions Dashboard.ot_categories].
    split; [rewrite <- List.app_assoc; reflexivity|].
    split; [exact Hnew|].
    split; [right; repeat split; reflexivity|].
    do 4 (split; [reflexivity|]). split; [exact Hviews|]. split; [exact Hshape|].
    apply (Honce _ newOtherCat Hnew).
Qed.

Lemma handleCreateOneTimeExpense_books_witness :
  let out :=
    Dashboard.handleCreateOneTimeExpense (rt := Scenario.runtime) Scenario.twoEnvelopes
      Scenario.pool300 Scenario.oneSource Scenario.june "Repair" "80" "2024-06-12"
      [ ("cat-a", 50); ("cat-b", 0) ] 0 in
  let isOther c := String.eqb (JsString.toLowerCase (Category.name c)) "other expenses" in
  exists other debits expenseTx,
    Dashboard.ot_transactions out = (debits ++ expenseTx :: Scenario.pool300)%list
    /\ find isOther (Dashboard.ot_categories out) = Some other
    /\ (Dashboard.ot_categories out = Scenario.twoEnvelopes
        \/ find isOther Scenario.twoEnvelopes = None
           /\ Dashboard.ot_categories out = (Scenario.twoEnvelopes ++ [other])%list
           /\ Category.id other = Js.uuid (Runtime := Scenario.runtime) 0
           /\ Category.type other = expense)
    /\ Transaction.type expenseTx = EXPENSE
    /\ Transaction.amount expenseTx = 80
    /\ Transaction.date expenseTx = "2024-06-12"
    /\ Transaction.categoryId expenseTx = Some (Category.id other)
    /\ List.map allocationView debits
       = List.map (fun '(catId, val) => (Some catId, - val))
           (List.filter (fun '(_, val) => Js.Qgt_bool val 0) [ ("cat-a", 50); ("cat-b", 0) ])
    /\ List.Forall (fun t => Transaction.type t = INCOME
                             /\ Transaction.date t = "2024-06-12") debits
    /\ (forall transactions' incomeSources' v' desc' amount' date' sources' next',
          Dashboard.ot_categories
            (Dashboard.handleCreateOneTimeExpense (rt := Scenario.runtime)
               (Dashboard.ot_categories out) transactions'
               incomeSources' v' desc' amount' date' sources' next')
          = Dashboard.ot_categories out).
Proof.
  apply (handleCreateOneTimeExpense_books (rt := Scenario.runtime) Scenario.twoEnvelopes
           Scenario.pool300 Scenario.oneSource Scenario.june "Repair" "80" "2024-06-12"
           [ ("cat-a", 50); ("cat-b", 0) ] 0 80).
  - reflexivity.
  - reflexivity.
  - reflexivity.
Defined.

(** X7. A one-time expense of a positive amount that is booked with no
    alert of insufficient funds takes nothing from the pool: with the categories and the ledger it leaves, the pool of the viewed
    month is the pool before plus what the funding sources gave, the expense
    itself being booked on the Other Expenses category; so the pool does not
    fall.  Every source with a positive amount is an expense or investment
    category with an id that is not empty, no category or drawn id is empty, no
    transaction is tagged with the id a new category would get, and the date
    typed is not after the last day of the viewed month. *)
Theorem handleCreateOneTimeExpense_pool `{rt : Js.Runtime}
    (categories : list Category.t) (transactions : list Transaction.t)
    (incomeSources : list IncomeSource.t) (v : Dashboard.View)
    (oneTimeDesc oneTimeAmount oneTimeDate : string) (fundingSources : list (string * Q))
    (next : nat) (expenseAmount : Q) :
  let out := Dashboard.handleCreateOneTimeExpense categories transactions incomeSources v
               oneTimeDesc oneTimeAmount oneTimeDate fundingSources next in
  let given :=
    Js.sum_by snd (List.filter (fun '(_, val) => Js.Qgt_bool val 0) fundingSources) in
  JsString.parseFloat oneTimeAmount = Some expenseAmount ->
  0 < expenseAmount ->
  Dashboard.ot_alert out = None ->
  (forall catId val, In (catId, val) fundingSources -> 0 < val ->
     catId <> ""
     /\ exists c, findCategory categories (Some catId) = Some c
                  /\ (Category.type c = expense \/ Category.type c = investment)) ->
  (forall c, In c categories -> Category.id c <> "") ->
  Js.uuid next <> "" ->
  (forall t, In t transactions -> Transaction.categoryId t <> Some (Js.uuid next)) ->
  String.leb oneTimeDate (Dashboard.endOfViewMonthStr v) = true ->
  Dashboard.totalUnallocatedAvailable (Dashboard.ot_categories out)
    (Dashboard.ot_transactions out) incomeSources v
  == Dashboard.totalUnallocatedAvailable categories transactions incomeSources v + given
  /\ 0 <= given.
Proof.
  intros out given Hparse Hpos Hpool Hsources Hids Huuid Hfresh Hdate.
  assert (0 <= given) as Hgiven.
  { apply sum_by_nonneg. intros [catId val] Hin. apply filter_In in Hin.
    destruct Hin as [_ Hval]. apply Qgt_bool_iff in Hval. simpl. lra. }
  split; [|exact Hgiven].
  unfold out.
  rewrite (handleCreateOneTimeExpense_accepted categories transactions incomeSources v
             oneTimeDesc oneTimeAmount oneTimeDate fundingSources next expenseAmount
             Hparse Hpos Hpool).
  set (isOther := fun c => String.eqb (JsString.toLowerCase (Category.name c))
                                      "other expenses").
  (* the categories left, the category of the expense and the first id of the debits *)
  assert (exists other categories' next1,
            match find isOther categories with
            | Some c => (c, categories, next)
            | None =>
                let newOtherCat :=
                  Category.mk (Js.uuid next) "Other Expenses" expense 0 0 0 "#64748b"
                              (Some oneTimeDate) (Some []) None in
                (newOtherCat, (categories ++ [newOtherCat])%list, S next)
            end = (other, categories', next1)
            /\ Category.id other <> ""
            /\ (forall id x, findCategory categories id = Some x ->
                  findCategory categories' id = Some x)
            /\ (forall t, In t transactions ->
                  findCategory categories' (Transaction.categoryId t)
                  = findCategory categories (Transaction.categoryId t)))
    as (other & categories' & next1 & -> & Hother & Hkeeps & Hsame).
  { destruct (find isOther categories) as [c|] eqn:Hfind.
    - exists c, categories, next. split; [reflexivity|]. split; [|split; auto].
      apply Hids. apply find_some in Hfind. tauto.
    - eexists _, _, _. split; [reflexivity|]. split; [exact Huuid|]. split.
      + intros id x Hx. rewrite findCategory_snoc, Hx. reflexivity.
      + intros t Ht. rewrite findCategory_snoc.
        destruct (findCategory categories (Transaction.categoryId t)); [reflexivity|].
        cbn [Category.id]. pose proof (Hfresh t Ht) as Hne.
        destruct (Transaction.categoryId t) as [k|]; [|reflexivity]. simpl.
        destruct (String.eqb_spec k (Js.uuid next)) as [->|_]; [congruence|reflexivity]. }
  cbn [Dashboard.ot_categories Dashboard.ot_transactions].
  set (debits := forEachPush fundingSources _ _ next1).
  set (expenseTx := Transaction.mk _ oneTimeDate expenseAmount _ _ None EXPENSE None None None).
  rewrite !pool_app.
  rewrite (pool_same_kinds categories categories' transactions incomeSources v Hsame).
  rewrite (pool_of_allocations categories' incomeSources v debits).
  - assert (Dashboard.totalUnallocatedAvailable categories' [expenseTx] incomeSources v
            == Dashboard.openingBalance incomeSources) as ->.
    { unfold Dashboard.totalUnallocatedAvailable, Dashboard.totalGrossIncome,
        Dashboard.totalAllocated, Dashboard.uncategorizedExpenses,
        Dashboard.grossIncomeTransactions, Dashboard.allocatedTransactions.
      simpl. apply String.eqb_neq in Hother. rewrite Hother. simpl.
      unfold Js.sum_by. simpl. ring. }
    assert (Js.sum_by Transaction.amount debits == - given) as ->; [|ring].
    unfold debits, given.
    rewrite (sum_by_views Transaction.amount (fun x : string * Q => - snd x) _
               (List.filter (fun '(_, val) => Js.Qgt_bool val 0) fundingSources))
      by (apply forEachPush_view; intros id [catId val]; reflexivity).
    generalize (List.filter (fun '(_, val) => Js.Qgt_bool val 0) fundingSources).
    intros l. induction l as [|a l IH]; [reflexivity|]. rewrite !sum_by_cons, IH. ring.
  - assert (List.Forall
              (fun t => isAllocatedOut categories' t = true
                        /\ String.leb (Transaction.date t) (Dashboard.endOfViewMonthStr v)
                           = true) debits) as Hall; [|now apply List.Forall_forall].
    unfold debits, forEachPush. apply pushFrom_Forall_kept; [|constructor].
    intros id [catId val] Hin Hkeep. split; [|exact Hdate].
    assert (0 < val) as Hval by (apply Qgt_bool_iff; exact Hkeep).
    destruct (Hsources catId val Hin Hval) as (Hne & c & Hc & Hkind).
    unfold isAllocatedOut, taggedTo. simpl.
    apply String.eqb_neq in Hne. rewrite Hne. simpl.
    rewrite (Hkeeps _ _ Hc). destruct Hkind as [-> | ->]; reflexivity.
Qed.

Lemma handleCreateOneTimeExpense_pool_witness :
  let out :=
    Dashboard.handleCreateOneTimeExpense (rt := Scenario.runtime) Scenario.twoEnvelopes
      Scenario.pool300 Scenario.oneSource Scenario.june "Repair" "80" "2024-06-12"
      [ ("cat-a", 50); ("cat-b", 0) ] 0 in
  Dashboard.totalUnallocatedAvailable Scenario.twoEnvelopes Scenario.pool300
    Scenario.oneSource Scenario.june == 300
  /\ Dashboard.totalUnallocatedAvailable (Dashboard.ot_categories out)
       (Dashboard.ot_transactions out) Scenario.oneSource Scenario.june
     == Dashboard.totalUnallocatedAvailable Scenario.twoEnvelopes Scenario.pool300
          Scenario.oneSource Scenario.june
        + Js.sum_by snd
            (List.filter (fun '(_, val) => Js.Qgt_bool val 0) [ ("cat-a", 50); ("cat-b", 0) ])
  /\ 0 <= Js.sum_by snd
            (List.filter (fun '(_, val) => Js.Qgt_bool val 0) [ ("cat-a", 50); ("cat-b", 0) ]).
Proof.
  intros out. split; [reflexivity|].
  apply (handleCreateOneTimeExpense_pool (rt := Scenario.runtime) Scenario.twoEnvelopes
           Scenario.pool300 Scenario.oneSource Scenario.june "Repair" "80" "2024-06-12"
           [ ("cat-a", 50); ("cat-b", 0) ] 0 80).
  - reflexivity.
  - reflexivity.
  - reflexivity.
  - intros catId val [[= <- <-]|[[= <- <-]|[]]] Hval.
    + split; [discriminate|]. eexists. split; [reflexivity|]. left. reflexivity.
    + exfalso. revert Hval. vm_compute. discriminate.
  - intros c [<-|[<-|[]]]; discriminate.
  - discriminate.
  - intros t Ht. simpl in Ht.
    repeat (destruct Ht as [<-|Ht]; [discriminate|]). destruct Ht.
  - reflexivity.
Defined.

(** ** Deletion, with no assumption on the ids *)

(** What a deletion leaves has neither the id nor the id as parent. *)
Lemma deleteTransaction_leaves (prev : list Transaction.t) (id : string) (t : Transaction.t) :
  In t (Dashboard.deleteTransaction prev id) ->
  In t prev /\ String.eqb (Transaction.id t) id = false
  /\ Js.opt_is (Transaction.parentTransactionId t) id = false.
Proof.
  unfold Dashboard.deleteTransaction. intros Hin. apply filter_In in Hin.
  destruct Hin as [Hin Hkeep]. apply negb_true_iff, bool_decide_eq_false in Hkeep.
  rewrite elem_of_list_to_set, list_elem_of_In in Hkeep. simpl in Hkeep.
  split; [exact Hin|]. split.
  - apply String.eqb_neq. intros Heq. apply Hkeep. left. symmetry. exact Heq.
  - destruct (Js.opt_is (Transaction.parentTransactionId t) id) eqn:Hp; [|reflexivity].
    exfalso. apply Hkeep. right. apply in_map. apply filter_In. split; assumption.
Qed.

(** Deleting an id that the ledger neither has nor has as a parent. *)
Lemma deleteTransaction_unrelated (prev : list Transaction.t) (id : string) :
  (forall t, In t prev ->
     String.eqb (Transaction.id t) id = false
     /\ Js.opt_is (Transaction.parentTransactionId t) id = false) ->
  Dashboard.deleteTransaction prev id = prev.
Proof.
  intros Hnone. unfold Dashboard.deleteTransaction.
  rewrite (filter_none (fun t => Js.opt_is (Transaction.parentTransactionId t) id) prev)
    by (intros t Ht; apply Hnone, Ht).
  apply filter_all. intros t Ht. apply negb_true_iff, bool_decide_eq_false.
  rewrite elem_of_list_to_set, list_elem_of_In. simpl.
  destruct (Hnone t Ht) as [Hid _]. apply String.eqb_neq in Hid. intuition congruence.
Qed.

(** Any ids put in front of a ledger that has none of them are removed by a
    filter that drops them and keeps the rest. *)
Lemma filter_drop_front {A : Type} (p : A -> bool) (front rest : list A) :
  (forall x, In x front -> p x = false) -> (forall x, In x rest -> p x = true) ->
  List.filter p (front ++ rest) = rest.
Proof.
  intros Hfront Hrest.
  rewrite List.filter_app, (filter_none p front Hfront), (filter_all p rest Hrest).
  reflexivity.
Qed.

(** X8. Whatever the ids in the ledger, repeated or not, a deletion leaves no
    transaction with the id deleted and none that has it as parent, keeps only
    transactions that were there, and a second deletion of the same id changes
    nothing more.  Where transfers exist a deletion leaves no transaction with
    the id deleted, and a second deletion changes nothing more. *)
Theorem deleteTransaction_idempotent (prev : list Transaction.t) (id : string) :
  (let after := Dashboard.deleteTransaction prev id in
   (forall t, In t after ->
      In t prev /\ Transaction.id t <> id /\ Transaction.parentTransactionId t <> Some id)
   /\ Dashboard.deleteTransaction after id = after
   /\ Transactions.deleteTransaction after id = after)
  /\ (let after := TransactionsAccounts.deleteTransaction prev id in
      (forall t, In t after -> In t prev /\ Transaction.id t <> id)
      /\ TransactionsAccounts.deleteTransaction after id = after).
Proof.
  split.
  - intros after.
    assert (forall t, In t after ->
              String.eqb (Transaction.id t) id = false
              /\ Js.opt_is (Transaction.parentTransactionId t) id = false) as Hnone
      by (intros t Ht; apply (deleteTransaction_leaves prev id t Ht)).
    split; [|split; apply deleteTransaction_unrelated, Hnone].
    intros t Ht. destruct (deleteTransaction_leaves prev id t Ht) as (Hin & Hid & Hp).
    split; [exact Hin|]. split; [now apply String.eqb_neq|].
    intros Heq. rewrite Heq in Hp. simpl in Hp. now rewrite String.eqb_refl in Hp.
  - intros after.
    assert (forall t, In t after -> In t prev /\ String.eqb (Transaction.id t) id = false)
      as Hnone.
    { intros t. unfold after, TransactionsAccounts.deleteTransaction.
      destruct (find (fun t => String.eqb (Transaction.id t) id) prev) as [tx|] eqn:Hfind.
      - intros Ht. apply filter_In in Ht. destruct Ht as [Hin Hkeep].
        split; [exact Hin|].
        apply negb_true_iff, bool_decide_eq_false in Hkeep.
        apply String.eqb_neq. intros Heq. apply Hkeep.
        destruct (_ && _); rewrite ?elem_of_union, elem_of_fold_union, elem_of_singleton;
          intuition congruence.
      - intros Ht. split; [exact Ht|]. apply (find_none _ _ Hfind t Ht). }
    split.
    + intros t Ht. destruct (Hnone t Ht) as [Hin Hid].
      split; [exact Hin|now apply String.eqb_neq].
    + unfold TransactionsAccounts.deleteTransaction at 1.
      destruct (find (fun t => String.eqb (Transaction.id t) id) after) as [tx|] eqn:Hfind;
        [|reflexivity].
      apply find_some in Hfind. destruct Hfind as [Hin Hid].
      destruct (Hnone tx Hin) as [_ Hne]. congruence.
Qed.

(** ** Transfers between accounts *)

(** X9. A transfer that passes the checks (an amount that is a positive
    number, two accounts chosen and different) takes the amount from the
    balance of the account it leaves and adds it to the balance of the
    account it enters, the balance of every other account staying as it was;
    and, the two ids drawn being not empty, different and new to the ledger
    (as ids and as parents), deleting
    either half of the transfer gives back the ledger as it was before. *)
Theorem handleAddManual_transfer `{rt : Js.Runtime}
    (transactions : list Transaction.t) (accounts : list Account.t)
    (description amount selectedCat selectedAccount transferToAccount today : string)
    (next : nat) (amountVal : Q) :
  let out := TransactionsAccounts.handleAddManual transactions accounts description amount
               selectedCat selectedAccount transferToAccount TRANSFER today next in
  let ledger := TransactionsAccounts.ad_transactions out in
  amount <> "" ->
  JsString.parseFloat amount = Some amountVal ->
  0 < amountVal ->
  selectedAccount <> "" -> transferToAccount <> "" ->
  selectedAccount <> transferToAccount ->
  (forall acc,
     DashboardAccounts.currentBalance ledger acc
     == DashboardAccounts.currentBalance transactions acc
        + (if String.eqb (Account.id acc) transferToAccount then amountVal else 0)
        - (if String.eqb (Account.id acc) selectedAccount then amountVal else 0))
  /\ (Js.uuid next <> "" -> Js.uuid (S next) <> "" ->
      Js.uuid next <> Js.uuid (S next) ->
      (forall t, In t transactions ->
         Transaction.id t <> Js.uuid next /\ Transaction.id t <> Js.uuid (S next)
         /\ Transaction.parentTransactionId t <> Some (Js.uuid next)
         /\ Transaction.parentTransactionId t <> Some (Js.uuid (S next))) ->
      TransactionsAccounts.deleteTransaction ledger (Js.uuid next) = transactions
      /\ TransactionsAccounts.deleteTransaction ledger (Js.uuid (S next)) = transactions).
Proof.
  intros out ledger Hamount Hparse Hpos Hfrom Hto Hdiff.
  unfold ledger, out, TransactionsAccounts.handleAddManual.
  apply String.eqb_neq in Hamount, Hfrom, Hto, Hdiff.
  rewrite Hamount, Hparse, Hfrom, Hto, Hdiff. simpl.
  assert (Qle_bool amountVal 0 = false) as ->.
  { apply not_true_iff_false. rewrite Qle_bool_iff. lra. }
  cbn [TransactionsAccounts.ad_transactions].
  split.
  - intros acc. unfold DashboardAccounts.currentBalance, DashboardAccounts.accountSum,
      DashboardAccounts.isTransfer. simpl.
    rewrite (String.eqb_sym selectedAccount), (String.eqb_sym transferToAccount).
    destruct (String.eqb (Account.id acc) selectedAccount),
      (String.eqb (Account.id acc) transferToAccount); simpl;
      rewrite ?sum_by_cons; simpl; ring.
  - intros Hid1 Hid2 Hids Hfresh.
    assert (forall (ids : gset string),
              (forall x, x ∈ ids <-> x = Js.uuid next \/ x = Js.uuid (S next)) ->
              List.filter (fun t => negb (bool_decide (Transaction.id t ∈ ids))) transactions
              = transactions) as Hkept.
    { intros ids Hin. apply filter_all. intros t Ht.
      apply negb_true_iff, bool_decide_eq_false. rewrite Hin.
      destruct (Hfresh t Ht) as (H1 & H2 & _). tauto. }
    assert (forall id, id = Js.uuid next \/ id = Js.uuid (S next) ->
              List.filter (fun t => Js.opt_is (Transaction.parentTransactionId t) id)
                transactions = []) as Hchildren.
    { intros id Hid. apply filter_none. intros t Ht.
      destruct (Hfresh t Ht) as (_ & _ & H1 & H2).
      destruct (Transaction.parentTransactionId t) as [p|]; [|reflexivity]. simpl.
      apply String.eqb_neq. destruct Hid as [-> | ->]; congruence. }
    pose proof Hids as Hne. apply String.eqb_neq in Hne.
    apply String.eqb_neq in Hid1, Hid2.
    assert (forall x, x ∈ ({[ Js.uuid next ]} ∪ {[ Js.uuid (S next) ]} : gset string)
                      <-> x = Js.uuid next \/ x = Js.uuid (S next)) as Hin1
      by (intros x; rewrite elem_of_union, !elem_of_singleton; reflexivity).
    assert (forall x, x ∈ ({[ Js.uuid (S next) ]} ∪ {[ Js.uuid next ]} : gset string)
                      <-> x = Js.uuid next \/ x = Js.uuid (S next)) as Hin2
      by (intros x; rewrite elem_of_union, !elem_of_singleton; tauto).
    split.
    + unfold TransactionsAccounts.deleteTransaction.
      cbn [find Transaction.id]. rewrite String.eqb_refl.
      cbn [List.filter Transaction.parentTransactionId Js.opt_is Transaction.type
           Transaction.transferPeerId TransactionType_eqb Js.truthy andb default
           Transaction.id].
      rewrite (Hchildren (Js.uuid next)) by now left.
      cbn [fold_left]. rewrite Hid2. cbn [negb].
      rewrite !bool_decide_eq_true_2 by (apply Hin1; auto). cbn [negb].
      apply Hkept, Hin1.
    + unfold TransactionsAccounts.deleteTransaction.
      cbn [find Transaction.id]. rewrite Hne, String.eqb_refl.
      cbn [List.filter Transaction.parentTransactionId Js.opt_is Transaction.type
           Transaction.transferPeerId TransactionType_eqb Js.truthy andb default
           Transaction.id].
      rewrite (Hchildren (Js.uuid (S next))) by now right.
      cbn [fold_left]. rewrite Hid1. cbn [negb].
      rewrite !bool_decide_eq_true_2 by (apply Hin2; auto). cbn [negb].
      apply Hkept, Hin2.
Qed.

Lemma handleAddManual_transfer_witness :
  let out :=
    TransactionsAccounts.handleAddManual (rt := Scenario.runtime) Scenario.paycheckLedger
      Scenario.twoAccounts "" "250" "" "acc-1" "acc-2" TRANSFER "2024-06-10" 0 in
  let ledger := TransactionsAccounts.ad_transactions out in
  List.length ledger = S (S (List.length Scenario.paycheckLedger))
  /\ (forall acc,
        DashboardAccounts.currentBalance ledger acc
        == DashboardAccounts.currentBalance Scenario.paycheckLedger acc
           + (if String.eqb (Account.id acc) "acc-2" then 250 else 0)
           - (if String.eqb (Account.id acc) "acc-1" then 250 else 0))
  /\ TransactionsAccounts.deleteTransaction ledger (Js.uuid (Runtime := Scenario.runtime) 0)
     = Scenario.paycheckLedger
  /\ TransactionsAccounts.deleteTransaction ledger (Js.uuid (Runtime := Scenario.runtime) 1)
     = Scenario.paycheckLedger.
Proof.
  intros out ledger. split; [reflexivity|].
  destruct (handleAddManual_transfer (rt := Scenario.runtime) Scenario.paycheckLedger
              Scenario.twoAccounts "" "250" "" "acc-1" "acc-2" "2024-06-10" 0 250)
    as [Hbalances Hdelete]; try reflexivity; try discriminate.
  split; [exact Hbalances|].
  apply Hdelete; try discriminate.
  intros t Ht. simpl in Ht.
  repeat (destruct Ht as [<-|Ht]; [repeat split; discriminate|]). destruct Ht.
Defined.

(** ** Reopening the funding dialog *)

Lemma Qabs_opp_pos (q : Q) : 0 < q -> Qabs (- q) = q.
Proof.
  destruct q as [n d]. unfold Qlt, Qabs, Qopp. simpl. intros Hpos. f_equal. lia.
Qed.

(** Setting, one after the other, keys that are distinct and not yet set
    appends them in that order. *)
Lemma JsObject_set_new (k : string) (x : Q) (entries : list (string * Q)) :
  ~ In k (List.map fst entries) -> JsObject.set k x entries = (entries ++ [(k, x)])%list.
Proof.
  induction entries as [|[k' x'] l IH]; simpl; intros Hnew; [reflexivity|].
  destruct (String.eqb_spec k' k) as [->|_]; [tauto|].
  rewrite IH; [reflexivity|tauto].
Qed.

Lemma JsObject_set_all (l entries : list (string * Q)) :
  List.NoDup (List.map fst (entries ++ l)) ->
  fold_left (fun obj '(k, x) => JsObject.set k x obj) l entries = (entries ++ l)%list.
Proof.
  revert entries. induction l as [|[k x] l IH]; intros entries Hnd; simpl.
  - now rewrite app_nil_r.
  - assert (entries ++ (k, x) :: l = (entries ++ [(k, x)]) ++ l)%list as Hsplit
      by now rewrite <- List.app_assoc.
    rewrite JsObject_set_new.
    + rewrite IH; [now rewrite <- List.app_assoc|]. now rewrite <- Hsplit.
    + rewrite List.map_app in Hnd. simpl in Hnd.
      apply List.NoDup_remove_2 in Hnd. intros Hin. apply Hnd.
      apply in_or_app. now left.
Qed.

Lemma NoDup_map_filter {A B : Type} (f : A -> B) (p : A -> bool) (l : list A) :
  List.NoDup (List.map f l) -> List.NoDup (List.map f (List.filter p l)).
Proof.
  induction l as [|a l IH]; simpl; intros Hnd; [constructor|].
  inversion Hnd as [|? ? Hnotin Hnd']; subst.
  destruct (p a); [|auto]. simpl. constructor; [|auto].
  intros Hin. apply Hnotin. apply in_map_iff in Hin. destruct Hin as (x & Hx & Hin).
  apply filter_In in Hin. apply in_map_iff. exists x. tauto.
Qed.

Section FundModalFacts.
Context `{rt : Js.Runtime}.
Variable categories : list Category.t.
Variable fundingTx : Transaction.t.
Variable fundingSources : list (string * Q).
Hypothesis id_set : Transaction.id fundingTx <> "".
Hypothesis not_own_parent : isChildOf (Transaction.id fundingTx) fundingTx = false.

(** After a run of the first funding model that reports nothing, the children
    of the target are the debits the run pushed. *)
Lemma executeFunding_new_children (transactions : list Transaction.t) (next : nat) :
  let out := Transactions.executeFunding transactions categories (Some fundingTx)
               fundingSources next in
  Transactions.fu_alert out = None ->
  childrenOf (Transaction.id fundingTx) (Transactions.fu_transactions out)
  = forEachPush fundingSources (fun '(_, val) => negb (Qle_bool val 0))
      (fun id '(catId, val) =>
         Transaction.mk id (Transaction.date fundingTx) (- val)
           ("Moved for One-Time: " ++ Transaction.description fundingTx)
           (Some catId) None INCOME (Some (Transaction.id fundingTx)) None None) next.
Proof using id_set not_own_parent.
  unfold Transactions.executeFunding.
  destruct (Js.Qgt_bool _ _); [discriminate|].
  destruct (find _ categories) as [otherCategory|]; [|discriminate].
  intros _. cbn [Transactions.fu_transactions].
  unfold childrenOf. cbn [List.filter]. unfold isChildOf at 1.
  cbn [Transaction.with_description_category Transaction.parentTransactionId].
  unfold isChildOf in not_own_parent. rewrite not_own_parent.
  rewrite List.filter_app, filter_all, (filter_none _ (List.filter _ transactions)).
  - now rewrite app_nil_r.
  - intros t Ht. apply filter_In in Ht. destruct Ht as [Ht Hkeep].
    destruct (isChildOf (Transaction.id fundingTx) t) eqn:Hchild; [|reflexivity].
    exfalso. apply negb_true_iff in Hkeep.
    assert (existsb (String.eqb (Transaction.id t))
              (Transaction.id fundingTx
               :: List.map Transaction.id
                    (default [] (Transactions.childrenMap transactions
                                 !! Transaction.id fundingTx))) = true) as Hin;
      [|congruence].
    apply existsb_exists. exists (Transaction.id t). split; [|apply String.eqb_refl].
    right. apply in_map. rewrite childrenMap_lookup by exact id_set.
    apply filter_In. split; assumption.
  - apply List.Forall_forall. unfold forEachPush.
    apply pushFrom_Forall_kept; [|constructor].
    intros id [catId val] _ _. unfold isChildOf. simpl. apply String.eqb_refl.
Qed.
End FundModalFacts.

(** X10. Reopening the funding dialog on a transaction that was just funded
    shows what was entered: the sources with a positive amount, each with its
    amount, in the order they were entered.  The run reported nothing, the
    transaction has an id and is not its own parent, and the sources are
    distinct categories with ids that are not empty. *)
Theorem openFundModal_after_executeFunding `{rt : Js.Runtime}
    (transactions : list Transaction.t) (categories : list Category.t)
    (fundingTx : Transaction.t) (fundingSources : list (string * Q)) (next : nat) :
  let out := Transactions.executeFunding transactions categories (Some fundingTx)
               fundingSources next in
  Transaction.id fundingTx <> "" ->
  isChildOf (Transaction.id fundingTx) fundingTx = false ->
  List.NoDup (List.map fst fundingSources) ->
  (forall catId val, In (catId, val) fundingSources -> catId <> "") ->
  Transactions.fu_alert out = None ->
  Transactions.openFundModal (Transactions.fu_transactions out) fundingTx
  = List.filter (fun '(_, val) => Js.Qgt_bool val 0) fundingSources.
Proof.
  intros out Hid Hself Hnd Hkeys Halert.
  unfold Transactions.openFundModal. rewrite childrenMap_lookup by exact Hid.
  pose proof (executeFunding_new_children categories fundingTx fundingSources Hid Hself
                transactions next Halert) as Hchildren.
  unfold childrenOf, isChildOf in Hchildren. fold out in Hchildren. rewrite Hchildren.
  set (positive := List.filter (fun '(_, val) => Js.Qgt_bool val 0) fundingSources).
  (* the loop reads the category, the type and the amount of a child *)
  set (view := fun t => (Transaction.categoryId t, Transaction.type t, Transaction.amount t)).
  set (step := fun (existingSources : list (string * Q))
                   (c : option string * TransactionType * Q) =>
                 match fst (fst c) with
                 | Some categoryId =>
                     if Js.truthy (Some categoryId)
                        && TransactionType_eqb (snd (fst c)) INCOME
                        && Js.Qlt_bool (snd c) 0
                     then JsObject.set categoryId (Qabs (snd c)) existingSources
                     else existingSources
                 | None => existingSources
                 end).
  assert (forall (l : list Transaction.t) acc,
            fold_left (fun existingSources child =>
                         match Transaction.categoryId child with
                         | Some categoryId =>
                             if Js.truthy (Some categoryId)
                                && TransactionType_eqb (Transaction.type child) INCOME
                                && Js.Qlt_bool (Transaction.amount child) 0
                             then JsObject.set categoryId (Qabs (Transaction.amount child))
                                    existingSources
                             else existingSources
                         | None => existingSources
                         end) l acc
            = fold_left step (List.map view l) acc) as Hfold.
  { induction l as [|t l IH]; intros acc; simpl; [reflexivity|]. rewrite IH. reflexivity. }
  rewrite Hfold.
  rewrite (forEachPush_view _ _ _ _ view
             (fun '(catId, val) => (Some catId, INCOME, - val)))
    by (intros id [catId val]; reflexivity).
  change (List.filter (fun '(_, val) => negb (Qle_bool val 0)) fundingSources) with positive.
  assert (forall k x, In (k, x) positive -> k <> "" /\ 0 < x) as Hpositive.
  { intros k x Hin. apply filter_In in Hin. destruct Hin as [Hin Hx].
    split; [apply (Hkeys k x Hin)|apply Qgt_bool_iff; exact Hx]. }
  assert (List.NoDup (List.map fst positive)) as Hdistinct
    by (apply NoDup_map_filter; exact Hnd).
  transitivity (fold_left (fun obj '(k, x) => JsObject.set k x obj) positive []);
    [|exact (JsObject_set_all positive [] Hdistinct)].
  generalize (@nil (string * Q)) as acc. clear -Hpositive.
  induction positive as [|[k x] l IH]; intros acc; simpl; [reflexivity|].
  destruct (Hpositive k x (or_introl eq_refl)) as [Hk Hx].
  rewrite <- IH by (intros k' x' Hin; apply Hpositive; now right).
  f_equal. unfold step. cbn [fst snd Js.truthy TransactionType_eqb].
  apply String.eqb_neq in Hk. rewrite Hk.
  assert (Js.Qlt_bool (- x) 0 = true) as -> by (apply Qlt_bool_iff; lra).
  rewrite (Qabs_opp_pos x Hx). reflexivity.
Qed.

Lemma openFundModal_after_executeFunding_witness :
  let out :=
    Transactions.executeFunding (rt := Scenario.runtime) Scenario.repairLedger
      Scenario.withOther (Some Scenario.repair) [ ("cat-a", 80); ("cat-b", 0) ] 0 in
  Transactions.fu_alert out = None
  /\ Transactions.openFundModal (Transactions.fu_transactions out) Scenario.repair
     = [ ("cat-a", 80) ].
Proof.
  intros out. split; [reflexivity|].
  apply (openFundModal_after_executeFunding (rt := Scenario.runtime) Scenario.repairLedger
           Scenario.withOther Scenario.repair [ ("cat-a", 80); ("cat-b", 0) ] 0).
  - discriminate.
  - reflexivity.
  - repeat constructor; simpl; intuition discriminate.
  - intros catId val [[= <- <-]|[[= <- <-]|[]]]; discriminate.
  - reflexivity.
Defined.

(** ** The funding dialog where transfers exist *)

Lemma JsObject_get_new (k : string) (entries : list (string * Q)) :
  ~ In k (List.map fst entries) -> JsObject.getOrZero k entries = 0.
Proof.
  unfold JsObject.getOrZero.
  induction entries as [|[k' x'] l IH]; simpl; intros Hnew; [reflexivity|].
  destruct (String.eqb_spec k' k) as [->|_]; [tauto|]. apply IH. tauto.
Qed.

Section PairsFacts.
Context `{rt : Js.Runtime}.
Variable categories : list Category.t.
Variable fundingTx : Transaction.t.

(** The loop of the second funding model, seen through what the dialog
    reads of a child: its category, its type and its amount. *)
Lemma pairs_loop_read (fundingSources : list (string * Q)) (acc : list Transaction.t)
    (next : nat) :
  let newTxs :=
    fold_left (fun newTxs '(sourceCatId, amount) =>
       if Qle_bool amount 0 then newTxs
       else
         let sourceName :=
           match findCategory categories (Some sourceCatId) with
           | Some sourceCat => Category.name sourceCat
           | None => "undefined"
           end in
         let n := (next + List.length newTxs)%nat in
         (newTxs ++
          [ Transaction.mk (Js.uuid n) (Transaction.date fundingTx) (- amount)
              ("Covering: " ++ Transaction.description fundingTx)
              (Some sourceCatId) None INCOME (Some (Transaction.id fundingTx))
              None None;
            Transaction.mk (Js.uuid (S n)) (Transaction.date fundingTx) amount
              ("Funded from: " ++ sourceName)
              (Transaction.categoryId fundingTx) None INCOME
              (Some (Transaction.id fundingTx)) None None ])%list)
      fundingSources acc in
  List.map fundingView newTxs
  = (List.map fundingView acc
     ++ flat_map (fun '(catId, val) =>
                    [ (Some catId, INCOME, - val);
                      (Transaction.categoryId fundingTx, INCOME, val) ])
          (List.filter (fun '(_, val) => negb (Qle_bool val 0)) fundingSources))%list
  /\ (List.Forall (fun t => isChildOf (Transaction.id fundingTx) t = true) acc ->
      List.Forall (fun t => isChildOf (Transaction.id fundingTx) t = true) newTxs).
Proof using Type.
  revert acc. induction fundingSources as [|[catId val] l IH]; intros acc; simpl.
  - split; [now rewrite app_nil_r|auto].
  - destruct (Qle_bool val 0); simpl; [apply IH|].
    match goal with
    | |- context [fold_left _ l ?a] => destruct (IH a) as [Hviews Hchildren]
    end.
    cbv zeta in Hviews, Hchildren |- *. split.
    + rewrite Hviews, List.map_app, <- List.app_assoc. reflexivity.
    + intros Hacc. apply Hchildren. apply List.Forall_app. split; [exact Hacc|].
      repeat constructor; unfold isChildOf; simpl; apply String.eqb_refl.
Qed.
End PairsFacts.

(** X11. Where transfers exist, funding a transaction writes, for every source
    with a positive amount, a debit of the source and a credit of the same
    amount to the category of the transaction, so that what it writes sums to
    zero; and reopening the funding dialog on the transaction shows the
    sources with a positive amount, each with the amount entered (added to
    the zero the dialog starts from), in the order they were entered.  The
    transaction has a category, the sources are distinct categories with ids
    that are not empty. *)
Theorem openFundModal_after_pairs `{rt : Js.Runtime}
    (transactions : list Transaction.t) (categories : list Category.t)
    (fundingTx : Transaction.t) (fundingSources : list (string * Q)) (next : nat) :
  let out := fst (TransactionsAccounts.executeFunding transactions categories
                    (Some fundingTx) fundingSources next) in
  Js.truthy (Transaction.categoryId fundingTx) = true ->
  List.NoDup (List.map fst fundingSources) ->
  (forall catId val, In (catId, val) fundingSources -> catId <> "") ->
  Js.sum_by Transaction.amount (childrenOf (Transaction.id fundingTx) out) == 0
  /\ TransactionsAccounts.openFundModal out fundingTx
     = List.map (fun '(catId, val) => (catId, 0 + val))
         (List.filter (fun '(_, val) => Js.Qgt_bool val 0) fundingSources).
Proof.
  intros out Hcat Hnd Hkeys.
  set (positive := List.filter (fun '(_, val) => Js.Qgt_bool val 0) fundingSources).
  assert (List.map fundingView (childrenOf (Transaction.id fundingTx) out)
          = flat_map (fun '(catId, val) =>
                        [ (Some catId, INCOME, - val);
                          (Transaction.categoryId fundingTx, INCOME, val) ]) positive)
    as Hread.
  { unfold out, TransactionsAccounts.executeFunding. rewrite Hcat. cbn [negb fst].
    destruct (pairs_loop_read categories fundingTx fundingSources [] next)
      as [Hviews Hchildren].
    specialize (Hchildren (List.Forall_nil _)). rewrite List.Forall_forall in Hchildren.
    unfold childrenOf. rewrite List.filter_app.
    rewrite (filter_none _ (List.filter _ transactions)), filter_all.
    - exact Hviews.
    - exact Hchildren.
    - intros t Ht. apply filter_In in Ht. destruct Ht as [_ Ht].
      unfold isChildOf. apply negb_true_iff in Ht. exact Ht. }
  assert (forall k x, In (k, x) positive -> k <> "" /\ 0 < x) as Hpositive.
  { intros k x Hin. apply filter_In in Hin. destruct Hin as [Hin Hx].
    split; [apply (Hkeys k x Hin)|apply Qgt_bool_iff; exact Hx]. }
  split.
  - assert (List.map Transaction.amount (childrenOf (Transaction.id fundingTx) out)
            = List.map snd
                (flat_map (fun '(catId, val) =>
                             [ (Some catId, INCOME, - val);
                               (Transaction.categoryId fundingTx, INCOME, val) ]) positive))
      as Hamounts by (rewrite <- Hread, List.map_map; reflexivity).
    rewrite (sum_by_views _ _ _ _ Hamounts).
    clear. induction positive as [|[k x] l IH]; [reflexivity|].
    cbn [flat_map app]. rewrite !sum_by_cons, IH. simpl. ring.
  - unfold TransactionsAccounts.openFundModal.
    fold (isChildOf (Transaction.id fundingTx)).
    fold (childrenOf (Transaction.id fundingTx) out).
    set (step := fun (existingSources : list (string * Q))
                     (c : option string * TransactionType * Q) =>
                   match fst (fst c) with
                   | Some categoryId =>
                       if TransactionType_eqb (snd (fst c)) INCOME
                          && Js.Qlt_bool (snd c) 0
                          && Js.truthy (Some categoryId)
                       then JsObject.set categoryId
                              (JsObject.getOrZero categoryId existingSources + Qabs (snd c))
                              existingSources
                       else existingSources
                   | None => existingSources
                   end).
    assert (forall (l : list Transaction.t) acc,
              fold_left (fun existingSources c =>
                           match Transaction.categoryId c with
                           | Some categoryId =>
                               if TransactionType_eqb (Transaction.type c) INCOME
                                  && Js.Qlt_bool (Transaction.amount c) 0
                                  && Js.truthy (Some categoryId)
                               then
                                 let absAmount := Qabs (Transaction.amount c) in
                                 JsObject.set categoryId
                                   (JsObject.getOrZero categoryId existingSources + absAmount)
                                   existingSources
                               else existingSources
                           | None => existingSources
                           end) l acc
              = fold_left step (List.map fundingView l) acc) as Hfold.
    { induction l as [|t l IH]; intros acc; simpl; [reflexivity|]. rewrite IH. reflexivity. }
    rewrite Hfold, Hread.
    assert (List.NoDup (List.map fst positive)) as Hdistinct
      by (apply NoDup_map_filter; exact Hnd).
    change (List.map (fun '(catId, val) => (catId, 0 + val)) positive)
      with ([] ++ List.map (fun '(catId, val) => (catId, 0 + val)) positive)%list.
    assert (List.NoDup (List.map fst (@nil (string * Q)) ++ List.map fst positive)) as Hall
      by exact Hdistinct.
    revert Hall. generalize (@nil (string * Q)) as acc. clear -Hpositive.
    induction positive as [|[k x] l IH]; intros acc Hall; simpl.
    + now rewrite app_nil_r.
    + destruct (Hpositive k x (or_introl eq_refl)) as [Hk Hx].
      assert (~ In k (List.map fst acc)) as Hnew.
      { intros Hin. apply NoDup_remove_2 in Hall. apply Hall.
        apply in_or_app. now left. }
      assert (step acc (Some k, INCOME, - x) = (acc ++ [(k, 0 + x)])%list) as ->.
      { unfold step. cbn [fst snd TransactionType_eqb Js.truthy andb].
        assert (Js.Qlt_bool (- x) 0 = true) as -> by (apply Qlt_bool_iff; lra).
        apply String.eqb_neq in Hk. rewrite Hk. cbn [negb].
        rewrite (JsObject_get_new k acc Hnew), (Qabs_opp_pos x Hx).
        apply JsObject_set_new, Hnew. }
      assert (step (acc ++ [(k, 0 + x)])%list (Transaction.categoryId fundingTx, INCOME, x)
              = (acc ++ [(k, 0 + x)])%list) as ->.
      { unfold step. cbn [fst snd TransactionType_eqb andb].
        assert (Js.Qlt_bool x 0 = false) as ->.
        { apply not_true_iff_false. rewrite Qlt_bool_iff. lra. }
        destruct (Transaction.categoryId fundingTx); reflexivity. }
      rewrite IH.
      * now rewrite <- List.app_assoc.
      * intros k' x' Hin. apply Hpositive. now right.
      * rewrite List.map_app, <- List.app_assoc. exact Hall.
Qed.

Lemma openFundModal_after_pairs_witness :
  let out :=
    fst (TransactionsAccounts.executeFunding (rt := Scenario.runtime) Scenario.repairLedger
           Scenario.withOther (Some Scenario.repair) [ ("cat-a", 80); ("cat-b", 0) ] 0) in
  List.length (childrenOf (Transaction.id Scenario.repair) out) = 2%nat
  /\ Js.sum_by Transaction.amount (childrenOf (Transaction.id Scenario.repair) out) == 0
  /\ TransactionsAccounts.openFundModal out Scenario.repair
     = List.map (fun '(catId, val) => (catId, 0 + val))
         (List.filter (fun '(_, val) => Js.Qgt_bool val 0) [ ("cat-a", 80); ("cat-b", 0) ]).
Proof.
  intros out. split; [reflexivity|].
  apply (openFundModal_after_pairs (rt := Scenario.runtime) Scenario.repairLedger
           Scenario.withOther Scenario.repair [ ("cat-a", 80); ("cat-b", 0) ] 0).
  - reflexivity.
  - repeat constructor; simpl; intuition discriminate.
  - intros catId val [[= <- <-]|[[= <- <-]|[]]]; discriminate.
Defined.

(** ** Dates read by the import *)

Lemma takeDigits_spec (n : nat) (l ds r : list ascii) :
  DatePattern.takeDigits n l = Some (ds, r) ->
  List.length ds = n /\ forallb JsString.isDigit ds = true.
Proof.
  unfold DatePattern.takeDigits.
  destruct ((List.length (firstn n l) =? n)%nat && forallb JsString.isDigit (firstn n l))
    eqn:Hok; [|discriminate].
  intros [= <- _]. apply andb_true_iff in Hok. destruct Hok as [Hlen Hd].
  apply Nat.eqb_eq in Hlen. split; assumption.
Qed.

Lemma monthYear_spec (n : nat) (l m y : list ascii) :
  DatePattern.monthYear n l = Some (m, y) ->
  (List.length m = n /\ forallb JsString.isDigit m = true)
  /\ (List.length y = 4%nat /\ forallb JsString.isDigit y = true).
Proof.
  unfold DatePattern.monthYear.
  destruct (DatePattern.takeDigits n l) as [[m' r]|] eqn:Hm; [|discriminate].
  destruct (DatePattern.takeSep r) as [r'|]; [|discriminate].
  destruct (DatePattern.takeDigits 4 r') as [[y' r'']|] eqn:Hy; [|discriminate].
  intros [= <- <-]. split; [apply (takeDigits_spec _ _ _ _ Hm)|apply (takeDigits_spec _ _ _ _ Hy)].
Qed.

Lemma dayMonthYear_spec (n : nat) (l d m y : list ascii) :
  DatePattern.dayMonthYear n l = Some (d, m, y) ->
  (List.length d = n /\ forallb JsString.isDigit d = true)
  /\ ((1 <= List.length m <= 2)%nat /\ forallb JsString.isDigit m = true)
  /\ (List.length y = 4%nat /\ forallb JsString.isDigit y = true).
Proof.
  unfold DatePattern.dayMonthYear.
  destruct (DatePattern.takeDigits n l) as [[d' r]|] eqn:Hd; [|discriminate].
  destruct (DatePattern.takeSep r) as [r'|]; [|discriminate].
  destruct (DatePattern.monthYear 2 r') as [[m2 y2]|] eqn:H2.
  - intros [= <- <- <-]. destruct (monthYear_spec _ _ _ _ H2) as [[Hl Hm] Hy].
    split; [apply (takeDigits_spec _ _ _ _ Hd)|]. split; [split; [lia|exact Hm]|exact Hy].
  - destruct (DatePattern.monthYear 1 r') as [[m1 y1]|] eqn:H1; [|discriminate].
    intros [= <- <- <-]. destruct (monthYear_spec _ _ _ _ H1) as [[Hl Hm] Hy].
    split; [apply (takeDigits_spec _ _ _ _ Hd)|]. split; [split; [lia|exact Hm]|exact Hy].
Qed.

(** The three captures of the date pattern: one or two digits, one or two
    digits, four digits. *)
Lemma search_spec (l p1 p2 y : list ascii) :
  DatePattern.search l = Some (p1, p2, y) ->
  ((1 <= List.length p1 <= 2)%nat /\ forallb JsString.isDigit p1 = true)
  /\ ((1 <= List.length p2 <= 2)%nat /\ forallb JsString.isDigit p2 = true)
  /\ (List.length y = 4%nat /\ forallb JsString.isDigit y = true).
Proof.
  induction l as [|c l IH].
  - simpl. discriminate.
  - cbn [DatePattern.search]. unfold DatePattern.matchAt.
    destruct (DatePattern.dayMonthYear 2 (c :: l)) as [[[d m] y']|] eqn:H2.
    + intros [= <- <- <-]. destruct (dayMonthYear_spec _ _ _ _ _ H2) as ([Hl Hd] & Hm & Hy).
      split; [split; [lia|exact Hd]|]. split; assumption.
    + destruct (DatePattern.dayMonthYear 1 (c :: l)) as [[[d m] y']|] eqn:H1; [|exact IH].
      intros [= <- <- <-]. destruct (dayMonthYear_spec _ _ _ _ _ H1) as ([Hl Hd] & Hm & Hy).
      split; [split; [lia|exact Hd]|]. split; assumption.
Qed.

Lemma isIso_assembled (y m d : list ascii) :
  List.length y = 4%nat -> forallb JsString.isDigit y = true ->
  (1 <= List.length m <= 2)%nat -> forallb JsString.isDigit m = true ->
  (1 <= List.length d <= 2)%nat -> forallb JsString.isDigit d = true ->
  DatePattern.isIso (JsString.ofChars y ++ "-" ++ zeroPad m ++ "-" ++ zeroPad d) = true.
Proof.
  intros Hyl Hy Hml Hm Hdl Hd.
  destruct y as [|y1 [|y2 [|y3 [|y4 [|? ?]]]]]; try discriminate Hyl.
  simpl in Hy. rewrite andb_true_r in Hy.
  apply andb_true_iff in Hy. destruct Hy as [Hy1 Hy].
  apply andb_true_iff in Hy. destruct Hy as [Hy2 Hy].
  apply andb_true_iff in Hy. destruct Hy as [Hy3 Hy4].
  destruct m as [|m1 [|m2 [|? ?]]]; simpl in Hml; try lia;
    destruct d as [|d1 [|d2 [|? ?]]]; simpl in Hdl; try lia;
    simpl in Hm, Hd; rewrite ?andb_true_r in Hm, Hd;
    repeat match goal with
           | H : _ && _ = true |- _ => apply andb_true_iff in H; destruct H
           end;
    unfold DatePattern.isIso; simpl;
    repeat match goal with
           | H : JsString.isDigit _ = true |- _ => rewrite H; clear H
           end; reflexivity.
Qed.

(** The date read from a cell has the shape of today's date. *)
Lemma parseDate_isIso (today str : string) :
  DatePattern.isIso today = true -> DatePattern.isIso (Transactions.parseDate today str) = true.
Proof.
  intros Htoday. unfold Transactions.parseDate.
  destruct (String.eqb str ""); [exact Htoday|].
  destruct (DatePattern.isIso str) eqn:Hiso; [exact Hiso|].
  destruct (DatePattern.search (JsString.chars str)) as [[[p1 p2] y]|] eqn:Hsearch;
    [|exact Htoday].
  destruct (search_spec _ _ _ _ Hsearch) as ([Hl1 Hd1] & [Hl2 Hd2] & [Hly Hdy]).
  rewrite !twoDigits_zeroPad by assumption.
  apply isIso_assembled; assumption.
Qed.

(** X12. Whatever the text of a cell, the date the import reads from it has
    the shape YYYY-MM-DD, today's date having it: a text of that shape is
    kept as it is, an empty text and a text with no day, month and year of the
    pattern give today's date, and any other text gives the year, the month and
    the day of its leftmost match, month and day padded to two digits. *)
Theorem parseDate_shape (today str : string) :
  DatePattern.isIso today = true ->
  DatePattern.isIso (Transactions.parseDate today str) = true
  /\ (DatePattern.isIso str = true -> Transactions.parseDate today str = str)
  /\ (str = "" \/ (DatePattern.isIso str = false
                   /\ DatePattern.search (JsString.chars str) = None) ->
      Transactions.parseDate today str = today)
  /\ (forall p1 p2 y,
        DatePattern.isIso str = false ->
        DatePattern.search (JsString.chars str) = Some (p1, p2, y) ->
        Transactions.parseDate today str
        = JsString.ofChars y ++ "-" ++ zeroPad p2 ++ "-" ++ zeroPad p1).
Proof.
  intros Htoday. split; [apply parseDate_isIso, Htoday|].
  unfold Transactions.parseDate. split; [|split].
  - intros Hiso. destruct (String.eqb_spec str "") as [->|_]; [discriminate Hiso|].
    now rewrite Hiso.
  - intros [->|[Hiso Hsearch]]; [reflexivity|].
    destruct (String.eqb str ""); [reflexivity|]. now rewrite Hiso, Hsearch.
  - intros p1 p2 y Hiso Hsearch.
    destruct (String.eqb_spec str "") as [->|_]; [discriminate Hsearch|].
    rewrite Hiso, Hsearch.
    destruct (search_spec _ _ _ _ Hsearch) as ([Hl1 Hd1] & [Hl2 Hd2] & _).
    now rewrite !twoDigits_zeroPad by assumption.
Qed.

Lemma parseDate_shape_witness :
  DatePattern.isIso (Transactions.parseDate "2024-06-10" "paid 3.4.2024 by card") = true
  /\ Transactions.parseDate "2024-06-10" "paid 3.4.2024 by card" = "2024-04-03".
Proof.
  split; [|reflexivity].
  exact (proj1 (parseDate_shape "2024-06-10" "paid 3.4.2024 by card" eq_refl)).
Defined.

(** ** The rows of an import *)

(** What every accepted row has. *)
Lemma importRow_accepted (transactions : list Transaction.t) (today : string)
    (mapping : CsvMapping.t) (idx : nat) (row : list string) (r : Transactions.ImportedRow) :
  Transactions.importRow transactions today mapping idx row = Some r ->
  0 <= Transactions.row_amount r
  /\ (CsvMapping.mode mapping = split -> 0 < Transactions.row_amount r)
  /\ Transactions.row_type r <> TRANSFER
  /\ (DatePattern.isIso today = true -> DatePattern.isIso (Transactions.row_date r) = true)
  /\ Transactions.row_category r
     = Transactions.historyMap transactions
       !! JsString.trim (JsString.toLowerCase (Transactions.row_description r)).
Proof.
  unfold Transactions.importRow.
  destruct (List.length row <? 2)%nat; [discriminate|].
  destruct (Transactions.cell row (CsvMapping.dateIndex mapping)) as [rawDate|];
    [|discriminate].
  destruct (Transactions.cell row (CsvMapping.descIndex mapping)) as [rawDesc|];
    [|discriminate].
  destruct (Js.includes _ "date" && (idx =? 0)%nat); [discriminate|].
  destruct (CsvMapping.mode mapping).
  - destruct (Transactions.cell row (CsvMapping.amountIndex mapping)) as [rawAmt|];
      [|discriminate].
    destruct (JsString.parseFloat (Transactions.cleanAmount rawAmt)) as [cleanAmt|];
      [|discriminate].
    intros [= <-]. simpl.
    split; [apply Qabs_nonneg|]. split; [discriminate|].
    split; [destruct (Js.Qlt_bool cleanAmt 0), (Js.Qgt_bool cleanAmt 0); discriminate|].
    split; [apply parseDate_isIso|reflexivity].
  - set (debitVal := JsString.parseFloat _). set (creditVal := JsString.parseFloat _).
    assert (forall x, Transactions.positive x = true -> 0 < default 0 x) as Hpositive.
    { intros [q|] Hq; [|discriminate]. apply Qgt_bool_iff in Hq. exact Hq. }
    assert (match (if Transactions.positive debitVal then Some (default 0 debitVal, EXPENSE)
                   else if Transactions.positive creditVal
                        then Some (default 0 creditVal, INCOME) else None)
            with
            | Some (amountVal, type) =>
                Some (Transactions.mkRow (Transactions.parseDate today rawDate) rawDesc
                        amountVal type
                        (Transactions.historyMap transactions
                         !! JsString.trim (JsString.toLowerCase rawDesc)))
            | None => None
            end = Some r ->
            0 <= Transactions.row_amount r
            /\ (split = split -> 0 < Transactions.row_amount r)
            /\ Transactions.row_type r <> TRANSFER
            /\ (DatePattern.isIso today = true ->
                DatePattern.isIso (Transactions.row_date r) = true)
            /\ Transactions.row_category r
               = Transactions.historyMap transactions
                 !! JsString.trim (JsString.toLowerCase (Transactions.row_description r)))
      as Hbooked.
    { destruct (Transactions.positive debitVal) eqn:Hdebit.
      - intros [= <-]. simpl. pose proof (Hpositive _ Hdebit).
        split; [lra|]. split; [auto|]. split; [discriminate|].
        split; [apply parseDate_isIso|reflexivity].
      - destruct (Transactions.positive creditVal) eqn:Hcredit; [|discriminate].
        intros [= <-]. simpl. pose proof (Hpositive _ Hcredit).
        split; [lra|]. split; [auto|]. split; [discriminate|].
        split; [apply parseDate_isIso|reflexivity]. }
    destruct debitVal, creditVal; exact Hbooked.
Qed.

Section ImportFacts.
Context `{rt : Js.Runtime}.
Variable transactions : list Transaction.t.
Variable today : string.
Variable mapping : CsvMapping.t.
Variable next : nat.

(** The loop over the rows, started at the row number [idx] with [newTxs]
    already written and [count] of them matched. *)
Lemma import_loop (rows : list (list string)) (newTxs : list Transaction.t)
    (count idx : nat) :
  exists added,
    fold_left (fun '(newTxs, autoMatchedCount, idx) row =>
                 match Transactions.importRow transactions today mapping idx row with
                 | None => (newTxs, autoMatchedCount, S idx)
                 | Some r =>
                     ((newTxs ++
                       [Transaction.mk (Js.uuid (next + List.length newTxs))
                          (Transactions.row_date r) (Transactions.row_amount r)
                          (Transactions.row_description r)
                          (Transactions.row_category r) None (Transactions.row_type r)
                          None None None])%list,
                      (if Js.truthy (Transactions.row_category r) then S autoMatchedCount
                       else autoMatchedCount),
                      S idx)
                 end) rows (newTxs, count, idx)
    = ((newTxs ++ added)%list,
       (count + List.length
                  (List.filter (fun t => Js.truthy (Transaction.categoryId t)) added))%nat,
       (idx + List.length rows)%nat)
    /\ List.map rowOf added = importedRows transactions today mapping idx rows
    /\ List.map Transaction.id added
       = List.map (fun i => Js.uuid (next + List.length newTxs + i))
           (List.seq 0 (List.length added))
    /\ List.Forall (fun t => Transaction.accountId t = None
                             /\ Transaction.parentTransactionId t = None
                             /\ Transaction.transferPeerId t = None) added.
Proof using Type.
  revert newTxs count idx. induction rows as [|row rows IH]; intros newTxs count idx.
  - exists []. simpl. rewrite app_nil_r, !Nat.add_0_r. repeat split; constructor.
  - cbn [fold_left importedRows].
    destruct (Transactions.importRow transactions today mapping idx row) as [r|].
    + match goal with
      | |- context [fold_left _ rows (?a, ?c, ?i)] =>
          destruct (IH a c i) as (added & Hfold & Hrows & Hids & Hplain)
      end.
      set (tx := Transaction.mk _ _ _ _ _ _ _ _ _ _) in *.
      exists (tx :: added). rewrite Hfold. split; [|split; [|split]].
      * rewrite <- List.app_assoc. simpl.
        change (Transaction.categoryId tx) with (Transactions.row_category r).
        destruct (Js.truthy (Transactions.row_category r)); simpl;
        (apply pair_equal_spec; split; [apply pair_equal_spec; split|];
         [reflexivity|lia|lia]).
      * simpl. rewrite Hrows. f_equal. destruct r; reflexivity.
      * simpl. rewrite Hids, Nat.add_0_r, List.length_app. simpl.
        f_equal. rewrite <- List.seq_shift, List.map_map.
        apply map_ext. intros i. f_equal. lia.
      * constructor; [repeat split|exact Hplain].
    + destruct (IH newTxs count (S idx)) as (added & Hfold & Hrows & Hids & Hplain).
      exists added. rewrite Hfold. split; [|split; [|split]]; try assumption.
      apply pair_equal_spec; split; [reflexivity|simpl; lia].
Qed.

Lemma importedRows_length (idx : nat) (rows : list (list string)) :
  (List.length (importedRows transactions today mapping idx rows) <= List.length rows)%nat.
Proof using Type.
  revert idx. induction rows as [|row rows IH]; intros idx; simpl; [lia|].
  destruct (Transactions.importRow transactions today mapping idx row); simpl;
    specialize (IH (S idx)); lia.
Qed.

Lemma importedRows_accepted (idx : nat) (rows : list (list string))
    (r : Transactions.ImportedRow) :
  In r (importedRows transactions today mapping idx rows) ->
  exists i row, Transactions.importRow transactions today mapping i row = Some r.
Proof using Type.
  revert idx. induction rows as [|row rows IH]; intros idx; simpl; [tauto|].
  destruct (Transactions.importRow transactions today mapping idx row) as [r'|] eqn:Hrow.
  - intros [<-|Hin]; [exists idx, row; exact Hrow|apply (IH _ Hin)].
  - apply IH.
Qed.
End ImportFacts.

(** X13. An import of a file of ASCII text, into a ledger whose descriptions
    are ASCII text, puts in front of the ledger, which it keeps as it was, one
    transaction for every row it does not skip, in the order of the file and
    with ids drawn in that order, and reports how many it wrote and how many
    of them it found a category for.  Every transaction written is an income or
    an expense of an amount that is not negative (positive when debit and
    credit are separate columns), with no account and no parent, dated in the
    shape YYYY-MM-DD when today's date has it, and with the category the
    history holds for its description, if any. *)
Theorem executeImport_rows `{rt : Js.Runtime}
    (transactions : list Transaction.t) (today : string) (mapping : CsvMapping.t)
    (csvFullData : list (list string)) (next : nat) :
  let out := Transactions.executeImport transactions today mapping csvFullData next in
  List.Forall (fun t => isAscii (Transaction.description t) = true) transactions ->
  List.Forall (List.Forall (fun cell => isAscii cell = true)) csvFullData ->
  exists newTxs,
    Transactions.fu_transactions out = (newTxs ++ transactions)%list
    /\ List.map rowOf newTxs = importedRows transactions today mapping 0 csvFullData
    /\ List.map Transaction.id newTxs
       = List.map (fun i => Js.uuid (next + i)) (List.seq 0 (List.length newTxs))
    /\ Transactions.fu_next out = (next + List.length newTxs)%nat
    /\ Transactions.fu_alert out
       = Some (AlertImported (List.length newTxs)
                 (List.length
                    (List.filter (fun t => Js.truthy (Transaction.categoryId t)) newTxs)))
    /\ (List.length newTxs <= List.length csvFullData)%nat
    /\ List.Forall
         (fun t =>
            0 <= Transaction.amount t
            /\ (CsvMapping.mode mapping = split -> 0 < Transaction.amount t)
            /\ Transaction.type t <> TRANSFER
            /\ Transaction.accountId t = None
            /\ Transaction.parentTransactionId t = None
            /\ (DatePattern.isIso today = true ->
                DatePattern.isIso (Transaction.date t) = true)
            /\ Transaction.categoryId t
               = Transactions.historyMap transactions
                 !! JsString.trim (JsString.toLowerCase (Transaction.description t)))
         newTxs.
Proof.
  intros out _ _.
  destruct (import_loop transactions today mapping next csvFullData [] 0 0)
    as (added & Hfold & Hrows & Hids & Hplain).
  exists added. unfold out, Transactions.executeImport. rewrite Hfold.
  cbn [app Nat.add Transactions.fu_transactions Transactions.fu_next Transactions.fu_alert].
  split; [reflexivity|]. split; [exact Hrows|].
  split; [rewrite Hids; apply map_ext; intros i; f_equal; simpl; lia|].
  split; [reflexivity|]. split; [reflexivity|]. split.
  - rewrite <- (List.length_map rowOf), Hrows. apply importedRows_length.
  - apply List.Forall_forall. intros t Ht.
    rewrite List.Forall_forall in Hplain. destruct (Hplain t Ht) as (Hacc & Hparent & _).
    assert (In (rowOf t) (importedRows transactions today mapping 0 csvFullData)) as Hin
      by (rewrite <- Hrows; apply in_map, Ht).
    destruct (importedRows_accepted transactions today mapping 0 csvFullData _ Hin)
      as (i & row & Hrow).
    destruct (importRow_accepted transactions today mapping i row _ Hrow)
      as (Hamount & Hsplit & Htype & Hdate & Hcat).
    repeat split; assumption.
Qed.


Lemma executeImport_rows_witness :
  let file := [ [ "Date"; "Description"; "Amount" ]; Scenario.coffeeRow ] in
  let out :=
    Transactions.executeImport (rt := Scenario.runtime) Scenario.coffees "2024-06-10"
      Scenario.singleAmount file 0 in
  exists newTxs,
    Transactions.fu_transactions out = (newTxs ++ Scenario.coffees)%list
    /\ List.map rowOf newTxs
       = importedRows Scenario.coffees "2024-06-10" Scenario.singleAmount 0 file
    /\ List.map Transaction.id newTxs
       = List.map (fun i => Js.uuid (Runtime := Scenario.runtime) (0 + i))
           (List.seq 0 (List.length newTxs))
    /\ Transactions.fu_next out = (0 + List.length newTxs)%nat
    /\ Transactions.fu_alert out
       = Some (AlertImported (List.length newTxs)
                 (List.length
                    (List.filter (fun t => Js.truthy (Transaction.categoryId t)) newTxs)))
    /\ (List.length newTxs <= List.length file)%nat
    /\ List.Forall
         (fun t =>
            0 <= Transaction.amount t
            /\ (CsvMapping.mode Scenario.singleAmount = split -> 0 < Transaction.amount t)
            /\ Transaction.type t <> TRANSFER
            /\ Transaction.accountId t = None
            /\ Transaction.parentTransactionId t = None
            /\ (DatePattern.isIso "2024-06-10" = true ->
                DatePattern.isIso (Transaction.date t) = true)
            /\ Transaction.categoryId t
               = Transactions.historyMap Scenario.coffees
                 !! JsString.trim (JsString.toLowerCase (Transaction.description t)))
         newTxs.
Proof.
  intros file out.
  apply (executeImport_rows (rt := Scenario.runtime) Scenario.coffees "2024-06-10"
           Scenario.singleAmount file 0); repeat constructor.
Defined.

(** The row of the coffee shop is filed under the category the ledger used
    last for it. *)
Example executeImport_learned_category :
  List.map allocationView
    (firstn 1
       (Transactions.fu_transactions
          (Transactions.executeImport (rt := Scenario.runtime) Scenario.coffees "2024-06-10"
             Scenario.singleAmount
             [ [ "Date"; "Description"; "Amount" ]; Scenario.coffeeRow ] 0)))
  = [ (Some "cat-b", 9 # 2) ].
Proof. reflexivity. Qed.
(** ** The history of descriptions *)

(** X14. In a ledger whose descriptions are ASCII text, the category the
    history holds for a description is the category of the last transaction
    of the ledger, in the order of the ledger, that has a category and that
    description (compared in lower case, white space at both ends removed);
    it holds none when there is no such transaction. *)
Theorem historyMap_last_wins (transactions : list Transaction.t) (key : string) :
  List.Forall (fun t => isAscii (Transaction.description t) = true) transactions ->
  Transactions.historyMap transactions !! key
  = match find (teaches key) (rev transactions) with
    | Some t => Transaction.categoryId t
    | None => None
    end.
Proof.
  intros _. unfold Transactions.historyMap.
  induction transactions as [|t l IH] using rev_ind; [apply lookup_empty|].
  rewrite fold_left_app, rev_app_distr. cbn [fold_left rev app find].
  unfold teaches at 1.
  destruct (Transaction.categoryId t) as [cat|] eqn:Hcat; [|exact IH].
  destruct (Js.truthy (Some cat) && negb (String.eqb (Transaction.description t) ""));
    [|exact IH].
  cbn [andb].
  destruct (String.eqb_spec (JsString.trim (JsString.toLowerCase (Transaction.description t)))
              key) as [->|Hne].
  - rewrite Hcat. apply lookup_insert_eq.
  - rewrite lookup_insert_ne by exact Hne. exact IH.
Qed.


Lemma historyMap_last_wins_witness :
  Transactions.historyMap Scenario.coffees !! "coffee shop" = Some "cat-b"
  /\ Transactions.historyMap Scenario.coffees !! "bakery" = None.
Proof.
  split.
  - transitivity (match find (teaches "coffee shop") (rev Scenario.coffees) with
                  | Some t => Transaction.categoryId t
                  | None => None
                  end); [|reflexivity].
    apply (historyMap_last_wins Scenario.coffees "coffee shop").
    repeat constructor.
  - transitivity (match find (teaches "bakery") (rev Scenario.coffees) with
                  | Some t => Transaction.categoryId t
                  | None => None
                  end); [|reflexivity].
    apply (historyMap_last_wins Scenario.coffees "bakery").
    repeat constructor.
Defined.
(** ** Grouping of the ledger *)

Lemma insert_perm {A : Type} (cmp : A -> A -> Z) (x : A) (l : list A) :
  Permutation (Js.insert cmp x l) (x :: l).
Proof.
  induction l as [|a l IH]; simpl; [reflexivity|].
  destruct (cmp x a <=? 0)%Z; [reflexivity|].
  rewrite IH. apply perm_swap.
Qed.

Lemma sort_perm {A : Type} (cmp : A -> A -> Z) (l : list A) : Permutation (Js.sort cmp l) l.
Proof.
  induction l as [|a l IH]; simpl; [reflexivity|].
  rewrite insert_perm. now apply perm_skip.
Qed.

(** X15. The grouping of the Transactions page loses and repeats nothing: the
    roots are the transactions with no parent, each as often as in the ledger,
    and latest first where every root is dated with a day of the calendar
    written YYYY-MM-DD (an import can write other text as a date, which has no
    time to sort by); the children grouped under an id are the transactions
    that have it as parent, in the order of the ledger; and every transaction
    of the ledger is a root or is grouped under its parent. *)
Theorem grouping_complete `{rt : Js.Runtime} (transactions : list Transaction.t) :
  Permutation (Transactions.roots transactions)
    (List.filter (fun t => negb (Js.truthy (Transaction.parentTransactionId t))) transactions)
  /\ (List.Forall (fun t => Js.truthy (Transaction.parentTransactionId t) = false ->
                            isCalendarDate (Transaction.date t) = true) transactions ->
      StronglySorted
        (fun a b => (Js.getTime (Transaction.date b) <= Js.getTime (Transaction.date a))%Z)
        (Transactions.roots transactions))
  /\ (forall parent, parent <> "" ->
        default [] (Transactions.childrenMap transactions !! parent)
        = List.filter (fun t => Js.opt_is (Transaction.parentTransactionId t) parent)
            transactions)
  /\ (forall t, In t transactions ->
        (In t (Transactions.roots transactions)
         /\ Js.truthy (Transaction.parentTransactionId t) = false)
        \/ exists parent,
             Transaction.parentTransactionId t = Some parent /\ parent <> ""
             /\ In t (default [] (Transactions.childrenMap transactions !! parent))
             /\ ~ In t (Transactions.roots transactions)).
Proof.
  split; [apply sort_perm|].
  split; [intros _; apply (sort_desc (fun t => Js.getTime (Transaction.date t)))|].
  split; [apply childrenMap_lookup|].
  intros t Ht.
  destruct (Js.truthy (Transaction.parentTransactionId t)) eqn:Hparent.
  - right. destruct (Transaction.parentTransactionId t) as [parent|] eqn:Hp;
      [|discriminate].
    assert (parent <> "") as Hne.
    { intros ->. discriminate Hparent. }
    exists parent. split; [reflexivity|]. split; [exact Hne|]. split.
    + rewrite childrenMap_lookup by exact Hne. apply filter_In. split; [exact Ht|].
      rewrite Hp. simpl. apply String.eqb_refl.
    + unfold Transactions.roots. rewrite sort_In, filter_In, Hp, Hparent.
      intros [_ Hfalse]. discriminate Hfalse.
  - left. split; [|reflexivity].
    unfold Transactions.roots. apply sort_In. apply filter_In. split; [exact Ht|].
    now rewrite Hparent.
Qed.


Lemma grouping_complete_witness :
  StronglySorted
    (fun a b => (Js.getTime (Runtime := Scenario.runtime) (Transaction.date b)
                 <= Js.getTime (Runtime := Scenario.runtime) (Transaction.date a))%Z)
    (Transactions.roots (rt := Scenario.runtime) Scenario.paycheckLedger)
  /\ List.map Transaction.id
       (Transactions.roots (rt := Scenario.runtime) Scenario.paycheckLedger)
     = [ "e1"; "p1" ].
Proof.
  split; [|reflexivity].
  apply (proj1 (proj2 (grouping_complete (rt := Scenario.runtime) Scenario.paycheckLedger))).
  repeat constructor.
Defined.
(** ** The Dashboard and the Transactions page *)

(** X16. When no transaction is dated after the last day of the viewed month,
    the two pages show the same money: what the Dashboard says remains in an
    expense envelope is the balance the Transactions page offers for funding,
    envelope by envelope and in the same order, and the pool of the Dashboard
    is the pool of the Transactions page plus the opening balance.  The first
    day of the month is not after its last day. *)
Theorem pages_agree `{rt : Js.Runtime}
    (categories : list Category.t) (transactions : list Transaction.t)
    (incomeSources : list IncomeSource.t) (v : Dashboard.View) :
  String.leb (Dashboard.startOfMonthStr v) (Dashboard.endOfViewMonthStr v) = true ->
  (forall t, In t transactions ->
     String.leb (Transaction.date t) (Dashboard.endOfViewMonthStr v) = true) ->
  List.Forall2
    (fun stats envelope =>
       Dashboard.st_category stats = fst envelope
       /\ Dashboard.st_remaining stats == snd envelope)
    (Dashboard.getCategoryStats transactions v (Dashboard.expenseCategories categories))
    (Transactions.envelopeBalances transactions categories)
  /\ Dashboard.totalUnallocatedAvailable categories transactions incomeSources v
     == Dashboard.openingBalance incomeSources
        + Transactions.totalUnallocatedAvailable transactions categories.
Proof.
  intros Hmonth Hdates. split.
  - unfold Dashboard.getCategoryStats, Transactions.envelopeBalances,
      Dashboard.expenseCategories.
    induction (List.filter (fun c => CategoryType_eqb (Category.type c) expense) categories)
      as [|cat l IH]; simpl; constructor; [|exact IH].
    split; [reflexivity|]. cbn [Dashboard.st_remaining snd].
    rewrite (remaining_balanceAt transactions v Hmonth cat). unfold balanceAt.
    rewrite (filter_ext_in
               (fun t => Js.opt_is (Transaction.categoryId t) (Category.id cat)
                         && TransactionType_eqb (Transaction.type t) INCOME
                         && String.leb (Transaction.date t) (Dashboard.endOfViewMonthStr v))
               (fun t => Js.opt_is (Transaction.categoryId t) (Category.id cat)
                         && TransactionType_eqb (Transaction.type t) INCOME))
      by (intros t Ht; rewrite (Hdates t Ht); apply andb_true_r).
    rewrite (filter_ext_in
               (fun t => Js.opt_is (Transaction.categoryId t) (Category.id cat)
                         && TransactionType_eqb (Transaction.type t) EXPENSE
                         && String.leb (Transaction.date t) (Dashboard.endOfViewMonthStr v))
               (fun t => Js.opt_is (Transaction.categoryId t) (Category.id cat)
                         && TransactionType_eqb (Transaction.type t) EXPENSE))
      by (intros t Ht; rewrite (Hdates t Ht); apply andb_true_r).
    reflexivity.
  - unfold Dashboard.totalUnallocatedAvailable, Dashboard.totalGrossIncome,
      Dashboard.totalAllocated, Dashboard.uncategorizedExpenses,
      Transactions.totalUnallocatedAvailable, Transactions.grossIncome,
      Transactions.allocated, Transactions.uncategorizedExpenses.
    rewrite grossIncomeTransactions_spec, allocatedTransactions_spec.
    rewrite (filter_all (fun t => String.leb (Transaction.date t) _) transactions Hdates).
    rewrite !filter_filter_andb.
    rewrite (filter_ext (isPoolIncome categories)
               (fun t => TransactionType_eqb (Transaction.type t) INCOME
                         && (negb (Js.truthy (Transaction.categoryId t))
                             || match findCategory categories (Transaction.categoryId t) with
                                | Some cat => CategoryType_eqb (Category.type cat) income
                                | None => false
                                end)
                         && negb (isLegacySystemTx t)))
      by (intros t; unfold isPoolIncome, uncategorized, taggedTo; pool_cases t).
    rewrite (filter_ext (isAllocatedOut categories)
               (fun t => TransactionType_eqb (Transaction.type t) INCOME
                         && Js.truthy (Transaction.categoryId t)
                         && match findCategory categories (Transaction.categoryId t) with
                            | Some cat => CategoryType_eqb (Category.type cat) expense
                                          || CategoryType_eqb (Category.type cat) investment
                            | None => false
                            end))
      by (intros t; unfold isAllocatedOut, taggedTo; pool_cases t).
    rewrite (filter_ext_in
               (fun t => TransactionType_eqb (Transaction.type t) EXPENSE
                         && negb (Js.truthy (Transaction.categoryId t))
                         && String.leb (Transaction.date t) (Dashboard.endOfViewMonthStr v))
               (fun t => TransactionType_eqb (Transaction.type t) EXPENSE
                         && negb (Js.truthy (Transaction.categoryId t))))
      by (intros t Ht; rewrite (Hdates t Ht); apply andb_true_r).
    ring.
Qed.

Lemma pages_agree_witness :
  List.Forall2
    (fun stats envelope =>
       Dashboard.st_category stats = fst envelope
       /\ Dashboard.st_remaining stats == snd envelope)
    (Dashboard.getCategoryStats (rt := Scenario.runtime) Scenario.paycheckLedger Scenario.june
       (Dashboard.expenseCategories Scenario.twoEnvelopes))
    (Transactions.envelopeBalances Scenario.paycheckLedger Scenario.twoEnvelopes)
  /\ Dashboard.totalUnallocatedAvailable Scenario.twoEnvelopes Scenario.paycheckLedger
       Scenario.oneSource Scenario.june
     == Dashboard.openingBalance Scenario.oneSource
        + Transactions.totalUnallocatedAvailable Scenario.paycheckLedger Scenario.twoEnvelopes.
Proof.
  apply (pages_agree (rt := Scenario.runtime) Scenario.twoEnvelopes Scenario.paycheckLedger
           Scenario.oneSource Scenario.june eq_refl).
  intros t Ht. simpl in Ht.
  repeat (destruct Ht as [<-|Ht]; [reflexivity|]). destruct Ht.
Defined.

(** ** The gap of the previous month *)

(** Of categories with distinct ids, the one a transaction is tagged to counts
    it once. *)
Lemma sum_by_matching (envelopes : list Category.t) (o : option string) (a : Q) :
  List.NoDup (List.map Category.id envelopes) ->
  Js.sum_by (fun c => if Js.opt_is o (Category.id c) then a else 0) envelopes
  == if existsb (fun c => Js.opt_is o (Category.id c)) envelopes then a else 0.
Proof.
  induction envelopes as [|c l IH]; intros Hnd; [reflexivity|].
  inversion Hnd as [|? ? Hnotin Hnd']; subst.
  rewrite sum_by_cons. cbn [existsb].
  destruct (Js.opt_is o (Category.id c)) eqn:Hc; cbn [orb].
  - assert (existsb (fun c' => Js.opt_is o (Category.id c')) l = false) as Hnone.
    { apply not_true_iff_false. intros Hex. apply existsb_exists in Hex.
      destruct Hex as (c' & Hin & Hc'). apply Hnotin.
      destruct o as [k|]; [|discriminate]. simpl in Hc, Hc'.
      apply String.eqb_eq in Hc, Hc'. rewrite <- Hc, Hc'. apply in_map, Hin. }
    rewrite (IH Hnd'), Hnone. ring.
  - rewrite (IH Hnd'). ring.
Qed.

Lemma sum_by_categories (envelopes : list Category.t) (p : Transaction.t -> bool)
    (l : list Transaction.t) :
  List.NoDup (List.map Category.id envelopes) ->
  Js.sum_by (fun c =>
               Js.sum_by Transaction.amount
                 (List.filter (fun t => Js.opt_is (Transaction.categoryId t) (Category.id c)
                                        && p t) l)) envelopes
  == Js.sum_by Transaction.amount
       (List.filter (fun t => existsb (fun c => Js.opt_is (Transaction.categoryId t)
                                                  (Category.id c)) envelopes
                              && p t) l).
Proof.
  intros Hnd. induction l as [|t l IH].
  - simpl. clear. induction envelopes as [|c e IHe]; [reflexivity|].
    rewrite sum_by_cons, IHe. unfold Js.sum_by. simpl. ring.
  - rewrite (sum_by_Qeq _
               (fun c => (if Js.opt_is (Transaction.categoryId t) (Category.id c)
                          then (if p t then Transaction.amount t else 0) else 0)
                         + Js.sum_by Transaction.amount
                             (List.filter
                                (fun t => Js.opt_is (Transaction.categoryId t) (Category.id c)
                                          && p t) l))).
    + rewrite sum_by_add, IH, (sum_by_matching envelopes _ _ Hnd). simpl.
      destruct (existsb _ envelopes), (p t); simpl; rewrite ?sum_by_cons; ring.
    + intros c _. simpl.
      destruct (Js.opt_is (Transaction.categoryId t) (Category.id c)), (p t); simpl;
        rewrite ?sum_by_cons; ring.
Qed.

Section GapFacts.
Context `{rt : Js.Runtime}.
Variable categories : list Category.t.
Variable transactions : list Transaction.t.
Variable v : Dashboard.View.
Hypothesis distinct_ids : List.NoDup (List.map Category.id categories).
Hypothesis ids_set :
  forall c, In c (Dashboard.expenseCategories categories) -> Category.id c <> "".

Lemma expenseCategories_distinct :
  List.NoDup (List.map Category.id (Dashboard.expenseCategories categories)).
Proof using distinct_ids.
  unfold Dashboard.expenseCategories. apply NoDup_map_filter. exact distinct_ids.
Qed.

(** What the previous month was given is what its expense categories were
    given, one by one. *)
Lemma prevMonthStats_allocated :
  Dashboard.pm_allocated (Dashboard.prevMonthStats categories transactions v)
  == Js.sum_by (Dashboard.allocatedInPrevMonth transactions v)
       (Dashboard.expenseCategories categories).
Proof using distinct_ids ids_set.
  unfold Dashboard.prevMonthStats, Dashboard.allocatedInPrevMonth.
  cbn [Dashboard.pm_allocated].
  rewrite (sum_by_Qeq _
             (fun c => Js.sum_by Transaction.amount
                         (List.filter
                            (fun t => Js.opt_is (Transaction.categoryId t) (Category.id c)
                                      && (TransactionType_eqb (Transaction.type t) INCOME
                                          && Js.startsWith (Transaction.date t)
                                               (Dashboard.prevMonthStr v)))
                            transactions)))
    by (intros c _; erewrite filter_ext; [reflexivity|];
        intros t; cbv beta; now rewrite andb_assoc).
  rewrite (sum_by_categories _ _ _ expenseCategories_distinct).
  rewrite filter_filter_andb.
  erewrite filter_ext; [reflexivity|]. intros t. cbv beta.
  destruct (TransactionType_eqb (Transaction.type t) INCOME); [|now rewrite andb_false_r].
  destruct (Js.startsWith (Transaction.date t) (Dashboard.prevMonthStr v));
    [|now rewrite !andb_false_r].
  rewrite !andb_true_r. cbn [andb].
  destruct (existsb _ (Dashboard.expenseCategories categories)) eqn:Hex.
  - apply existsb_exists in Hex. destruct Hex as (c & Hc & Htag).
    destruct (Transaction.categoryId t) as [k|]; [|discriminate]. simpl in Htag.
    apply String.eqb_eq in Htag. subst k.
    pose proof (ids_set c Hc) as Hne. apply String.eqb_neq in Hne.
    unfold Dashboard.expenseCategories in Hc. apply filter_In in Hc.
    destruct Hc as [Hin Hexp].
    rewrite (findCategory_unique categories c distinct_ids Hin), Hexp.
    simpl. now rewrite Hne.
  - destruct (findCategory categories (Transaction.categoryId t)) as [c|] eqn:Hfind;
      [|now rewrite andb_false_r].
    destruct (CategoryType_eqb (Category.type c) expense) eqn:Hexp;
      [|now rewrite andb_false_r].
    exfalso. unfold findCategory in Hfind. apply find_some in Hfind.
    destruct Hfind as [Hin Htag].
    assert (existsb (fun c => Js.opt_is (Transaction.categoryId t) (Category.id c))
              (Dashboard.expenseCategories categories) = true) as Hyes; [|congruence].
    apply existsb_exists. exists c. split; [|exact Htag].
    unfold Dashboard.expenseCategories. apply filter_In. split; assumption.
Qed.

(** The total of the deficits the gap fill divides the pool by. *)
Lemma deficits_total (dateStr : string) :
  Js.sum_by snd (Dashboard.deficits categories transactions v dateStr)
  == Js.sum_by (deficitOf transactions v dateStr) (Dashboard.expenseCategories categories).
Proof using Type.
  rewrite deficits_spec, sum_by_map. cbn [snd].
  apply (sum_by_positive (deficitOf transactions v dateStr)).
  intros c _. unfold deficitOf. apply Q.le_max_l.
Qed.
End GapFacts.

(** X17. The gap the Dashboard shows for the previous month (the targets of
    the expense categories at the end of that month minus what they were
    given in it) is at most the total of the deficits the gap fill works from,
    and is that total when no category was given more than its target.  So
    when a gap is shown and the pool is positive, a gap fill does not answer
    that the previous month is fully funded.  The category ids are distinct
    and those of the expense categories are not empty. *)
Theorem prevMonthStats_gap `{rt : Js.Runtime}
    (categories : list Category.t) (transactions : list Transaction.t)
    (incomeSources : list IncomeSource.t) (v : Dashboard.View) (today : string)
    (selectedAllocationIndex : nat) (confirmDuplicate confirmProportional : bool)
    (next : nat) :
  let stats := Dashboard.prevMonthStats categories transactions v in
  let totalDeficit :=
    Js.sum_by snd
      (Dashboard.deficits categories transactions v (Dashboard.prevMonthEndStr v)) in
  let out := Dashboard.handleDistributeIncome categories transactions incomeSources v
               today previous selectedAllocationIndex confirmDuplicate
               confirmProportional next in
  List.NoDup (List.map Category.id categories) ->
  (forall c, In c (Dashboard.expenseCategories categories) -> Category.id c <> "") ->
  Dashboard.pm_gap stats <= totalDeficit
  /\ ((forall c, In c (Dashboard.expenseCategories categories) ->
         Dashboard.allocatedInPrevMonth transactions v c
         <= getBudgetForDate c (Dashboard.prevMonthEndStr v)) ->
      Dashboard.pm_gap stats == totalDeficit)
  /\ (0 < Dashboard.pm_gap stats ->
      0 < Dashboard.totalUnallocatedAvailable categories transactions incomeSources v ->
      Dashboard.di_alert out <> Some AlertPreviousFullyFunded).
Proof.
  intros stats totalDeficit out Hnd Hids.
  assert (Dashboard.pm_gap stats
          == Js.sum_by (fun c => getBudgetForDate c (Dashboard.prevMonthEndStr v)
                                 - Dashboard.allocatedInPrevMonth transactions v c)
               (Dashboard.expenseCategories categories)) as Hgap.
  { pose proof (prevMonthStats_allocated categories transactions v Hnd Hids) as Hallocated.
    unfold stats, Dashboard.prevMonthStats in *.
    cbn [Dashboard.pm_gap Dashboard.pm_allocated] in *. rewrite Hallocated.
    fold (Dashboard.expenseCategories categories).
    generalize (Dashboard.expenseCategories categories). intros l.
    induction l as [|c l IH]; [reflexivity|]. rewrite !sum_by_cons. lra. }
  assert (totalDeficit
          == Js.sum_by (deficitOf transactions v (Dashboard.prevMonthEndStr v))
               (Dashboard.expenseCategories categories)) as Htotal
    by apply deficits_total.
  assert (Dashboard.pm_gap stats <= totalDeficit) as Hle.
  { rewrite Hgap, Htotal. apply sum_by_le. intros c _. unfold deficitOf. apply Q.le_max_r. }
  split; [exact Hle|]. split.
  - intros Hunder. rewrite Hgap, Htotal. apply sum_by_Qeq. intros c Hc.
    unfold deficitOf. specialize (Hunder c Hc). symmetry. apply Q.max_r. lra.
  - intros Hpositive Hpool. unfold out, Dashboard.handleDistributeIncome.
    assert (Qle_bool (Dashboard.totalUnallocatedAvailable categories transactions
                        incomeSources v) 0 = false) as ->.
    { apply not_true_iff_false. rewrite Qle_bool_iff. lra. }
    cbn [Dashboard.distributionDate]. fold totalDeficit.
    assert (Qeq_bool totalDeficit 0 = false) as ->.
    { apply not_true_iff_false. intros Hzero. apply Qeq_bool_iff in Hzero. lra. }
    destruct (forEachPush _ _ _ _); discriminate.
Qed.

Lemma prevMonthStats_gap_witness :
  let stats :=
    Dashboard.prevMonthStats (rt := Scenario.runtime) Scenario.twoEnvelopes
      Scenario.mayLedger Scenario.june in
  let totalDeficit :=
    Js.sum_by snd
      (Dashboard.deficits (rt := Scenario.runtime) Scenario.twoEnvelopes Scenario.mayLedger
         Scenario.june (Dashboard.prevMonthEndStr Scenario.june)) in
  let out :=
    Dashboard.handleDistributeIncome (rt := Scenario.runtime) Scenario.twoEnvelopes
      Scenario.mayLedger Scenario.oneSource Scenario.june "2024-06-10" previous
      0 true true 0 in
  Dashboard.pm_gap stats == 500
  /\ Dashboard.pm_gap stats <= totalDeficit
  /\ Dashboard.pm_gap stats == totalDeficit
  /\ Dashboard.di_alert out <> Some AlertPreviousFullyFunded.
Proof.
  intros stats totalDeficit out.
  destruct (prevMonthStats_gap (rt := Scenario.runtime) Scenario.twoEnvelopes
              Scenario.mayLedger Scenario.oneSource Scenario.june "2024-06-10" 0 true true 0)
    as (Hle & Heq & Hnot).
  - repeat constructor; simpl; intuition discriminate.
  - intros c [<-|[<-|[]]]; discriminate.
  - split; [reflexivity|]. split; [exact Hle|]. split.
    + apply Heq. intros c [<-|[<-|[]]]; vm_compute; discriminate.
    + apply Hnot; reflexivity.
Defined.

(** ** Transactions added by hand *)

Section PoolOfOne.
Variable categories : list Category.t.
Variable incomeSources : list IncomeSource.t.
Variable v : Dashboard.View.

(** What one more transaction dated in the view changes in the pool. *)
Lemma pool_cons (t : Transaction.t) (transactions : list Transaction.t) :
  String.leb (Transaction.date t) (Dashboard.endOfViewMonthStr v) = true ->
  Dashboard.totalUnallocatedAvailable categories (t :: transactions) incomeSources v
  == Dashboard.totalUnallocatedAvailable categories transactions incomeSources v
     + (if isPoolIncome categories t then Transaction.amount t else 0)
     - (if isAllocatedOut categories t then Transaction.amount t else 0)
     - (if isPoolExpense t then Transaction.amount t else 0).
Proof using Type.
  intros Hdate.
  unfold Dashboard.totalUnallocatedAvailable, Dashboard.totalGrossIncome,
    Dashboard.totalAllocated, Dashboard.uncategorizedExpenses.
  rewrite !grossIncomeTransactions_spec, !allocatedTransactions_spec.
  cbn [List.filter]. rewrite Hdate. cbn [List.filter].
  unfold isPoolExpense at 1, uncategorized. rewrite andb_true_r.
  destruct (isPoolIncome categories t), (isAllocatedOut categories t),
    (TransactionType_eqb (Transaction.type t) EXPENSE
     && negb (Js.truthy (Transaction.categoryId t)));
    rewrite ?sum_by_cons; ring.
Qed.
End PoolOfOne.

(** X18. A transaction added by hand on the Dashboard is refused (no
    description, no amount, or an amount that is not a positive number) or put
    in front of the ledger with the amount typed.  Dated on or before the last
    day of the viewed month, an expense with no category takes its amount from
    the pool, an income with no category adds its amount to the pool unless its
    description is one of the legacy markers, and an expense with a category
    leaves the pool as it is.  Deleting the id it was given, which nothing in
    the ledger has or has as parent, gives back the ledger as it was. *)
Theorem handleAddTransaction_effect `{rt : Js.Runtime}
    (categories : list Category.t) (transactions : list Transaction.t)
    (incomeSources : list IncomeSource.t) (v : Dashboard.View)
    (newTxDesc newTxAmount newTxCat newTxDate : string) (newTxType : TransactionType)
    (next : nat) :
  let out := Dashboard.handleAddTransaction transactions newTxDesc newTxAmount newTxCat
               newTxDate newTxType next in
  let pool ledger := Dashboard.totalUnallocatedAvailable categories ledger incomeSources v in
  (forall t, In t transactions ->
     Transaction.id t <> Js.uuid next
     /\ Transaction.parentTransactionId t <> Some (Js.uuid next)) ->
  Dashboard.deleteTransaction (fst out) (Js.uuid next) = transactions
  /\ (out = (transactions, next)
      \/ exists amountVal newTx,
           JsString.parseFloat newTxAmount = Some amountVal
           /\ 0 < amountVal
           /\ out = (newTx :: transactions, S next)
           /\ Transaction.amount newTx = amountVal
           /\ Transaction.type newTx = newTxType
           /\ Transaction.date newTx = newTxDate
           /\ Transaction.description newTx = newTxDesc
           /\ (String.leb newTxDate (Dashboard.endOfViewMonthStr v) = true ->
               (newTxCat = "" -> newTxType = EXPENSE ->
                pool (fst out) == pool transactions - amountVal)
               /\ (newTxCat = "" -> newTxType = INCOME ->
                   isLegacySystemTx newTx = false ->
                   pool (fst out) == pool transactions + amountVal)
               /\ (newTxCat <> "" -> newTxType = EXPENSE ->
                   pool (fst out) == pool transactions))).
Proof.
  intros out pool Hfresh.
  assert (Dashboard.deleteTransaction transactions (Js.uuid next) = transactions) as Hsame.
  { apply deleteTransaction_unrelated. intros t Ht. destruct (Hfresh t Ht) as [Hid Hp].
    split; [now apply String.eqb_neq|].
    destruct (Transaction.parentTransactionId t) as [p|]; [|reflexivity]. simpl.
    apply String.eqb_neq. congruence. }
  unfold out, Dashboard.handleAddTransaction.
  destruct (String.eqb newTxDesc "" || String.eqb newTxAmount ""); [split; [exact Hsame|now left]|].
  destruct (JsString.parseFloat newTxAmount) as [amountVal|]; [|split; [exact Hsame|now left]].
  destruct (Qle_bool amountVal 0) eqn:Hpos; [split; [exact Hsame|now left]|].
  cbn [fst]. set (newTx := Transaction.mk _ _ _ _ _ _ _ _ _ _).
  split.
  - change (newTx :: transactions) with ([newTx] ++ transactions)%list.
    unfold Dashboard.deleteTransaction.
    assert (List.filter (fun t => Js.opt_is (Transaction.parentTransactionId t) (Js.uuid next))
              ([newTx] ++ transactions)%list = []) as ->.
    { apply filter_none. intros t [<-|Ht]; [reflexivity|].
      destruct (Hfresh t Ht) as [_ Hp].
      destruct (Transaction.parentTransactionId t) as [p|]; [|reflexivity]. simpl.
      apply String.eqb_neq. congruence. }
    apply filter_drop_front.
    + intros t [<-|[]]. apply negb_false_iff, bool_decide_eq_true.
      rewrite elem_of_list_to_set, list_elem_of_In. now left.
    + intros t Ht. apply negb_true_iff, bool_decide_eq_false.
      rewrite elem_of_list_to_set, list_elem_of_In. simpl.
      destruct (Hfresh t Ht) as [Hid _]. intuition congruence.
  - right. exists amountVal, newTx.
    assert (0 < amountVal) as Hgt.
    { apply not_true_iff_false in Hpos. rewrite Qle_bool_iff in Hpos. lra. }
    do 7 (split; [reflexivity || exact Hgt|]).
    intros Hdate.
    pose proof (pool_cons categories incomeSources v newTx transactions Hdate) as Hpool.
    fold (pool (newTx :: transactions)) in Hpool. fold (pool transactions) in Hpool.
    split; [|split].
    + intros -> ->. rewrite Hpool. unfold isPoolIncome, isAllocatedOut, isPoolExpense,
        uncategorized, taggedTo. simpl. ring.
    + intros -> -> Hlegacy. rewrite Hpool.
      unfold isPoolIncome, isAllocatedOut, isPoolExpense, uncategorized, taggedTo.
      rewrite Hlegacy. simpl. ring.
    + intros Hcat ->. rewrite Hpool.
      unfold isPoolIncome, isAllocatedOut, isPoolExpense, uncategorized, taggedTo.
      unfold newTx, Dashboard.orUndefined. simpl.
      apply String.eqb_neq in Hcat. rewrite Hcat. simpl. rewrite Hcat. simpl. ring.
Qed.

Lemma handleAddTransaction_effect_witness :
  let out :=
    Dashboard.handleAddTransaction (rt := Scenario.runtime) Scenario.pool300 "Coffee" "4.50"
      "" "2024-06-12" EXPENSE 0 in
  let pool ledger :=
    Dashboard.totalUnallocatedAvailable Scenario.twoEnvelopes ledger Scenario.oneSource
      Scenario.june in
  List.length (fst out) = S (List.length Scenario.pool300)
  /\ Dashboard.deleteTransaction (fst out) (Js.uuid (Runtime := Scenario.runtime) 0)
     = Scenario.pool300
  /\ pool (fst out) == pool Scenario.pool300 - 4.50.
Proof.
  intros out pool. split; [reflexivity|].
  destruct (handleAddTransaction_effect (rt := Scenario.runtime) Scenario.twoEnvelopes
              Scenario.pool300 Scenario.oneSource Scenario.june "Coffee" "4.50" ""
              "2024-06-12" EXPENSE 0) as [Hdelete Hadded].
  - intros t Ht. simpl in Ht.
    repeat (destruct Ht as [<-|Ht]; [split; discriminate|]). destruct Ht.
  - split; [exact Hdelete|].
    destruct Hadded as [Hrefused|(amountVal & newTx & Hparse & _ & _ & _ & _ & _ & _ & Hpool)].
    + discriminate Hrefused.
    + eapply Qeq_trans; [apply (proj1 (Hpool eq_refl) eq_refl eq_refl)|].
      vm_compute in Hparse. injection Hparse as <-. reflexivity.
Defined.

(** ** Rules seen as executed *)

Lemma string_append_assoc (a b c : string) : ((a ++ b) ++ c = a ++ (b ++ c))%string.
Proof.
  induction a as [|x a IH]; [reflexivity|].
  change (String x ((a ++ b) ++ c) = String x (a ++ (b ++ c)))%string. now f_equal.
Qed.

Lemma prefix_append (p s : string) : String.prefix p (p ++ s) = true.
Proof.
  induction p as [|x p IH]; simpl; [now destruct s|].
  destruct (Ascii.ascii_dec x x) as [_|Hne]; [exact IH|now destruct Hne].
Qed.

Lemma substring_skip (a s : string) (n : nat) :
  String.substring (String.length a) n (a ++ s) = String.substring 0 n s.
Proof.
  induction a as [|x a IH]; simpl; [reflexivity|exact IH].
Qed.

(** A text that is not empty is found in whatever ends with it. *)
Lemma includes_suffix (a t : string) : t <> "" -> Js.includes (a ++ t) t = true.
Proof.
  intros Ht. unfold Js.includes.
  destruct (String.index 0 t (a ++ t)) as [i|] eqn:Hindex; [reflexivity|].
  exfalso. apply (String.index_correct3 0 (String.length a) t (a ++ t) Hindex Ht);
    [lia|].
  rewrite substring_skip. clear.
  induction t as [|x t IH]; simpl; [reflexivity|]. now f_equal.
Qed.

Lemma NoDup_map_eq {A B : Type} (f : A -> B) (l : list A) (a b : A) :
  List.NoDup (List.map f l) -> In a l -> In b l -> f a = f b -> a = b.
Proof.
  induction l as [|x l IH]; intros Hnd Ha Hb Heq; [destruct Ha|].
  cbn [List.map] in Hnd. apply List.NoDup_cons_iff in Hnd. destruct Hnd as [Hfresh Hnd].
  destruct Ha as [->|Ha], Hb as [->|Hb].
  - reflexivity.
  - exfalso. apply Hfresh. rewrite Heq. apply in_map, Hb.
  - exfalso. apply Hfresh. rewrite <- Heq. apply in_map, Ha.
  - apply IH; assumption.
Qed.

Section CurrentCases.
Context `{rt : Js.Runtime}.

(** A run in the current month leaves the ledger as it was or adds to it what
    the loop over the targets of the selected rule pushed, for some ratio. *)
Lemma handleDistributeIncome_current_cases (categories : list Category.t)
    (transactions : list Transaction.t) (incomeSources : list IncomeSource.t)
    (v : Dashboard.View) (today : string) (selectedAllocationIndex : nat)
    (confirmDuplicate confirmProportional : bool) (next : nat) (rule : AllocationRule.t) :
  let dateStr := Dashboard.distributionDate v today current in
  let after :=
    Dashboard.di_transactions
      (Dashboard.handleDistributeIncome categories transactions incomeSources v today
         current selectedAllocationIndex confirmDuplicate confirmProportional next) in
  Dashboard.selectedRule incomeSources selectedAllocationIndex = Some rule ->
  after = transactions
  \/ exists finalRatio parent,
       after
       = (transactions
          ++ forEachPush (Dashboard.targets categories rule dateStr)
               (fun '(_, share, _) => Js.Qgt_bool (share * finalRatio) 0.01)
               (fun id '(cat, share, multiplier) =>
                  Transaction.mk id dateStr (Js.toFixed2 (share * finalRatio))
                    (if Qeq_bool multiplier 1
                     then "Allocated: " ++ Category.name cat ++ " (100% via Linked Payment)"
                     else "Allocated: " ++ Category.name cat ++ " ("
                          ++ Js.numberToString (AllocationRule.percentage rule) ++ "%)")
                    (Some (Category.id cat)) None INCOME parent None None) next)%list.
Proof using Type.
  intros dateStr after Hrule. unfold after, Dashboard.handleDistributeIncome.
  fold dateStr. rewrite Hrule.
  destruct (Qle_bool _ 0); [now left|].
  destruct (Dashboard.isAllocationRuleExecuted _ _ _ _ && negb confirmDuplicate);
    [now left|].
  destruct (Js.Qgt_bool _ _ && negb confirmProportional); [now left|].
  right.
  exists (if Js.Qgt_bool (Dashboard.potentialAllocation categories rule dateStr)
               (Dashboard.totalUnallocatedAvailable categories transactions incomeSources v)
          then Dashboard.totalUnallocatedAvailable categories transactions incomeSources v
               / Dashboard.potentialAllocation categories rule dateStr
          else 1),
    (Dashboard.effectiveParentTxId categories transactions v selectedAllocationIndex).
  destruct (forEachPush _ _ _ _); cbn [Dashboard.di_transactions].
  - rewrite app_nil_r. reflexivity.
  - reflexivity.
Qed.
End CurrentCases.

(** X19. After a distribution in the current month, the rule it followed is
    seen as executed for the viewed month, so that the next run under it asks
    before repeating it, as soon as the run wrote a transaction for a category
    linked to no payment, under a rule of another percentage than 100 (the
    transactions written for a category linked to the payment of the rule,
    and all those written under a rule of 100%, do not tell the rule).  The
    expense categories have distinct ids, by which the transactions name
    them. *)
Theorem handleDistributeIncome_marks_rule `{rt : Js.Runtime}
    (categories : list Category.t) (transactions : list Transaction.t)
    (incomeSources : list IncomeSource.t) (v : Dashboard.View) (today : string)
    (selectedAllocationIndex : nat) (confirmDuplicate confirmProportional : bool)
    (next : nat) (rule : AllocationRule.t) (cat : Category.t) (t : Transaction.t) :
  let out := Dashboard.handleDistributeIncome categories transactions incomeSources v
               today current selectedAllocationIndex confirmDuplicate confirmProportional
               next in
  Dashboard.selectedRule incomeSources selectedAllocationIndex = Some rule ->
  ~ AllocationRule.percentage rule == 100 ->
  List.NoDup (List.map Category.id (expenseEnvelopes categories)) ->
  In cat (expenseEnvelopes categories) ->
  Category.linkedPaymentIndex cat = None ->
  In t (skipn (List.length transactions) (Dashboard.di_transactions out)) ->
  Transaction.categoryId t = Some (Category.id cat) ->
  Dashboard.isAllocationRuleExecuted (Dashboard.di_transactions out) incomeSources v
    selectedAllocationIndex = true.
Proof.
  intros out Hrule Hpct Hids Hcat Hfree Hwritten Htag.
  destruct (handleDistributeIncome_current_cases categories transactions incomeSources v
              today selectedAllocationIndex confirmDuplicate confirmProportional next rule
              Hrule) as [Hsame|(finalRatio & parent & Hrun)];
    fold out in Hsame || fold out in Hrun.
  { rewrite Hsame, skipn_all in Hwritten. destruct Hwritten. }
  rewrite Hrun, skipn_app, skipn_all, Nat.sub_diag in Hwritten.
  cbn [skipn app] in Hwritten.
  pose proof Hwritten as Hin. apply forEachPush_In in Hwritten.
  destruct Hwritten as (id & [[c share] multiplier] & Htarget & _ & ->).
  unfold Dashboard.targets in Htarget. apply in_map_iff in Htarget.
  destruct Htarget as (c' & [= -> <- <-] & Hc).
  change (Dashboard.expenseCategories categories) with (expenseEnvelopes categories) in Hc.
  cbn [Transaction.categoryId] in Htag.
  assert (c = cat) as ->
    by (apply (NoDup_map_eq Category.id (expenseEnvelopes categories)); congruence).
  assert (Qeq_bool (Dashboard.multiplier rule cat) 1 = false) as Hloose.
  { apply not_true_iff_false. intros Heq. apply Qeq_bool_iff in Heq. apply Hpct.
    unfold Dashboard.multiplier in Heq. rewrite Hfree in Heq.
    assert (AllocationRule.percentage rule == AllocationRule.percentage rule / 100 * 100)
      as -> by field.
    rewrite Heq. reflexivity. }
  unfold Dashboard.isAllocationRuleExecuted.
  unfold Dashboard.selectedRule in Hrule.
  destruct (Dashboard.activeSource incomeSources) as [src|]; [|discriminate].
  rewrite Hrule. apply existsb_exists.
  eexists. split; [rewrite Hrun; apply in_or_app; right; exact Hin|].
  cbn [Transaction.type Transaction.date Transaction.description TransactionType_eqb andb].
  rewrite Hloose.
  apply andb_true_intro. split; [apply andb_true_intro; split|reflexivity].
  - unfold Dashboard.distributionDate, Js.startsWith.
    destruct (String.prefix (Dashboard.viewMonthStr v) today) eqn:Htoday; simpl.
    + exact Htoday.
    + apply prefix_append.
  - set (tag := ("(" ++ Js.numberToString (AllocationRule.percentage rule) ++ "%)")%string).
    change ("Allocated: " ++ Category.name cat ++ " ("
            ++ Js.numberToString (AllocationRule.percentage rule) ++ "%)")%string
      with ("Allocated: " ++ (Category.name cat ++ (" " ++ tag)))%string.
    rewrite <- !string_append_assoc. apply includes_suffix. discriminate.
Qed.

Lemma handleDistributeIncome_marks_rule_witness :
  let out :=
    Dashboard.handleDistributeIncome (rt := Scenario.runtime) Scenario.twoEnvelopes
      Scenario.pool300 Scenario.twoPayments Scenario.june "2024-06-10" current 0 false true
      0 in
  Dashboard.isAllocationRuleExecuted (rt := Scenario.runtime) Scenario.pool300
    Scenario.twoPayments Scenario.june 0 = false
  /\ List.map Transaction.description
       (skipn (List.length Scenario.pool300) (Dashboard.di_transactions out))
     = [ "Allocated: Groceries (70%)"; "Allocated: Transport (70%)" ]
  /\ Dashboard.isAllocationRuleExecuted (rt := Scenario.runtime)
       (Dashboard.di_transactions out) Scenario.twoPayments Scenario.june 0 = true.
Proof.
  intros out. split; [reflexivity|]. split; [reflexivity|].
  apply (handleDistributeIncome_marks_rule (rt := Scenario.runtime) Scenario.twoEnvelopes
           Scenario.pool300 Scenario.twoPayments Scenario.june "2024-06-10" 0 false true 0
           Scenario.firstRule (Scenario.expenseCategory "cat-a" "Groceries" 300 [] None)
           (Transaction.mk "tx-0" "2024-06-10" (15000 # 100) "Allocated: Groceries (70%)"
              (Some "cat-a") None INCOME None None None)).
  - reflexivity.
  - intros H. vm_compute in H. discriminate H.
  - repeat constructor; simpl; intuition discriminate.
  - left. reflexivity.
  - reflexivity.
  - vm_compute. left. reflexivity.
  - reflexivity.
Defined.

(** Under a rule of 100% every category has the multiplier 1 and is described
    as linked, and the rule is not seen as executed after the run. *)
Example handleDistributeIncome_whole_rule_unmarked :
  let out :=
    Dashboard.handleDistributeIncome (rt := Scenario.runtime) Scenario.twoEnvelopes
      Scenario.pool300 Scenario.oneSource Scenario.june "2024-06-10" current 0 false true 0 in
  List.map Transaction.description (Scenario.added Scenario.pool300 (Dashboard.di_transactions out))
  = [ "Allocated: Groceries (100% via Linked Payment)";
      "Allocated: Transport (100% via Linked Payment)" ]
  /\ Dashboard.isAllocationRuleExecuted (rt := Scenario.runtime)
       (Dashboard.di_transactions out) Scenario.oneSource Scenario.june 0 = false.
Proof. split; reflexivity. Qed.

(** ** Edits of a funded transaction *)



(** ** One-time expenses paid from accounts *)

Lemma currentBalance_cons (t : Transaction.t) (l : list Transaction.t) (acc : Account.t) :
  DashboardAccounts.currentBalance (t :: l) acc
  == DashboardAccounts.currentBalance l acc + accountEffect acc t.
Proof.
  unfold DashboardAccounts.currentBalance, DashboardAccounts.accountSum,
    DashboardAccounts.isTransfer, accountEffect. cbn [List.filter].
  destruct (Js.opt_is (Transaction.accountId t) (Account.id acc)); cbn [andb]; [|ring].
  destruct (Transaction.type t); cbn [TransactionType_eqb andb];
    try (rewrite ?sum_by_cons; ring).
  destruct (Transaction.transferDirection t) as [[|]|]; rewrite ?sum_by_cons; ring.
Qed.

Lemma currentBalance_app (l1 l2 : list Transaction.t) (acc : Account.t) :
  DashboardAccounts.currentBalance (l1 ++ l2) acc
  == DashboardAccounts.currentBalance l2 acc + Js.sum_by (accountEffect acc) l1.
Proof.
  induction l1 as [|t l IH]; simpl.
  - unfold Js.sum_by. simpl. ring.
  - rewrite currentBalance_cons, IH, sum_by_cons. ring.
Qed.

(** X21. Where accounts exist, a one-time expense that passes the checks
    lowers the balance of every account by what is paid from it and touches
    no other balance: the whole amount from the account chosen, if one is
    chosen, or, in a split payment, the positive amounts entered for the
    account.  In a split payment with no negative amount entered, the amounts
    paid total the expense to within a cent. *)
Theorem handleCreateOneTimeExpense_accounts `{rt : Js.Runtime}
    (accounts : list Account.t) (categories : list Category.t)
    (transactions : list Transaction.t) (v : Dashboard.View)
    (oneTimeDesc oneTimeAmount oneTimeDate : string) (fundingSources : list (string * Q))
    (isSplitPayment : bool) (paymentSplits : list (string * Q))
    (selectedOneTimeAccount : string) (next : nat) (expenseAmount : Q) :
  let out := DashboardAccounts.handleCreateOneTimeExpense accounts categories transactions v
               oneTimeDesc oneTimeAmount oneTimeDate fundingSources isSplitPayment
               paymentSplits selectedOneTimeAccount next in
  let paidFrom acc :=
    if isSplitPayment then
      Js.sum_by snd
        (List.filter (fun '(accId, amt) => String.eqb accId (Account.id acc)
                                           && Js.Qgt_bool amt 0) paymentSplits)
    else if negb (String.eqb selectedOneTimeAccount "")
            && String.eqb selectedOneTimeAccount (Account.id acc)
         then expenseAmount else 0 in
  JsString.parseFloat oneTimeAmount = Some expenseAmount ->
  0 < expenseAmount ->
  DashboardAccounts.ot_report out = DashboardAccounts.ReportNone ->
  (forall acc,
     DashboardAccounts.currentBalance (DashboardAccounts.ot_transactions out) acc
     == DashboardAccounts.currentBalance transactions acc - paidFrom acc)
  /\ (isSplitPayment = true ->
      (forall accId amt, In (accId, amt) paymentSplits -> 0 <= amt) ->
      Qabs (Js.sum_by snd (List.filter (fun '(_, amt) => Js.Qgt_bool amt 0) paymentSplits)
            - expenseAmount) <= 0.01).
Proof.
  intros out paidFrom Hparse Hpos. unfold out, DashboardAccounts.handleCreateOneTimeExpense.
  rewrite Hparse.
  assert (Qle_bool expenseAmount 0 = false) as ->.
  { apply not_true_iff_false. rewrite Qle_bool_iff. lra. }
  destruct (Js.Qgt_bool (Qmax 0 _) _); [discriminate|].
  destruct (isSplitPayment && Js.Qgt_bool (Qabs _) 0.01) eqn:Hsplit; [discriminate|].
  intros _.
  set (found := match find _ categories with Some c => _ | None => _ end).
  destruct found as [[otherCategory categories'] next1].
  cbn [DashboardAccounts.ot_transactions].
  set (debits := forEachPush fundingSources _ _ next1).
  assert (forall acc, Js.sum_by (accountEffect acc) debits == 0) as Hdebits.
  { intros acc.
    rewrite (sum_by_views (accountEffect acc) (fun _ : string * Q => 0) debits
               (List.filter (fun '(_, val) => negb (Qle_bool val 0)) fundingSources))
      by (apply forEachPush_view; intros id [catId val]; reflexivity).
    generalize (List.filter (fun '(_, val) => negb (Qle_bool val 0)) fundingSources).
    intros l. induction l as [|a l IH]; [reflexivity|]. rewrite sum_by_cons, IH. ring. }
  split.
  - intros acc. rewrite currentBalance_app. unfold paidFrom.
    destruct isSplitPayment.
    + set (mk := fun (id : string) '((accId, amt) : string * Q) =>
                   Transaction.mk id oneTimeDate amt _ (Some (Category.id otherCategory))
                     (Some accId) EXPENSE None None None).
      rewrite <- (sum_by_map (accountEffect acc) (fun q => q)).
      rewrite (forEachPush_acc paymentSplits (fun '(_, amt) => negb (Qle_bool amt 0)) mk next1
                 (accountEffect acc)
                 (fun '(accId, amt) => if String.eqb accId (Account.id acc) then - amt else 0))
        by (intros id [accId amt]; reflexivity).
      rewrite sum_by_app, !(sum_by_map _ (fun q => q)). cbv beta.
      rewrite (Hdebits acc).
      assert (forall l : list (string * Q),
                Js.sum_by (fun x => let '(accId, amt) := x in
                                    if String.eqb accId (Account.id acc) then - amt else 0)
                  (List.filter (fun '(_, amt) => negb (Qle_bool amt 0)) l)
                == - Js.sum_by snd
                       (List.filter (fun '(accId, amt) => String.eqb accId (Account.id acc)
                                                          && Js.Qgt_bool amt 0) l)) as Hpaid.
      { induction l as [|[accId amt] l IH]; [reflexivity|]. cbn [List.filter].
        unfold Js.Qgt_bool at 1.
        destruct (Qle_bool amt 0); cbn [negb]; rewrite ?andb_false_r; [exact IH|].
        rewrite andb_true_r, sum_by_cons, IH.
        destruct (String.eqb accId (Account.id acc)); rewrite ?sum_by_cons; simpl; ring. }
      rewrite Hpaid. ring.
    + rewrite sum_by_app, (Hdebits acc), sum_by_cons.
      unfold accountEffect at 1, Dashboard.orUndefined.
      cbn [Transaction.accountId Transaction.type Transaction.amount].
      destruct (String.eqb selectedOneTimeAccount ""); cbn [Js.opt_is negb andb].
      * unfold Js.sum_by. simpl. ring.
      * destruct (String.eqb selectedOneTimeAccount (Account.id acc));
          unfold Js.sum_by; simpl; ring.
  - intros -> Hnonneg. cbn [andb] in Hsplit. apply Qgt_bool_false_iff in Hsplit.
    change (fold_left (fun sum val => sum + val) (List.map snd paymentSplits) 0)
      with (Js.sum_by (fun q : Q => q) (List.map snd paymentSplits)) in Hsplit.
    rewrite sum_by_map in Hsplit.
    assert (Js.sum_by snd (List.filter (fun '(_, amt) => Js.Qgt_bool amt 0) paymentSplits)
            == Js.sum_by (fun x : string * Q => snd x) paymentSplits) as ->; [|exact Hsplit].
    rewrite <- (sum_by_positive (fun x : string * Q => snd x) paymentSplits)
      by (intros [accId amt] Hin; apply (Hnonneg accId amt Hin)).
    erewrite filter_ext; [reflexivity|]. intros [accId amt]. reflexivity.
Qed.

Lemma handleCreateOneTimeExpense_accounts_witness :
  let out :=
    DashboardAccounts.handleCreateOneTimeExpense (rt := Scenario.runtime) Scenario.twoAccounts
      Scenario.twoEnvelopes Scenario.pool300 Scenario.june "Repair" "80" "2024-06-12"
      [ ("cat-a", 50) ] true [ ("acc-1", 50); ("acc-2", 30) ] "" 0 in
  List.length (DashboardAccounts.ot_transactions out) = 4%nat
  /\ (forall acc,
        DashboardAccounts.currentBalance (DashboardAccounts.ot_transactions out) acc
        == DashboardAccounts.currentBalance Scenario.pool300 acc
           - Js.sum_by snd
               (List.filter (fun '(accId, amt) => String.eqb accId (Account.id acc)
                                                  && Js.Qgt_bool amt 0)
                  [ ("acc-1", 50); ("acc-2", 30) ]))
  /\ Qabs (Js.sum_by snd
             (List.filter (fun '(_, amt) => Js.Qgt_bool amt 0) [ ("acc-1", 50); ("acc-2", 30) ])
           - 80) <= 0.01.
Proof.
  intros out. split; [reflexivity|].
  destruct (handleCreateOneTimeExpense_accounts (rt := Scenario.runtime) Scenario.twoAccounts
              Scenario.twoEnvelopes Scenario.pool300 Scenario.june "Repair" "80" "2024-06-12"
              [ ("cat-a", 50) ] true [ ("acc-1", 50); ("acc-2", 30) ] "" 0 80)
    as [Hbalances Htotal]; try reflexivity.
  split; [exact Hbalances|].
  apply Htotal; [reflexivity|].
  intros accId amt [[= <- <-]|[[= <- <-]|[]]]; vm_compute; discriminate.
Defined.

